(** * Sales-revenue dashboard (src/js/sales-revenue.js)

    A shallow embedding of the dashboard script: the JSON payloads it
    receives are JavaScript values, the page is a store of element
    contents, the Chart.js registry is a list of live instances, and every
    function of the script is a function of the same name over that state.
    Exceptions are explicit: a computation either returns or throws, and in
    both cases hands back the page as it left it.

    What the language runtime provides and the script merely calls
    (Number-to-string conversion, locale formatting, numeric parsing) is an
    interface, [Host]; the theorems of the section [Properties] hold for
    every host.  A reference host following ECMA-262 / ECMA-402 runs the
    concrete cases. *)

From Stdlib Require Import ZArith NArith List String Ascii Floats Lia.
From stdpp Require Import base option list gmap.

Set Default Proof Using "Type".

(** ** Strings

    A JavaScript string is a sequence of UTF-16 code units.  The source
    file is UTF-8 text, so literals are written as Rocq strings and decoded. *)

Abbreviation jsstring := (list N).

Module Utf.

(** The code units of one code point. *)
Definition utf16_encode (cp : N) : jsstring :=
  if (cp <? 0x10000)%N then [cp]
  else
    let c := (cp - 0x10000)%N in
    [(0xD800 + c / 0x400)%N; (0xDC00 + c mod 0x400)%N].

(** UTF-8 decoding, [pending] continuation bytes still expected for the
    code point accumulated in [acc]. *)
Fixpoint decode (pending : nat) (acc : N) (s : string) : jsstring :=
  match s with
  | EmptyString => []
  | String a rest =>
      let b := N_of_ascii a in
      match pending with
      | O =>
          if (b <? 0x80)%N then b :: decode 0 0%N rest
          else if (b <? 0xE0)%N then decode 1 (b mod 0x20)%N rest
          else if (b <? 0xF0)%N then decode 2 (b mod 0x10)%N rest
          else decode 3 (b mod 0x08)%N rest
      | S O => utf16_encode (acc * 64 + b mod 64)%N ++ decode 0 0%N rest
      | S p => decode p (acc * 64 + b mod 64)%N rest
      end
  end.

End Utf.

(** A string literal of the script. *)
Definition js (s : string) : jsstring := Utf.decode 0 0%N s.
Arguments js s%_string.

(** The double quote, which delimits the attributes of the markup. *)
Definition dq : jsstring := [34%N].
(** A quoted attribute value. *)
Definition quoted (s : jsstring) : jsstring := dq ++ s ++ dq.
(** Line feed and indentation, as they occur inside template literals. *)
Definition nl : jsstring := [10%N].
Definition sp (n : nat) : jsstring := replicate n 32%N.

Fixpoint starts_with (s pre : jsstring) : bool :=
  match pre, s with
  | [], _ => true
  | _ :: _, [] => false
  | p :: pre', c :: s' => (p =? c)%N && starts_with s' pre'
  end.

(** [String.prototype.includes]: [sub] occurs somewhere in [s]. *)
Fixpoint includes (s sub : jsstring) : bool :=
  starts_with s sub ||
  match s with
  | [] => false
  | _ :: s' => includes s' sub
  end.

(** [String.prototype.charAt]: the code unit at [i] as a string, or the
    empty string when [i] is out of range. *)
Definition charAt (s : jsstring) (i : nat) : jsstring :=
  match s !! i with
  | Some c => [c]
  | None => []
  end.

(** [Array.prototype.join]. *)
Fixpoint join (sep : jsstring) (parts : list jsstring) : jsstring :=
  match parts with
  | [] => []
  | [p] => p
  | p :: rest => p ++ sep ++ join sep rest
  end.

(** ** Values *)

(** JSON payloads, plus [undefined] (what a missing property reads as) and
    the one built-in function a property read of the script can reach
    ([Array.prototype.values], when [.values] is read off an array). *)
#[warnings="-register-all"]
Inductive value :=
| VUndefined
| VNull
| VBool (b : bool)
| VNum (x : float)
| VStr (s : jsstring)
| VArr (items : list value)
| VObj (props : list (jsstring * value))
| VNative (name : jsstring) (arity : nat).

Inductive error :=
| TypeError_nullish      (* Cannot read properties of undefined / null *)
| TypeError_not_callable (* x.f is not a function *)
| TypeError_to_primitive (* Cannot convert object to primitive value *).

(** Completion of an effect-free operation. *)
Inductive completion (A : Type) :=
| Normal (a : A)
| Abrupt (e : error).
Arguments Normal {A} a.
Arguments Abrupt {A} e.

Definition cbind {A B} (c : completion A) (k : A -> completion B) : completion B :=
  match c with
  | Normal a => k a
  | Abrupt e => Abrupt e
  end.

Global Instance completion_ret : MRet completion := fun A a => Normal a.
Global Instance completion_bind : MBind completion := fun A B k c => cbind c k.

(** The numbers the runtime converts for the script. *)
Class Host := {
  (** Number::toString, radix 10 *)
  NumberToString : float -> jsstring;
  (** [Number.prototype.toLocaleString] for a locale tag *)
  NumberToLocaleString : jsstring -> float -> jsstring;
  (** StringToNumber: the numeric value of a string *)
  StringToNumber : jsstring -> float;
  (** the source text of a built-in function *)
  NativeFunctionToString : jsstring -> jsstring
}.

(** Own-property lookup; properties are kept in insertion order. *)
Fixpoint own_property (props : list (jsstring * value)) (k : jsstring) : option value :=
  match props with
  | [] => None
  | (k', v) :: rest => if decide (k' = k) then Some v else own_property rest k
  end.

Definition has_own (props : list (jsstring * value)) (k : jsstring) : bool :=
  bool_decide (is_Some (own_property props k)).

(** ToBoolean. *)
Definition truthy (v : value) : bool :=
  match v with
  | VUndefined | VNull => false
  | VBool b => b
  | VNum x => negb (PrimFloat.is_zero x || PrimFloat.is_nan x)
  | VStr s => negb (bool_decide (s = []))
  | VArr _ | VObj _ | VNative _ _ => true
  end.

(** [a || b] *)
Definition or_else (a b : value) : value := if truthy a then a else b.

(** The property names the script reads off its payloads. *)
Inductive prop :=
| totalRevenue | conversionRate | averageBasket | totalOrders
| labels | values
| iconUrl | name | iconBgColor | price.

Definition prop_name (p : prop) : jsstring :=
  match p with
  | totalRevenue => js "totalRevenue"
  | conversionRate => js "conversionRate"
  | averageBasket => js "averageBasket"
  | totalOrders => js "totalOrders"
  | labels => js "labels"
  | values => js "values"
  | iconUrl => js "iconUrl"
  | name => js "name"
  | iconBgColor => js "iconBgColor"
  | price => js "price"
  end.

(** [o.p] for one of those names: an own property of an object, what the
    prototypes define under these names, [undefined] otherwise; reading a
    property of [undefined] or [null] throws. *)
Definition get (o : value) (p : prop) : completion value :=
  match o with
  | VUndefined | VNull => Abrupt TypeError_nullish
  | VObj props => Normal (default VUndefined (own_property props (prop_name p)))
  | VArr items =>
      match p with
      | values => Normal (VNative (js "values") 0)
      | _ => Normal VUndefined
      end
  | VNative n a =>
      match p with
      | name => Normal (VStr n)
      | _ => Normal VUndefined
      end
  | VStr _ | VBool _ | VNum _ => Normal VUndefined
  end.

(** [o.length].  The length of an array or a string (and the arity of a
    function) is an exact natural number; any other value holds whatever
    its own [length] property is. *)
Inductive jslength :=
| Exactly (n : nat)
| Held (v : value).

Definition get_length (o : value) : completion jslength :=
  match o with
  | VUndefined | VNull => Abrupt TypeError_nullish
  | VArr items => Normal (Exactly (length items))
  | VStr s => Normal (Exactly (length s))
  | VNative _ a => Normal (Exactly a)
  | VObj props => Normal (Held (default VUndefined (own_property props (js "length"))))
  | VBool _ | VNum _ => Normal (Held VUndefined)
  end.

Section Coercions.
Context `{Host}.

(** ToString.  An object converts through [Object.prototype.toString]
    unless an own [toString] property (never callable in a JSON payload)
    hides it, in which case the conversion throws. *)
Fixpoint ToString (v : value) : completion jsstring :=
  match v with
  | VUndefined => Normal (js "undefined")
  | VNull => Normal (js "null")
  | VBool true => Normal (js "true")
  | VBool false => Normal (js "false")
  | VNum x => Normal (NumberToString x)
  | VStr s => Normal s
  | VArr items =>
      let fix parts (l : list value) : completion (list jsstring) :=
        match l with
        | [] => Normal []
        | i :: l' =>
            cbind (match i with
                   | VUndefined | VNull => Normal []
                   | _ => ToString i
                   end)
                  (fun s => cbind (parts l') (fun ss => Normal (s :: ss)))
        end in
      cbind (parts items) (fun ss => Normal (join (js ",") ss))
  | VObj props =>
      if has_own props (js "toString") then Abrupt TypeError_to_primitive
      else Normal (js "[object Object]")
  | VNative n _ => Normal (NativeFunctionToString n)
  end.

(** ToNumber. *)
Definition ToNumber (v : value) : completion float :=
  match v with
  | VUndefined => Normal PrimFloat.nan
  | VNull => Normal 0%float
  | VBool true => Normal 1%float
  | VBool false => Normal 0%float
  | VNum x => Normal x
  | VStr s => Normal (StringToNumber s)
  | VArr _ | VObj _ | VNative _ _ =>
      cbind (ToString v) (fun s => Normal (StringToNumber s))
  end.

(** [v.toLocaleString(locale)].  Numbers are formatted by the host,
    strings return themselves, arrays format their elements; everything
    else inherits [Object.prototype.toLocaleString], which calls
    [toString]. *)
Fixpoint toLocaleString (locale : jsstring) (v : value) : completion jsstring :=
  match v with
  | VUndefined | VNull => Abrupt TypeError_nullish
  | VNum x => Normal (NumberToLocaleString locale x)
  | VStr s => Normal s
  | VBool _ | VNative _ _ => ToString v
  | VArr items =>
      let fix parts (l : list value) : completion (list jsstring) :=
        match l with
        | [] => Normal []
        | i :: l' =>
            cbind (match i with
                   | VUndefined | VNull => Normal []
                   | _ => toLocaleString locale i
                   end)
                  (fun s => cbind (parts l') (fun ss => Normal (s :: ss)))
        end in
      cbind (parts items) (fun ss => Normal (join (js ",") ss))
  | VObj props =>
      if has_own props (js "toLocaleString") then Abrupt TypeError_not_callable
      else if has_own props (js "toString") then Abrupt TypeError_not_callable
      else Normal (js "[object Object]")
  end.

(** [v.charAt(i)]: a method of strings only. *)
Definition call_charAt (v : value) (i : nat) : completion jsstring :=
  match v with
  | VUndefined | VNull => Abrupt TypeError_nullish
  | VStr s => Normal (charAt s i)
  | _ => Abrupt TypeError_not_callable
  end.

(** SameValueZero against a string. *)
Definition same_as_string (k : jsstring) (v : value) : bool :=
  match v with
  | VStr s => bool_decide (s = k)
  | _ => false
  end.

(** [v.includes(k)] for a string [k]: substring search on a string,
    membership on an array. *)
Definition call_includes (v : value) (k : jsstring) : completion bool :=
  match v with
  | VUndefined | VNull => Abrupt TypeError_nullish
  | VStr s => Normal (includes s k)
  | VArr items => Normal (existsb (same_as_string k) items)
  | _ => Abrupt TypeError_not_callable
  end.

End Coercions.

Section Lengths.
Context `{Host}.

(** ToIntegerOrInfinity, then the clamping [Array.prototype.slice] applies
    to its [end] argument for an array of [len] elements. *)
Definition clamp_end (len : nat) (x : float) : nat :=
  match Prim2SF x with
  | S754_nan | S754_zero _ => 0
  | S754_infinity negative => if negative then 0 else len
  | S754_finite negative m e =>
      let magnitude := (if (0 <=? e)%Z then Z.pos m * 2 ^ e
                        else Z.pos m / 2 ^ (- e))%Z in
      if negative && (0 <? magnitude)%Z
      then Z.to_nat (Z.max (Z.of_nat len - magnitude) 0)
      else Z.to_nat (Z.min magnitude (Z.of_nat len))
  end.

(** [arr.slice(0, end)]. *)
Definition slice_to {A} (arr : list A) (e : jslength) : completion (list A) :=
  match e with
  | Exactly n => Normal (take n arr)
  | Held VUndefined => Normal arr
  | Held v => cbind (ToNumber v) (fun x => Normal (take (clamp_end (length arr) x) arr))
  end.

(** [len > 0]. *)
Definition positive_length (l : jslength) : completion bool :=
  match l with
  | Exactly n => Normal (bool_decide (0 < n))
  | Held v => cbind (ToNumber v) (fun x => Normal (PrimFloat.ltb 0 x))
  end.

End Lengths.

(** ** The page, the chart registry and the script's variables *)

(** What an element contains.  Markup assigned through [innerHTML] is kept
    as the string that was assigned. *)
#[warnings="-register-all"]
Inductive node :=
| Text (s : jsstring)
| Markup (html : jsstring)
| Element (tag className : jsstring) (content : list node).

(** The children an element has after [textContent = s] and after
    [innerHTML = s]. *)
Definition text_content (s : jsstring) : list node :=
  if decide (s = []) then [] else [Text s].
Definition inner_html (s : jsstring) : list node :=
  if decide (s = []) then [] else [Markup s].

Inductive Canvas := RevenueTrendCanvas | SalesByChannelCanvas.

Global Instance Canvas_eq_dec : EqDecision Canvas.
Proof. solve_decision. Defined.

(** The argument Chart.js passes to a tooltip label callback: of a line
    chart, the label of the dataset and the parsed value ([null] for a
    gap); of a doughnut chart, the label of the slice and its value. *)
Record PointContext := { dataset_label : option jsstring; parsed_y : option float }.
Record SliceContext := { slice_label : option jsstring; parsed : option float }.

(** The configuration objects handed to [new Chart].  Colours, data and
    callbacks are kept; the font sizes, grid and padding constants, which
    nothing reads back, are not. *)
Record LineConfig := {
  line_labels : value;
  line_dataset_label : jsstring;
  line_data : value;
  line_borderColor : jsstring;
  line_backgroundColor : jsstring;
  line_tick : float -> jsstring;
  line_tooltip : PointContext -> jsstring
}.

Record DoughnutConfig := {
  arc_labels : value;
  arc_data : value;
  arc_backgroundColor : list jsstring;
  arc_borderColor : jsstring;
  arc_cutout : jsstring;
  arc_tooltip : SliceContext -> jsstring
}.

Inductive ChartConfig :=
| Line (c : LineConfig)
| Doughnut (c : DoughnutConfig).

(** A live chart instance: bound to a canvas until it is destroyed. *)
Record Chart := {
  chart_id : nat;
  chart_canvas : Canvas;
  chart_config : ChartConfig
}.

Inductive Resource := Metrics | RevenueTrend | SalesByChannel | TopSellingProducts.

Inductive console_entry :=
| Log (msg : jsstring)
| Error (msg : jsstring) (e : error).

(** What the orchestrator did, in order (a ghost record: nothing reads it). *)
Inductive event :=
| Requested (url : value)
| Settled (v : value)
| Updated (r : Resource).

Record World := {
  (** the children of every element that has an id *)
  document : gmap jsstring (list node);
  (** Chart.js: the live instances, and the next instance number *)
  charts : list Chart;
  chart_seq : nat;
  (** [let revenueTrendChart; let salesByChannelChart;] *)
  revenueTrendChart : option nat;
  salesByChannelChart : option nat;
  console : list console_entry;
  (** virtual time, in milliseconds *)
  clock : nat;
  journal : list event
}.

Definition with_document (f : gmap jsstring (list node) -> gmap jsstring (list node)) (w : World) : World :=
  {| document := f (document w); charts := charts w; chart_seq := chart_seq w;
     revenueTrendChart := revenueTrendChart w; salesByChannelChart := salesByChannelChart w;
     console := console w; clock := clock w; journal := journal w |}.

Definition with_charts (f : list Chart -> list Chart) (w : World) : World :=
  {| document := document w; charts := f (charts w); chart_seq := chart_seq w;
     revenueTrendChart := revenueTrendChart w; salesByChannelChart := salesByChannelChart w;
     console := console w; clock := clock w; journal := journal w |}.

Definition with_chart_seq (n : nat) (w : World) : World :=
  {| document := document w; charts := charts w; chart_seq := n;
     revenueTrendChart := revenueTrendChart w; salesByChannelChart := salesByChannelChart w;
     console := console w; clock := clock w; journal := journal w |}.

Definition with_revenueTrendChart (h : option nat) (w : World) : World :=
  {| document := document w; charts := charts w; chart_seq := chart_seq w;
     revenueTrendChart := h; salesByChannelChart := salesByChannelChart w;
     console := console w; clock := clock w; journal := journal w |}.

Definition with_salesByChannelChart (h : option nat) (w : World) : World :=
  {| document := document w; charts := charts w; chart_seq := chart_seq w;
     revenueTrendChart := revenueTrendChart w; salesByChannelChart := h;
     console := console w; clock := clock w; journal := journal w |}.

Definition with_console (f : list console_entry -> list console_entry) (w : World) : World :=
  {| document := document w; charts := charts w; chart_seq := chart_seq w;
     revenueTrendChart := revenueTrendChart w; salesByChannelChart := salesByChannelChart w;
     console := f (console w); clock := clock w; journal := journal w |}.

Definition with_clock (f : nat -> nat) (w : World) : World :=
  {| document := document w; charts := charts w; chart_seq := chart_seq w;
     revenueTrendChart := revenueTrendChart w; salesByChannelChart := salesByChannelChart w;
     console := console w; clock := f (clock w); journal := journal w |}.

Definition with_journal (f : list event -> list event) (w : World) : World :=
  {| document := document w; charts := charts w; chart_seq := chart_seq w;
     revenueTrendChart := revenueTrendChart w; salesByChannelChart := salesByChannelChart w;
     console := console w; clock := clock w; journal := f (journal w) |}.

(** ** Computations: return or throw, over the world *)

Inductive outcome (A : Type) :=
| Returns (a : A) (w : World)
| Throws (e : error) (w : World).
Arguments Returns {A} a w.
Arguments Throws {A} e w.

Definition M (A : Type) : Type := World -> outcome A.

Definition world_after {A} (o : outcome A) : World :=
  match o with
  | Returns _ w => w
  | Throws _ w => w
  end.

Global Instance M_ret : MRet M := fun A a w => Returns a w.
Global Instance M_bind : MBind M := fun A B k m w =>
  match m w with
  | Returns a w' => k a w'
  | Throws e w' => Throws e w'
  end.

Definition lift {A} (c : completion A) : M A := fun w =>
  match c with
  | Normal a => Returns a w
  | Abrupt e => Throws e w
  end.

Definition modify (f : World -> World) : M unit := fun w => Returns tt (f w).
Definition read {A} (f : World -> A) : M A := fun w => Returns (f w) w.

(** [try { body } catch (error) { handler }] *)
Definition try_catch {A} (body : M A) (handler : error -> M A) : M A := fun w =>
  match body w with
  | Returns a w' => Returns a w'
  | Throws e w' => handler e w'
  end.

(** [l.forEach(f)] over the elements of an array, with their indices. *)
Fixpoint for_each {A} (f : A -> nat -> M unit) (l : list A) (index : nat) : M unit :=
  match l with
  | [] => mret tt
  | a :: l' => f a index ;; for_each f l' (S index)
  end.

Definition mark (e : event) : M unit := modify (with_journal (fun j => j ++ [e])).

(** ** Promises and timers *)

Inductive settlement :=
| Fulfilled (v : value)
| Rejected (e : error).

(** A promise, by the delay after which it settles and how. *)
Record promise := { delay : nat; settles : settlement }.

(** [new Promise(resolve => setTimeout(() => resolve(v), ms))] *)
Definition resolve_after (ms : nat) (v : value) : promise :=
  {| delay := ms; settles := Fulfilled v |}.

(** The promise an [async] function returns for a body without [await]:
    fulfilled with a returned value, following a returned promise,
    rejected with a thrown exception.  Calling it never throws. *)
Definition async (body : M (value + promise)) : M promise := fun w =>
  match body w with
  | Returns (inl v) w' => Returns {| delay := 0; settles := Fulfilled v |} w'
  | Returns (inr p) w' => Returns p w'
  | Throws e w' => Returns {| delay := 0; settles := Rejected e |} w'
  end.

(** A call to an [async] function whose promise nobody awaits: the body
    runs, and a rejection is dropped. *)
Definition detached (body : M unit) : M unit := fun w =>
  Returns tt (world_after (body w)).

(** [await p]: nothing else runs until [p] settles. *)
Definition await (p : promise) : M value := fun w =>
  let w' := with_clock (fun t => t + delay p) w in
  match settles p with
  | Fulfilled v => Returns v (with_journal (fun j => j ++ [Settled v]) w')
  | Rejected e => Throws e w'
  end.

(** ** Page and Chart.js operations *)

(** [document.getElementById(id).<property> = ...]: replaces the children
    of the element; assigning through the [null] of a missing element
    throws. *)
Definition set_children (id : jsstring) (f : list node -> list node) : M unit := fun w =>
  match document w !! id with
  | Some c => Returns tt (with_document (insert id (f c)) w)
  | None => Throws TypeError_nullish w
  end.

Definition set_innerHTML (id : jsstring) (html : jsstring) : M unit :=
  set_children id (fun _ => inner_html html).

Definition appendChild (id : jsstring) (child : node) : M unit :=
  set_children id (fun c => c ++ [child]).

(** [document.getElementById(id).getContext('2d')] *)
Definition getContext (id : jsstring) (c : Canvas) : M Canvas := fun w =>
  match document w !! id with
  | Some _ => Returns c w
  | None => Throws TypeError_nullish w
  end.

(** [new Chart(ctx, config)] *)
Definition new_Chart (ctx : Canvas) (config : ChartConfig) : M nat := fun w =>
  let i := chart_seq w in
  Returns i (with_chart_seq (S i)
              (with_charts (fun l => l ++ [{| chart_id := i; chart_canvas := ctx;
                                              chart_config := config |}]) w)).

(** [chart.destroy()] *)
Definition destroy (i : nat) : M unit :=
  modify (with_charts (filter (fun ch => chart_id ch ≠ i))).

Definition console_log (msg : jsstring) : M unit :=
  modify (with_console (fun l => l ++ [Log msg])).
Definition console_error (msg : jsstring) (e : error) : M unit :=
  modify (with_console (fun l => l ++ [Error msg e])).

(** ** The script *)

Definition API_ENDPOINTS (r : Resource) : jsstring :=
  match r with
  | Metrics => js "https://api.example.com/dashboard/metrics"
  | RevenueTrend => js "https://api.example.com/dashboard/revenue-trend"
  | SalesByChannel => js "https://api.example.com/dashboard/sales-by-channel"
  | TopSellingProducts => js "https://api.example.com/dashboard/top-selling-products"
  end.

Module CHART_COLORS.
Definition primaryPurple := js "#886FE4".
Definition secondaryPurple := js "#E0B8FF".
Definition blueAccent := js "#6495ED".
Definition redAccent := js "#FF6384".
Definition textLight := js "#F0F0F0".
Definition textMuted := js "#A0A0A0".
Definition gridColor := js "rgba(255, 255, 255, 0.1)".
Definition cardBg := js "#0F3460".
End CHART_COLORS.

Definition mock_product (n : string) (p : float) (url bg : string) : value :=
  VObj [(js "name", VStr (js n)); (js "price", VNum p);
        (js "iconUrl", VStr (js url)); (js "iconBgColor", VStr (js bg))].

#[warnings="-inexact-float"]
Definition MOCK_API_RESPONSES : list (jsstring * value) :=
  [ (js "/dashboard/metrics",
     VObj [(js "totalRevenue", VStr (js "₺2.4M"));
           (js "conversionRate", VStr (js "3.47%"));
           (js "averageBasket", VStr (js "₺347"));
           (js "totalOrders", VStr (js "6,847"));
           (js "totalRevenueChange", VNum 12.5);
           (js "conversionRateChange", VNum 3.2);
           (js "averageBasketChange", VNum 8.1);
           (js "totalOrdersChange", VNum 15.3)]);
    (js "/dashboard/revenue-trend",
     VObj [(js "labels", VArr (map (fun s => VStr (js s))
                                ["Oca"; "Şub"; "Mar"; "Nis"; "May"; "Haz"]%string));
           (js "values", VArr (map VNum [350000; 380000; 360000; 420000; 450000; 480000]%float))]);
    (js "/dashboard/sales-by-channel",
     VObj [(js "labels", VArr (map (fun s => VStr (js s))
                                ["Web Sitesi"; "Mobil App"; "Sosyal Medya"; "Mağaza"]%string));
           (js "values", VArr (map VNum [40; 25; 20; 15]%float))]);
    (js "/dashboard/top-selling-products",
     VArr [ mock_product "Laptop Pro" 45600 "https://via.placeholder.com/60/7B68EE/FFFFFF?text=L" "#7B68EE";
            mock_product "Akıllı Telefon" 28900 "https://via.placeholder.com/60/66CDAA/FFFFFF?text=T" "#66CDAA";
            mock_product "Kulaklık" 1250 "https://via.placeholder.com/60/9370DB/FFFFFF?text=H" "#9370DB";
            mock_product "Tablet" 8750 "https://via.placeholder.com/60/ADD8E6/FFFFFF?text=B" "#ADD8E6";
            mock_product "Kamera" 15600 "https://via.placeholder.com/60/FF6347/FFFFFF?text=C" "#FF6347";
            mock_product "Akıllı Saat" 7200 "https://via.placeholder.com/60/FFD700/FFFFFF?text=W" "#FFD700" ]) ].

Section Script.
Context `{Host}.

(** [Object.keys(MOCK_API_RESPONSES).find(mockUrl => url.includes(mockUrl))]:
    the first key, in insertion order, that the callback accepts;
    [None] is [undefined]. *)
Fixpoint find_key (url : value) (keys : list jsstring) : completion (option jsstring) :=
  match keys with
  | [] => Normal None
  | mockUrl :: rest =>
      cbind (call_includes url mockUrl)
            (fun found => if found then Normal (Some mockUrl) else find_key url rest)
  end.

Definition fetchData (url : value) : M promise :=
  async
    (mark (Requested url);;
     try_catch
       (shown ← lift (ToString url);
        console_log (js "Fetching mock data for: " ++ shown);;
        key ← lift (find_key url (map fst MOCK_API_RESPONSES));
        match key with
        | Some k =>
            if truthy (VStr k)
            then mret (inr (resolve_after 500
                              (default VUndefined (own_property MOCK_API_RESPONSES k))))
            else mret (inl VNull)
        | None => mret (inl VNull)
        end)
       (fun error => console_error (js "Veri çekme hatası:") error;; mret (inl VNull))).

(** The string a value becomes when assigned to [textContent]. *)
Definition text_of (v : value) : completion jsstring :=
  match v with
  | VUndefined | VNull => Normal []
  | _ => ToString v
  end.

(** [document.getElementById(id).textContent = v] *)
Definition set_textContent (id : jsstring) (v : value) : M unit := fun w =>
  match document w !! id with
  | None => Throws TypeError_nullish w
  | Some _ =>
      match text_of v with
      | Normal s => Returns tt (with_document (insert id (text_content s)) w)
      | Abrupt e => Throws e w
      end
  end.

Definition updateMetrics (data : value) : M unit :=
  if truthy data then
    v ← lift (get data totalRevenue);
    set_textContent (js "totalRevenue") (or_else v (VStr (js "$2.4M")));;
    v ← lift (get data conversionRate);
    set_textContent (js "conversionRate") (or_else v (VStr (js "3.47%")));;
    v ← lift (get data averageBasket);
    set_textContent (js "averageBasket") (or_else v (VStr (js "₺347")));;
    v ← lift (get data totalOrders);
    set_textContent (js "totalOrders") (or_else v (VStr (js "6,847")))
  else mret tt.

(** [data && data.labels && data.values], as a condition. *)
Definition has_series (data : value) : completion bool :=
  if truthy data then
    cbind (get data labels) (fun l =>
      if truthy l then cbind (get data values) (fun v => Normal (truthy v))
      else Normal false)
  else Normal false.

(** [scales.y.ticks.callback] of the trend chart. *)
Definition revenueTick (v : float) : jsstring :=
  js "₺" ++ NumberToString (v / 1000)%float ++ js "K".

(** [plugins.tooltip.callbacks.label] of the trend chart. *)
Definition revenueTooltip (context : PointContext) : jsstring :=
  let label := default [] (dataset_label context) in
  let label := if truthy (VStr label) then label ++ js ": " else label in
  match parsed_y context with
  | Some y => label ++ js "₺" ++ NumberToLocaleString (js "tr-TR") y
  | None => label
  end.

(** The configuration of the trend chart for given labels and values. *)
Definition revenueTrendConfig (l v : value) : LineConfig :=
  {| line_labels := l;
     line_dataset_label := js "Toplam Gelir";
     line_data := v;
     line_borderColor := CHART_COLORS.primaryPurple;
     line_backgroundColor := js "rgba(136, 111, 228, 0.2)";
     line_tick := revenueTick;
     line_tooltip := revenueTooltip |}.

Definition updateRevenueTrendChart (data : value) : M unit :=
  ok ← lift (has_series data);
  if ok : bool then
    held ← read revenueTrendChart;
    match held with
    | Some old => destroy old
    | None => mret tt
    end;;
    l ← lift (get data labels);
    v ← lift (get data values);
    i ← new_Chart RevenueTrendCanvas (Line (revenueTrendConfig l v));
    modify (with_revenueTrendChart (Some i))
  else mret tt.

(** The palette of the channel chart; the fifth colour is commented
    "Koyu gri (Diğerleri için)", dark grey for the others. *)
Definition channelColors : list jsstring :=
  [ js "#886FE4"; js "#E0B8FF"; js "#6A5ACD"; js "#9370DB"; js "#A9A9A9" ].

(** [plugins.tooltip.callbacks.label] of the channel chart. *)
Definition channelTooltip (context : SliceContext) : jsstring :=
  let label := default [] (slice_label context) in
  let label := if truthy (VStr label) then label ++ js ": " else label in
  match parsed context with
  | Some y => label ++ NumberToString y ++ js "%"
  | None => label
  end.

(** The markup of one legend row: a swatch and the label. *)
Definition legendMarkup (color label : jsstring) : jsstring :=
  nl ++ sp 16 ++ js "<span style="
     ++ quoted (js "display:inline-block; width:12px; height:12px; background-color:"
                ++ color ++ js "; border-radius:3px; margin-right:8px;")
     ++ js "></span>"
  ++ nl ++ sp 16 ++ js "<span class=" ++ quoted (js "text-white-50 small") ++ js ">"
     ++ label ++ js "</span>"
  ++ nl ++ sp 12.

Definition legendItem (color label : jsstring) : node :=
  Element (js "div") (js "d-flex align-items-center me-3 my-1")
          (inner_html (legendMarkup color label)).

(** [colors[index]] inside a template literal: an index past the end
    reads [undefined]. *)
Definition color_at (colors : list jsstring) (index : nat) : jsstring :=
  default (js "undefined") (colors !! index).

(** [labels.forEach(...)]: a method of arrays only. *)
Definition call_forEach (v : value) (f : value -> nat -> M unit) : M unit :=
  match v with
  | VUndefined | VNull => lift (Abrupt TypeError_nullish)
  | VArr items => for_each f items 0
  | _ => lift (Abrupt TypeError_not_callable)
  end.

Definition createChannelLegends (labels_ : value) (colors : list jsstring) : M unit :=
  set_innerHTML (js "channelLegends") [];;
  call_forEach labels_ (fun label index =>
    shown ← lift (ToString label);
    appendChild (js "channelLegends") (legendItem (color_at colors index) shown)).

(** The configuration of the channel chart. *)
Definition salesByChannelConfig (l v : value) (background : list jsstring) : DoughnutConfig :=
  {| arc_labels := l;
     arc_data := v;
     arc_backgroundColor := background;
     arc_borderColor := CHART_COLORS.cardBg;
     arc_cutout := js "70%";
     arc_tooltip := channelTooltip |}.

Definition updateSalesByChannelChart (data : value) : M unit :=
  ok ← lift (has_series data);
  if ok : bool then
    held ← read salesByChannelChart;
    match held with
    | Some old => destroy old
    | None => mret tt
    end;;
    l ← lift (get data labels);
    v ← lift (get data values);
    n ← lift (get_length l);
    background ← lift (slice_to channelColors n);
    i ← new_Chart SalesByChannelCanvas (Doughnut (salesByChannelConfig l v background));
    modify (with_salesByChannelChart (Some i));;
    l ← lift (get data labels);
    n ← lift (get_length l);
    colors ← lift (slice_to channelColors n);
    createChannelLegends l colors
  else mret tt.

(** The row shown when there is nothing to list. *)
Definition notFoundRow : jsstring :=
  js "<div class=" ++ quoted (js "col-12 text-center text-muted")
  ++ js ">Ürün bulunamadı.</div>".

(** The markup of one product card. *)
Definition productMarkup (src alt background title amount : jsstring) : jsstring :=
  nl ++ sp 20 ++ js "<div class=" ++ quoted (js "product-item") ++ js ">"
  ++ nl ++ sp 24 ++ js "<div class=" ++ quoted (js "product-icon mb-2") ++ js ">"
  ++ nl ++ sp 28 ++ js "<img src=" ++ quoted src
     ++ js " alt=" ++ quoted alt
     ++ js " class=" ++ quoted (js "img-fluid rounded-circle product-icon-img")
     ++ js " style=" ++ quoted (js "background-color:" ++ background ++ js ";") ++ js ">"
  ++ nl ++ sp 24 ++ js "</div>"
  ++ nl ++ sp 24 ++ js "<h6 class=" ++ quoted (js "text-light product-name") ++ js ">"
     ++ title ++ js "</h6>"
  ++ nl ++ sp 24 ++ js "<p class=" ++ quoted (js "text-muted-subtle small product-price")
     ++ js ">₺" ++ amount ++ js "</p>"
  ++ nl ++ sp 20 ++ js "</div>"
  ++ nl ++ sp 16.

Definition productCard (src alt background title amount : jsstring) : node :=
  Element (js "div") (js "col-md-2 col-4 mb-3")
          (inner_html (productMarkup src alt background title amount)).

(** The URL prefix of the generated placeholder image, and the colour
    behind an icon that names none. *)
Definition placeholderUrl : jsstring := js "https://via.placeholder.com/60/ccc/fff?text=".
Definition fallbackBg : jsstring := js "#3e2e60".

(** One card: the substitutions of the template, evaluated left to
    right. *)
Definition renderProduct (product : value) : completion node :=
  icon ← get product iconUrl;
  src ← (if truthy icon then ToString icon
         else n ← get product name;
              initial ← call_charAt n 0;
              mret (placeholderUrl ++ initial));
  n ← get product name;
  alt ← ToString n;
  bg ← get product iconBgColor;
  background ← ToString (or_else bg (VStr fallbackBg));
  n ← get product name;
  title ← ToString n;
  p ← get product price;
  amount ← toLocaleString (js "tr-TR") p;
  mret (productCard src alt background title amount).

Definition updateTopSellingProducts (products : value) : M unit :=
  set_innerHTML (js "topSellingProducts") [];;
  some ← (if truthy products
          then lift (cbind (get_length products) positive_length)
          else mret false);
  if some : bool then
    call_forEach products (fun product _ =>
      colDiv ← lift (renderProduct product);
      appendChild (js "topSellingProducts") colDiv)
  else set_innerHTML (js "topSellingProducts") notFoundRow.

Definition loadDashboardData : M unit :=
  metricsData ← (fetchData (VStr (API_ENDPOINTS Metrics)) ≫= await);
  updateMetrics metricsData;;
  mark (Updated Metrics);;
  revenueTrendData ← (fetchData (VStr (API_ENDPOINTS RevenueTrend)) ≫= await);
  updateRevenueTrendChart revenueTrendData;;
  mark (Updated RevenueTrend);;
  salesByChannelData ← (fetchData (VStr (API_ENDPOINTS SalesByChannel)) ≫= await);
  (if truthy salesByChannelData
   then updateSalesByChannelChart salesByChannelData;; mark (Updated SalesByChannel)
   else mret tt);;
  topSellingProductsData ← (fetchData (VStr (API_ENDPOINTS TopSellingProducts)) ≫= await);
  updateTopSellingProducts topSellingProductsData;;
  mark (Updated TopSellingProducts).

(** The [DOMContentLoaded] listener: binds the two canvases, declares the
    two chart variables and starts [loadDashboardData] once, without
    awaiting it; the [setInterval] refresh is commented out in the
    script. *)
Definition onDOMContentLoaded : M unit :=
  getContext (js "revenueTrendChart") RevenueTrendCanvas;;
  getContext (js "salesByChannelChart") SalesByChannelCanvas;;
  modify (with_revenueTrendChart None);;
  modify (with_salesByChannelChart None);;
  detached loadDashboardData.

End Script.

(** ** A reference host

    Number conversions as ECMA-262 and ECMA-402 specify them, computed on
    the exact value [m * 2^e] of a double, for a runtime whose only locale
    data is Turkish.  The theorems do not depend on it; the examples and
    the concrete runs use it. *)
Module ReferenceHost.

Local Open Scope Z_scope.

Fixpoint digits_loop (fuel : nat) (n : Z) (acc : jsstring) : jsstring :=
  match fuel with
  | O => acc
  | S fuel' =>
      let acc' := Z.to_N (48 + n mod 10) :: acc in
      if (n <? 10)%Z then acc' else digits_loop fuel' (n / 10) acc'
  end.

(** The decimal digits of a natural number. *)
Definition digits (n : Z) : jsstring :=
  digits_loop (S (Z.to_nat (Z.log2 n))) n [].

Definition zeros (n : Z) : jsstring := replicate (Z.to_nat n) 48%N.

(** ** Number::toString *)

(** A positive double [m * 2^e] is the only double in the interval
    between the midpoints to its neighbours, here in units of
    [2^(e-2)]; the bounds belong to it when [m] is even. *)
Record interval := {
  unit_exp : Z;
  low : Z; centre : Z; high : Z;
  closed : bool
}.

Definition rounding_interval (m : positive) (e : Z) : interval :=
  let m := Z.pos m in
  let narrow := ((m =? 2 ^ 52) && (-1074 <? e))%Z in
  {| unit_exp := e - 2;
     low := if narrow then 4 * m - 1 else 4 * m - 2;
     centre := 4 * m;
     high := 4 * m + 2;
     closed := Z.even m |}.

(** [a / b] for the quantities [a * 2^unit_exp] and [10^p]. *)
Definition scaled (i : interval) (p : Z) (a : Z) : Z * Z :=
  let (u, d) := if (0 <=? unit_exp i)%Z then (2 ^ unit_exp i, 1)
                else (1, 2 ^ (- unit_exp i)) in
  let (t, q) := if (0 <=? p)%Z then (10 ^ p, 1) else (1, 10 ^ (- p)) in
  (a * u * q, t * d)%Z.

Definition ceil_div (a b : Z) : Z := (- ((- a) / b))%Z.

(** The integers [s] with [s * 10^p] in the interval, as a range, and
    the one nearest to the double itself; of two that are equally near,
    the even one. *)
Definition candidates (i : interval) (p : Z) : option Z :=
  let '(lo_n, den) := scaled i p (low i) in
  let '(hi_n, _) := scaled i p (high i) in
  let '(c_n, _) := scaled i p (centre i) in
  let s_min := if closed i then ceil_div lo_n den else (lo_n / den + 1)%Z in
  let s_max := if closed i then (hi_n / den)%Z else (ceil_div hi_n den - 1)%Z in
  let s_min := Z.max 1 s_min in
  if (s_max <? s_min)%Z then None
  else
    let q := (c_n / den)%Z in
    let r := (c_n mod den)%Z in
    let nearest := (if (2 * r <? den)%Z then q
                    else if (den <? 2 * r)%Z then q + 1
                    else if Z.even q then q else q + 1)%Z in
    Some (Z.max s_min (Z.min s_max nearest)).

(** The largest exponent [p] that admits a candidate gives the fewest
    digits. *)
Fixpoint shortest (fuel : nat) (i : interval) (p : Z) : Z * Z :=
  match fuel with
  | O => (centre i, unit_exp i)
  | S fuel' =>
      match candidates i p with
      | Some s => (s, p)
      | None => shortest fuel' i (p - 1)
      end
  end.

Definition first_exponent (i : interval) : Z :=
  let b := (Z.log2 (high i) + unit_exp i + 1)%Z in
  ((b * (if (0 <=? b)%Z then 30103 else 30102)) / 100000 + 1)%Z.

(** The text of a positive finite double, from its digits [s] (there
    are [k] of them) and the position [n] of the decimal point. *)
Definition layout (s : Z) (p : Z) : jsstring :=
  let ds := digits s in
  let k := Z.of_nat (length ds) in
  let n := (p + k)%Z in
  if ((k <=? n) && (n <=? 21))%Z then ds ++ zeros (n - k)
  else if ((0 <? n) && (n <=? 21))%Z then
    take (Z.to_nat n) ds ++ js "." ++ drop (Z.to_nat n) ds
  else if ((-6 <? n) && (n <=? 0))%Z then js "0." ++ zeros (- n) ++ ds
  else
    let e := (n - 1)%Z in
    let exponent := (if (0 <=? e)%Z then js "+" else js "-") ++ digits (Z.abs e) in
    if (k =? 1)%Z then ds ++ js "e" ++ exponent
    else take 1 ds ++ js "." ++ drop 1 ds ++ js "e" ++ exponent.

Definition NumberToString (x : float) : jsstring :=
  match Prim2SF x with
  | S754_nan => js "NaN"
  | S754_zero _ => js "0"
  | S754_infinity negative => if negative then js "-Infinity" else js "Infinity"
  | S754_finite negative m e =>
      let i := rounding_interval m e in
      let (s, p) := shortest 400 i (first_exponent i) in
      (if negative then js "-" else []) ++ layout s p
  end.

(** ** Intl.NumberFormat("tr"), default options: the shortest decimal
    digits of the number, as Number::toString has them, cut to at most
    three fraction digits and rounded half away from zero; groups of three
    separated by a dot, a decimal comma. *)

Fixpoint group_loop (fuel : nat) (n : Z) (acc : jsstring) : jsstring :=
  match fuel with
  | O => acc
  | S fuel' =>
      if (n <? 1000)%Z then digits n ++ acc
      else
        let d := digits (n mod 1000) in
        group_loop fuel' (n / 1000) (js "." ++ zeros (3 - Z.of_nat (length d)) ++ d ++ acc)
  end.

Definition grouped (n : Z) : jsstring :=
  group_loop (S (Z.to_nat (Z.log2 n))) n [].

Fixpoint strip_zeros (rev_digits : jsstring) : jsstring :=
  match rev_digits with
  | 48%N :: rest => strip_zeros rest
  | _ => rev_digits
  end.

Definition NumberToLocaleString (locale : jsstring) (x : float) : jsstring :=
  match Prim2SF x with
  | S754_nan => js "NaN"
  | S754_zero negative => if negative then js "-0" else js "0"
  | S754_infinity negative => if negative then js "-∞" else js "∞"
  | S754_finite negative m e =>
      let i := rounding_interval m e in
      let (s, p) := shortest 400 i (first_exponent i) in
      let thousandths :=
        (if (-3 <=? p)%Z then s * 10 ^ (p + 3)
         else (2 * s + 10 ^ (- p - 3)) / (2 * 10 ^ (- p - 3)))%Z in
      let d := digits (thousandths mod 1000) in
      let fraction := rev (strip_zeros (rev (zeros (3 - Z.of_nat (length d)) ++ d))) in
      (if negative then js "-" else [])
      ++ grouped (thousandths / 1000)
      ++ (if decide (fraction = []) then [] else js "," ++ fraction)
  end.

(** ** StringToNumber *)

Definition is_space (c : N) : bool :=
  ((9 <=? c) && (c <=? 13) || (c =? 32) || (c =? 0xA0) || (c =? 0x1680)
   || (0x2000 <=? c) && (c <=? 0x200A) || (c =? 0x2028) || (c =? 0x2029)
   || (c =? 0x202F) || (c =? 0x205F) || (c =? 0x3000) || (c =? 0xFEFF))%N.

Fixpoint drop_spaces (s : jsstring) : jsstring :=
  match s with
  | c :: s' => if is_space c then drop_spaces s' else s
  | [] => []
  end.

Definition trim (s : jsstring) : jsstring :=
  rev (drop_spaces (rev (drop_spaces s))).

(** The value of a digit in a radix, if it is one. *)
Definition digit_value (radix : Z) (c : N) : option Z :=
  let c := Z.of_N c in
  let v := (if (48 <=? c) && (c <=? 57) then c - 48
            else if (97 <=? c) && (c <=? 102) then c - 87
            else if (65 <=? c) && (c <=? 70) then c - 55
            else 99)%Z in
  if (v <? radix)%Z then Some v else None.

(** Reads digits: their value, how many there were, and the rest. *)
Fixpoint read_digits (radix : Z) (s : jsstring) (acc : Z) (count : Z) : Z * Z * jsstring :=
  match s with
  | c :: s' =>
      match digit_value radix c with
      | Some v => read_digits radix s' (acc * radix + v) (count + 1)
      | None => (acc, count, s)
      end
  | [] => (acc, count, [])
  end.

(** The double nearest to [m * 10^e], ties to even.  A value of at least
    [10^310] is beyond every double, and one below [10^-330] rounds to
    zero: the two tests bound the decimal magnitude from the binary
    logarithm of [m], and keep the powers of ten computed below small. *)
Definition nearest_double (negative : bool) (m e : Z) : float :=
  let sign := if negative then (-1)%Z else 1%Z in
  if (m =? 0)%Z then (if negative then (-0)%float else 0%float)
  else if (310 <? e + Z.log2 m * 30102 / 100000)%Z
  then (if negative then neg_infinity else infinity)
  else if (e + (Z.log2 m + 1) * 30103 / 100000 + 1 <? -330)%Z
  then (if negative then (-0)%float else 0%float)
  else if (0 <=? e)%Z then SF2Prim (binary_normalize 53 1024 (sign * m * 10 ^ e) 0 false)
  else
    let d := (10 ^ (- e))%Z in
    let k := (Z.max 0 (66 + Z.log2 d - Z.log2 m))%Z in
    let q := (m * 2 ^ k / d)%Z in
    let sticky := if (m * 2 ^ k mod d =? 0)%Z then 0%Z else 1%Z in
    SF2Prim (binary_normalize 53 1024 (sign * (2 * q + sticky)) (- k - 1)%Z false).

(** An optional sign: whether it is a minus, and the rest. *)
Definition read_sign (s : jsstring) : bool * jsstring :=
  match s with
  | 43%N :: s' => (false, s')
  | 45%N :: s' => (true, s')
  | _ => (false, s)
  end.

(** StrUnsignedDecimalLiteral, after the sign. *)
Definition read_decimal (negative : bool) (s : jsstring) : float :=
  let '(int_part, int_count, rest) := read_digits 10 s 0 0 in
  let '(mantissa, frac_count, rest) :=
    match rest with
    | 46%N :: rest' => read_digits 10 rest' int_part 0
    | _ => (int_part, 0%Z, rest)
    end in
  if ((int_count + frac_count =? 0)%Z) then nan
  else
    match rest with
    | [] => nearest_double negative mantissa (- frac_count)%Z
    | c :: rest' =>
        if ((c =? 101) || (c =? 69))%N then
          let (exp_negative, rest'') := read_sign rest' in
          let '(ex, ex_count, tail) := read_digits 10 rest'' 0 0 in
          if ((ex_count =? 0)%Z || negb (bool_decide (tail = []))) then nan
          else
            let ex := Z.min ex 100000 in
            nearest_double negative mantissa
              ((if exp_negative then - ex else ex) - frac_count)%Z
        else nan
    end.

Definition read_radix (radix : Z) (s : jsstring) : float :=
  let '(v, count, rest) := read_digits radix s 0 0 in
  if ((count =? 0)%Z || negb (bool_decide (rest = []))) then nan
  else nearest_double false v 0.

Definition StringToNumber (s : jsstring) : float :=
  let s := trim s in
  match s with
  | [] => 0%float
  | 48%N :: 120%N :: s' | 48%N :: 88%N :: s' => read_radix 16 s'
  | 48%N :: 111%N :: s' | 48%N :: 79%N :: s' => read_radix 8 s'
  | 48%N :: 98%N :: s' | 48%N :: 66%N :: s' => read_radix 2 s'
  | _ =>
      let (negative, body) := read_sign s in
      if decide (body = js "Infinity")
      then (if negative then neg_infinity else infinity)
      else read_decimal negative body
  end.

Definition NativeFunctionToString (n : jsstring) : jsstring :=
  js "function " ++ n ++ js "() { [native code] }".

End ReferenceHost.

Definition reference_host : Host :=
  {| NumberToString := ReferenceHost.NumberToString;
     NumberToLocaleString := ReferenceHost.NumberToLocaleString;
     StringToNumber := ReferenceHost.StringToNumber;
     NativeFunctionToString := ReferenceHost.NativeFunctionToString |}.

(** ** Payloads of the inbound contract

    The JSON shapes of the four resources, and the values they are
    received as.  An optional attribute that is absent is simply not a
    property of the object. *)

Definition optional (k : string) (o : option jsstring) : list (jsstring * value) :=
  match o with
  | Some s => [(js k, VStr s)]
  | None => []
  end.

Record MetricsSnapshot := {
  snapshot_totalRevenue : option jsstring;
  snapshot_conversionRate : option jsstring;
  snapshot_averageBasket : option jsstring;
  snapshot_totalOrders : option jsstring
}.

Definition metrics_value (m : MetricsSnapshot) : value :=
  VObj (optional "totalRevenue" (snapshot_totalRevenue m)
        ++ optional "conversionRate" (snapshot_conversionRate m)
        ++ optional "averageBasket" (snapshot_averageBasket m)
        ++ optional "totalOrders" (snapshot_totalOrders m)).

Record ChannelMix := {
  channel_labels : list jsstring;
  channel_values : list float
}.

Definition channel_value (c : ChannelMix) : value :=
  VObj [(js "labels", VArr (VStr <$> channel_labels c));
        (js "values", VArr (VNum <$> channel_values c))].

Record ProductSummary := {
  product_name : jsstring;
  product_price : float;
  product_iconUrl : option jsstring;
  product_iconBgColor : option jsstring
}.

Definition product_value (p : ProductSummary) : value :=
  VObj ([(js "name", VStr (product_name p)); (js "price", VNum (product_price p))]
        ++ optional "iconUrl" (product_iconUrl p)
        ++ optional "iconBgColor" (product_iconBgColor p)).

(** ** The page shell

    The elements the script addresses, empty, before the script has run. *)
Definition page : World :=
  {| document := list_to_map
       [ (js "totalRevenue", []); (js "conversionRate", []);
         (js "averageBasket", []); (js "totalOrders", []);
         (js "revenueTrendChart", []); (js "salesByChannelChart", []);
         (js "channelLegends", []); (js "topSellingProducts", []) ];
     charts := []; chart_seq := 0;
     revenueTrendChart := None; salesByChannelChart := None;
     console := []; clock := 0; journal := [] |}.

(** ** Notions the statements use *)

(** The four metrics: the property read, the element written (its id is
    the property's name) and the default shown in its place. *)
Inductive metric := TotalRevenue | ConversionRate | AverageBasket | TotalOrders.

Definition metric_prop (f : metric) : prop :=
  match f with
  | TotalRevenue => totalRevenue
  | ConversionRate => conversionRate
  | AverageBasket => averageBasket
  | TotalOrders => totalOrders
  end.

Definition metric_target (f : metric) : jsstring := prop_name (metric_prop f).

Definition metric_default (f : metric) : jsstring :=
  match f with
  | TotalRevenue => js "$2.4M"
  | ConversionRate => js "3.47%"
  | AverageBasket => js "₺347"
  | TotalOrders => js "6,847"
  end.

Definition snapshot_field (m : MetricsSnapshot) (f : metric) : option jsstring :=
  match f with
  | TotalRevenue => snapshot_totalRevenue m
  | ConversionRate => snapshot_conversionRate m
  | AverageBasket => snapshot_averageBasket m
  | TotalOrders => snapshot_totalOrders m
  end.

(** The text a metric's element is given: the property, or the default
    when the property is falsy, as [textContent] converts it. *)
Definition metric_text `{Host} (data : value) (f : metric) : completion jsstring :=
  v ← get data (metric_prop f);
  text_of (or_else v (VStr (metric_default f))).

(** The text a snapshot shows for a metric: the supplied string, or the
    default when none, or an empty one, is supplied. *)
Definition snapshot_text (m : MetricsSnapshot) (f : metric) : jsstring :=
  match snapshot_field m f with
  | Some s => if decide (s = []) then metric_default f else s
  | None => metric_default f
  end.

(** The world [updateMetrics] leaves when it writes the four texts. *)
Definition metrics_written (s : metric → jsstring) (w : World) : World :=
  with_document
    (fun d => <[metric_target TotalOrders := text_content (s TotalOrders)]>
              (<[metric_target AverageBasket := text_content (s AverageBasket)]>
               (<[metric_target ConversionRate := text_content (s ConversionRate)]>
                (<[metric_target TotalRevenue := text_content (s TotalRevenue)]> d)))) w.


(** The world a computation leaves, whether it returns or throws. *)
Definition after {A} (m : M A) (w : World) : World := world_after (m w).

(** An element with this id is on the page. *)
Definition present (id : jsstring) (w : World) : Prop := is_Some (document w !! id).

(** The live chart instances bound to a canvas. *)
Definition live_on (c : Canvas) (w : World) : list Chart :=
  filter (fun ch => chart_canvas ch = c) (charts w).

(** The script variable that holds the chart of a canvas. *)
Definition handle_of (c : Canvas) (w : World) : option nat :=
  match c with
  | RevenueTrendCanvas => revenueTrendChart w
  | SalesByChannelCanvas => salesByChannelChart w
  end.

(** Ownership of the chart instances: instance numbers are unique and
    below the next one to be issued, and every live instance is the one
    the variable of its canvas holds. *)
Record owned (w : World) : Prop := {
  owned_nodup : NoDup (chart_id <$> charts w);
  owned_fresh : ∀ ch, ch ∈ charts w → chart_id ch < chart_seq w;
  owned_held : ∀ ch, ch ∈ charts w → handle_of (chart_canvas ch) w = Some (chart_id ch)
}.

(** The registry once the instance a variable holds is destroyed. *)
Definition retire (h : option nat) (cs : list Chart) : list Chart :=
  match h with
  | Some old => filter (fun ch => chart_id ch ≠ old) cs
  | None => cs
  end.

Definition with_handle (c : Canvas) (h : option nat) : World → World :=
  match c with
  | RevenueTrendCanvas => with_revenueTrendChart h
  | SalesByChannelCanvas => with_salesByChannelChart h
  end.

(** The instance [new Chart] creates in a world. *)
Definition fresh_chart (c : Canvas) (config : ChartConfig) (w : World) : Chart :=
  {| chart_id := chart_seq w; chart_canvas := c; chart_config := config |}.

(** The world after the chart of a canvas is destroyed and drawn anew. *)
Definition redrawn (c : Canvas) (config : ChartConfig) (w : World) : World :=
  with_handle c (Some (chart_seq w))
    (with_chart_seq (S (chart_seq w))
       (with_charts (fun cs => retire (handle_of c w) cs ++ [fresh_chart c config w]) w)).

(** Two worlds with the same chart registry and chart variables. *)
Definition same_registry (w w' : World) : Prop :=
  charts w' = charts w ∧ chart_seq w' = chart_seq w ∧
  revenueTrendChart w' = revenueTrendChart w ∧
  salesByChannelChart w' = salesByChannelChart w.

(** A computation that touches neither, whether it returns or throws. *)
Definition page_only {A} (m : M A) : Prop :=
  ∀ w, same_registry w (world_after (m w)).

(** The legend rows of a list of labels, coloured from a list of colours. *)
Definition legendRows (colors : list jsstring) (ls : list jsstring) : list node :=
  imap (fun index label => legendItem (color_at colors index) label) ls.

(** The image and the background of a product's icon: the product's own
    when it has one that is not empty, the placeholder with the first
    code unit of the name, and the fallback colour, otherwise. *)
Definition icon_src (p : ProductSummary) : jsstring :=
  match product_iconUrl p with
  | Some u => if decide (u = []) then placeholderUrl ++ charAt (product_name p) 0 else u
  | None => placeholderUrl ++ charAt (product_name p) 0
  end.

Definition icon_background (p : ProductSummary) : jsstring :=
  match product_iconBgColor p with
  | Some c => if decide (c = []) then fallbackBg else c
  | None => fallbackBg
  end.

(** The card of a product. *)
Definition summaryCard `{Host} (p : ProductSummary) : node :=
  productCard (icon_src p) (product_name p) (icon_background p) (product_name p)
              (NumberToLocaleString (js "tr-TR") (product_price p)).

(** What the product grid holds after an update with a list of products. *)
Definition productGrid `{Host} (ps : list ProductSummary) : list node :=
  match ps with
  | [] => [Markup notFoundRow]
  | _ => summaryCard <$> ps
  end.

(** The payload registered for a URL: that of the first key of the mock
    table, in the order of the table, that occurs in the URL. *)
Definition registered (url : jsstring) : option value :=
  snd <$> find (fun entry => includes url (fst entry)) MOCK_API_RESPONSES.

(** The promise [fetchData] returns for what it found. *)
Definition promised (found : option value) : promise :=
  match found with
  | Some v => resolve_after 500 v
  | None => {| delay := 0; settles := Fulfilled VNull |}
  end.

(** The slice colours of the chart that is live on the channel canvas. *)
Definition slice_colours (w : World) : list jsstring :=
  match live_on SalesByChannelCanvas w with
  | [ch] =>
      match chart_config ch with
      | Doughnut c => arc_backgroundColor c
      | Line _ => []
      end
  | _ => []
  end.

(** The rows of the legend. *)
Definition legend_rows (w : World) : list node :=
  default [] (document w !! js "channelLegends").

(** The colouring the specification describes: every label past the
    fourth is drawn, in the chart and in the legend, in the fifth colour
    of the palette. *)
Definition overflow_coloured `{Host} (mix : ChannelMix) (w : World) : Prop :=
  ∀ i label,
    channel_labels mix !! i = Some label → 4 ≤ i →
    slice_colours (after (updateSalesByChannelChart (channel_value mix)) w) !! i
    = Some (js "#A9A9A9") ∧
    legend_rows (after (updateSalesByChannelChart (channel_value mix)) w) !! i
    = Some (legendItem (js "#A9A9A9") label).

(** What the specification says a snapshot shows: in each target the
    supplied string, and the default where the field is missing. *)
Definition shows_as_supplied `{Host} (m : MetricsSnapshot) (w : World) : Prop :=
  ∀ f, document (after (updateMetrics (metrics_value m)) w) !! metric_target f
       = Some (text_content (default (metric_default f) (snapshot_field m f))).

(** The children of the product grid. *)
Definition product_grid (w : World) : list node :=
  default [] (document w !! js "topSellingProducts").

(** The icon the specification describes for a product without [iconUrl]:
    the placeholder image labelled with the first character of the name,
    on the product's [iconBgColor] when it has one and on the fallback
    colour otherwise. *)
Definition placeholder_as_described `{Host} (ps : list ProductSummary) (w : World) : Prop :=
  ∀ i p,
    ps !! i = Some p → product_iconUrl p = None →
    product_grid (after (updateTopSellingProducts (VArr (product_value <$> ps))) w) !! i
    = Some (productCard (placeholderUrl ++ charAt (product_name p) 0)
              (product_name p)
              (default fallbackBg (product_iconBgColor p))
              (product_name p)
              (NumberToLocaleString (js "tr-TR") (product_price p))).

(** The key and the payload of each resource in the mock table. *)
Definition mock_key (r : Resource) : jsstring :=
  match r with
  | Metrics => js "/dashboard/metrics"
  | RevenueTrend => js "/dashboard/revenue-trend"
  | SalesByChannel => js "/dashboard/sales-by-channel"
  | TopSellingProducts => js "/dashboard/top-selling-products"
  end.

Definition mock_payload (r : Resource) : value :=
  default VUndefined (own_property MOCK_API_RESPONSES (mock_key r)).

(** The world after [await fetchData(API_ENDPOINTS.r)]. *)
Definition fetched (r : Resource) (w : World) : World :=
  with_journal (fun j => j ++ [Settled (mock_payload r)])
    (with_clock (fun t => t + 500)
       (with_console
          (fun l => l ++ [Log (js "Fetching mock data for: " ++ API_ENDPOINTS r)])
          (with_journal (fun j => j ++ [Requested (VStr (API_ENDPOINTS r))]) w))).

(** One round of the orchestrator: the request, its settlement, the
    update. *)
Definition round (r : Resource) : list event :=
  [Requested (VStr (API_ENDPOINTS r)); Settled (mock_payload r); Updated r].

(** The mock payloads, read as the contract types them. *)
Definition mock_metric (f : metric) : jsstring :=
  match f with
  | TotalRevenue => js "₺2.4M"
  | ConversionRate => js "3.47%"
  | AverageBasket => js "₺347"
  | TotalOrders => js "6,847"
  end.

Definition mock_mix : ChannelMix :=
  {| channel_labels := [js "Web Sitesi"; js "Mobil App"; js "Sosyal Medya"; js "Mağaza"];
     channel_values := [40; 25; 20; 15]%float |}.

Definition mock_summary (n : string) (p : float) (url bg : string) : ProductSummary :=
  {| product_name := js n; product_price := p;
     product_iconUrl := Some (js url); product_iconBgColor := Some (js bg) |}.

Definition mock_products : list ProductSummary :=
  [ mock_summary "Laptop Pro" 45600 "https://via.placeholder.com/60/7B68EE/FFFFFF?text=L" "#7B68EE";
    mock_summary "Akıllı Telefon" 28900 "https://via.placeholder.com/60/66CDAA/FFFFFF?text=T" "#66CDAA";
    mock_summary "Kulaklık" 1250 "https://via.placeholder.com/60/9370DB/FFFFFF?text=H" "#9370DB";
    mock_summary "Tablet" 8750 "https://via.placeholder.com/60/ADD8E6/FFFFFF?text=B" "#ADD8E6";
    mock_summary "Kamera" 15600 "https://via.placeholder.com/60/FF6347/FFFFFF?text=C" "#FF6347";
    mock_summary "Akıllı Saat" 7200 "https://via.placeholder.com/60/FFD700/FFFFFF?text=W" "#FFD700" ].

(** The exception a computation ends with, if it throws. *)
Definition thrown {A} (o : outcome A) : option error :=
  match o with
  | Returns _ _ => None
  | Throws e _ => Some e
  end.

(** ** Sample inputs *)

(** A snapshot without a revenue and with an empty conversion rate. *)
Definition blank_rate : MetricsSnapshot :=
  {| snapshot_totalRevenue := None;
     snapshot_conversionRate := Some [];
     snapshot_averageBasket := Some (js "₺512");
     snapshot_totalOrders := Some (js "7,001") |}.

(** A metrics object whose order count is the number zero. *)
Definition zero_orders : value :=
  VObj [(js "totalRevenue", VStr (js "₺1.9M")); (js "totalOrders", VNum 0)].

(** Six channels: one more than the palette has colours. *)
Definition six_channels : ChannelMix :=
  {| channel_labels := [js "A"; js "B"; js "C"; js "D"; js "E"; js "F"];
     channel_values := [30; 25; 20; 10; 10; 5]%float |}.

(** A product without an icon whose background colour is the empty
    string. *)
Definition pencil : ProductSummary :=
  {| product_name := js "Şeffaf Kalem"; product_price := 1250.5;
     product_iconUrl := None; product_iconBgColor := Some [] |}.

(** ** Notions of the frame and failure properties *)

(** A computation that keeps a relation between the world it starts in
    and the world it leaves, whether it returns or throws. *)
Definition keeps {A} (R : relation World) (m : M A) : Prop :=
  ∀ w, R w (after m w).

(** Every element but those listed has the content it had. *)
Definition same_outside (ids : list jsstring) (w w' : World) : Prop :=
  ∀ id, id ∉ ids → document w' !! id = document w !! id.

(** [P] is carried from the world a computation starts in to the world
    it leaves. *)
Definition carries (P : World → Prop) : relation World := fun w w' => P w → P w'.

(** What a relation between worlds may disregard: the console, the clock
    and the journal; the content of an element; a redraw of the chart of a
    canvas, and the destruction of the instance its variable holds. *)
Record ignores_log (R : relation World) : Prop := {
  ignores_console : ∀ f w, R w (with_console f w);
  ignores_clock : ∀ f w, R w (with_clock f w);
  ignores_journal : ∀ f w, R w (with_journal f w)
}.

Definition ignores_element (id : jsstring) (R : relation World) : Prop :=
  ∀ c w, R w (with_document (insert id c) w).

Record ignores_chart (c : Canvas) (R : relation World) : Prop := {
  ignores_redraw : ∀ config w, R w (redrawn c config w);
  ignores_retire : ∀ w, R w (with_charts (retire (handle_of c w)) w)
}.

(** The chart of a canvas, and the variable that holds it, are the
    same in two worlds. *)
Definition same_chart (c : Canvas) (w w' : World) : Prop :=
  live_on c w' = live_on c w ∧ handle_of c w' = handle_of c w.

#[global] Instance metric_eq_dec : EqDecision metric.
Proof. solve_decision. Defined.

(** The ids of the four metric targets, in the order they are written. *)
Definition metric_order : list metric :=
  [TotalRevenue; ConversionRate; AverageBasket; TotalOrders].

(** The world after the texts of some metrics have been written, in
    order. *)
Definition write_metrics (s : metric → jsstring) (fs : list metric) (w : World) : World :=
  foldl (fun w' f => with_document (insert (metric_target f) (text_content (s f))) w') w fs.

(** The metrics written before a given one. *)
Definition written_before (f : metric) : list metric :=
  match f with
  | TotalRevenue => []
  | ConversionRate => [TotalRevenue]
  | AverageBasket => [TotalRevenue; ConversionRate]
  | TotalOrders => [TotalRevenue; ConversionRate; AverageBasket]
  end.

(** The chart variables are in order: beside ownership, a variable holds
    the number of an instance that was issued, and the two variables never
    hold the same one. *)
Record tidy (w : World) : Prop := {
  tidy_owned : owned w;
  tidy_issued : ∀ c n, handle_of c w = Some n → n < chart_seq w;
  tidy_apart : ∀ n, revenueTrendChart w = Some n → salesByChannelChart w ≠ Some n
}.

(** The other canvas. *)
Definition other_canvas (c : Canvas) : Canvas :=
  match c with
  | RevenueTrendCanvas => SalesByChannelCanvas
  | SalesByChannelCanvas => RevenueTrendCanvas
  end.

(** What a computation that works on the other canvas keeps of the chart
    of a canvas, in a world whose chart variables are in order. *)
Definition beside (c : Canvas) : relation World :=
  fun w w' => tidy w → tidy w' ∧ same_chart c w w'.

(** The position of a resource in the mock table. *)
Definition table_index (r : Resource) : nat :=
  match r with
  | Metrics => 0
  | RevenueTrend => 1
  | SalesByChannel => 2
  | TopSellingProducts => 3
  end.

(** A value with an [includes] method: a string or an array. *)
Definition searchable (v : value) : bool :=
  match v with
  | VStr _ | VArr _ => true
  | _ => false
  end.

(** A JSON scalar, or a missing property. *)
Definition scalar (v : value) : bool :=
  match v with
  | VArr _ | VObj _ | VNative _ _ => false
  | _ => true
  end.

Definition nullish (v : value) : bool :=
  match v with
  | VUndefined | VNull => true
  | _ => false
  end.

Definition is_string (v : value) : bool :=
  match v with
  | VStr _ => true
  | _ => false
  end.

(** A value that has nothing to list: no [length] at all (a number, a
    boolean, an object without the property), or a length of zero. *)
Definition countless (v : value) : bool :=
  match v with
  | VUndefined | VNull | VBool _ | VNum _ => true
  | VStr s => bool_decide (s = [])
  | VArr items => bool_decide (items = [])
  | VObj props => bool_decide (own_property props (js "length") = None)
  | VNative _ a => bool_decide (a = 0)
  end.

(** [sub] occurs in [s]. *)
Definition occurs_in (sub s : jsstring) : Prop :=
  ∃ pre post, s = pre ++ sub ++ post.

(** A URL with another host, a version prefix and a query. *)
Definition versioned_trend_url : jsstring :=
  js "https://cdn.example.org/v2/dashboard/revenue-trend?range=6m".

(** The labels and values of the mock trend. *)
Definition mock_trend_axis : value :=
  VArr (VStr <$> [js "Oca"; js "Şub"; js "Mar"; js "Nis"; js "May"; js "Haz"]).
Definition mock_trend_series : value :=
  VArr (VNum <$> [350000; 380000; 360000; 420000; 450000; 480000]%float).

(** The chart configurations [loadDashboardData] draws. *)
Definition mock_line `{Host} : ChartConfig :=
  Line (revenueTrendConfig mock_trend_axis mock_trend_series).
Definition mock_doughnut `{Host} : ChartConfig :=
  Doughnut (salesByChannelConfig (VArr (VStr <$> channel_labels mock_mix))
              (VArr (VNum <$> channel_values mock_mix))
              (take (length (channel_labels mock_mix)) channelColors)).

(** A product with an icon and a price, and no name. *)
Definition nameless : value :=
  VObj [(js "iconUrl", VStr (js "https://via.placeholder.com/60"));
        (js "price", VNum 25)].

(** The page shell with the channel chart of the mock payload drawn. *)
Definition page_with_doughnut `{Host} : World :=
  redrawn SalesByChannelCanvas mock_doughnut page.

(** The world in which [loadDashboardData] issues its fourth request:
    metrics written, both charts drawn, legend filled. *)
Definition three_rounds `{Host} (w : World) : World :=
  with_journal (fun j => j ++ [Updated SalesByChannel])
    (with_document
       (insert (js "channelLegends")
          (legendRows (take (length (channel_labels mock_mix)) channelColors)
             (channel_labels mock_mix)))
       (redrawn SalesByChannelCanvas mock_doughnut
          (fetched SalesByChannel
             (with_journal (fun j => j ++ [Updated RevenueTrend])
                (redrawn RevenueTrendCanvas mock_line
                   (fetched RevenueTrend
                      (with_journal (fun j => j ++ [Updated Metrics])
                         (metrics_written mock_metric (fetched Metrics w))))))))).

(** The world [loadDashboardData] leaves on a complete page. *)
Definition loaded `{Host} (w : World) : World :=
  with_journal (fun j => j ++ [Updated TopSellingProducts])
    (with_document (insert (js "topSellingProducts") (productGrid mock_products))
       (fetched TopSellingProducts (three_rounds w))).

(** A page is complete when it has the six elements the updaters write. *)
Definition complete_page (w : World) : Prop :=
  (∀ f, present (metric_target f) w) ∧
  present (js "channelLegends") w ∧ present (js "topSellingProducts") w.

(** The page shell without one of its elements. *)
Definition page_without (id : jsstring) : World :=
  with_document (delete id) page.

(** A product without a price. *)
Definition unpriced : value := VObj [(js "name", VStr (js "Kalem"))].

(** ** Notions of the sequence of a load *)

(** The entry [fetchData] leaves on the console for a resource. *)
Definition request_log (r : Resource) : console_entry :=
  Log (js "Fetching mock data for: " ++ API_ENDPOINTS r).

(** The resources, in the order [loadDashboardData] requests them. *)
Definition load_order : list Resource :=
  [Metrics; RevenueTrend; SalesByChannel; TopSellingProducts].

(** What the update of a resource with its mock payload leaves to see:
    the mock texts in the four metric targets; the line chart of the mock
    trend alone on its canvas; the doughnut of the mock channel mix alone
    on its canvas and the legend rows of the mix; the cards of the mock
    products in the grid. *)
Definition shown `{Host} (r : Resource) (w : World) : Prop :=
  match r with
  | Metrics =>
      ∀ f, document w !! metric_target f = Some (text_content (mock_metric f))
  | RevenueTrend =>
      chart_config <$> live_on RevenueTrendCanvas w = [mock_line]
  | SalesByChannel =>
      chart_config <$> live_on SalesByChannelCanvas w = [mock_doughnut] ∧
      document w !! js "channelLegends"
      = Some (legendRows (take (length (channel_labels mock_mix)) channelColors)
                (channel_labels mock_mix))
  | TopSellingProducts =>
      document w !! js "topSellingProducts" = Some (summaryCard <$> mock_products)
  end.

(** The world in which the third update starts: metrics written, the
    trend chart drawn, the channel mix awaited. *)
Definition two_rounds `{Host} (w : World) : World :=
  fetched SalesByChannel
    (with_journal (fun j => j ++ [Updated RevenueTrend])
       (redrawn RevenueTrendCanvas mock_line
          (fetched RevenueTrend
             (with_journal (fun j => j ++ [Updated Metrics])
                (metrics_written mock_metric (fetched Metrics w)))))).

(** ** Notions of the falsy fields *)

(** What the specification says of a falsy field: whatever the metrics
    object, the target of a field that reads as a falsy value shows the
    default. *)
Definition falsy_gets_default_as_described `{Host} (data : value) (w : World) : Prop :=
  ∀ f v, get data (metric_prop f) = Normal v → truthy v = false →
         document (after (updateMetrics data) w) !! metric_target f
         = Some [Text (metric_default f)].

(** A metrics object whose revenue is an object that hides [toString],
    and whose order count is the number zero. *)
Definition hidden_revenue : value :=
  VObj [(js "totalRevenue", VObj [(js "toString", VNum 1)]);
        (js "totalOrders", VNum 0)].

Arguments js : simpl never.

(** * Properties *)

Ltac differ := let E := fresh in intro E; vm_compute in E; discriminate E.

Lemma metric_target_inj f g : metric_target f = metric_target g → f = g.
Proof. destruct f, g; (reflexivity || (intro E; vm_compute in E; discriminate E)). Qed.

Section Properties.
Context `{Host}.

(** *** Running a computation *)

Lemma bind_returns {A B} (m : M A) (k : A → M B) w a w' :
  m w = Returns a w' → (m ≫= k) w = k a w'.
Proof. intros E. unfold mbind, M_bind. by rewrite E. Qed.

Lemma set_children_returns id f w c :
  document w !! id = Some c →
  set_children id f w = Returns tt (with_document (insert id (f c)) w).
Proof. intros E. unfold set_children. by rewrite E. Qed.

Lemma set_textContent_returns id v s w :
  present id w → text_of v = Normal s →
  set_textContent id v w
  = Returns tt (with_document (insert id (text_content s)) w).
Proof. intros [c E] Es. unfold set_textContent. by rewrite E, Es. Qed.

Lemma present_insert id id' c w :
  present id w → present id (with_document (insert id' c) w).
Proof.
  unfold present. simpl. intros P.
  destruct (decide (id' = id)) as [->|N].
  - rewrite lookup_insert_eq. eauto.
  - by rewrite lookup_insert_ne.
Qed.

(** Reading a property of a value that is not [undefined] or [null]
    never throws. *)
Lemma get_truthy data p : truthy data = true → ∃ v, get data p = Normal v.
Proof. destruct data; try discriminate; intros _; simpl; destruct p; eauto. Qed.

Lemma updateMetrics_run data s w :
  truthy data = true →
  (∀ f, present (metric_target f) w) →
  (∀ f, metric_text data f = Normal (s f)) →
  updateMetrics data w = Returns tt (metrics_written s w).
Proof.
  intros T P S. unfold updateMetrics. rewrite T.
  pose proof (S TotalRevenue) as S1. pose proof (S ConversionRate) as S2.
  pose proof (S AverageBasket) as S3. pose proof (S TotalOrders) as S4.
  unfold metric_text in *.
  destruct (get_truthy data totalRevenue T) as [v1 E1].
  destruct (get_truthy data conversionRate T) as [v2 E2].
  destruct (get_truthy data averageBasket T) as [v3 E3].
  destruct (get_truthy data totalOrders T) as [v4 E4].
  simpl in S1, S2, S3, S4. rewrite E1 in S1. rewrite E2 in S2. rewrite E3 in S3. rewrite E4 in S4.
  simpl in S1, S2, S3, S4.
  erewrite bind_returns; [|unfold lift; rewrite E1; reflexivity].
  erewrite bind_returns; [|apply set_textContent_returns; [apply (P TotalRevenue)|exact S1]].
  erewrite bind_returns; [|unfold lift; rewrite E2; reflexivity].
  erewrite bind_returns;
    [|apply set_textContent_returns; [apply present_insert, (P ConversionRate)|exact S2]].
  erewrite bind_returns; [|unfold lift; rewrite E3; reflexivity].
  erewrite bind_returns;
    [|apply set_textContent_returns;
      [do 2 apply present_insert; apply (P AverageBasket)|exact S3]].
  erewrite bind_returns; [|unfold lift; rewrite E4; reflexivity].
  erewrite set_textContent_returns;
    [|do 3 apply present_insert; apply (P TotalOrders)|exact S4].
  reflexivity.
Qed.

Lemma metrics_written_target s w f :
  document (metrics_written s w) !! metric_target f = Some (text_content (s f)).
Proof.
  unfold metrics_written. simpl.
  destruct f;
    repeat (rewrite lookup_insert_ne by (intros E; apply metric_target_inj in E; discriminate E));
    apply lookup_insert_eq.
Qed.

Lemma metrics_written_other s w id :
  (∀ f, id ≠ metric_target f) →
  document (metrics_written s w) !! id = document w !! id.
Proof.
  intros N. unfold metrics_written. simpl.
  repeat (rewrite lookup_insert_ne by (intros E; symmetry in E; exact (N _ E))).
  reflexivity.
Qed.

Lemma metric_default_nonempty f : metric_default f ≠ [].
Proof. destruct f; differ. Qed.

Lemma snapshot_text_nonempty m f : snapshot_text m f ≠ [].
Proof.
  unfold snapshot_text. destruct (snapshot_field m f) as [s|].
  - destruct (decide (s = [])); [apply metric_default_nonempty | assumption].
  - apply metric_default_nonempty.
Qed.

Lemma text_content_nonempty s : s ≠ [] → text_content s = [Text s].
Proof. intros N. unfold text_content. by destruct (decide (s = [])). Qed.

(** What a well-formed snapshot shows for each metric. *)
Lemma metric_text_snapshot m f :
  metric_text (metrics_value m) f = Normal (snapshot_text m f).
Proof.
  destruct m as [[[|? ?]|] [[|? ?]|] [[|? ?]|] [[|? ?]|]]; destruct f; reflexivity.
Qed.

(** *** The metrics updater *)

(** C4, as amended.  Given the absent sentinel ([null], or [undefined])
    [updateMetrics] changes nothing.  Given a snapshot, on a page that has
    the four targets, it returns and leaves in each target the text of its
    own field: the supplied string when one is supplied and is not empty,
    the field's default otherwise.  Every other element keeps its
    content. *)
Theorem updateMetrics_writes_snapshot (m : MetricsSnapshot) (w : World) :
  (∀ f, present (metric_target f) w) →
  updateMetrics VNull w = Returns tt w ∧
  updateMetrics VUndefined w = Returns tt w ∧
  ∃ w', updateMetrics (metrics_value m) w = Returns tt w' ∧
        (∀ f, document w' !! metric_target f = Some [Text (snapshot_text m f)]) ∧
        (∀ id, (∀ f, id ≠ metric_target f) → document w' !! id = document w !! id).
Proof.
  intros P. split; [reflexivity|]. split; [reflexivity|].
  exists (metrics_written (snapshot_text m) w). split; [|split].
  - apply updateMetrics_run; [reflexivity | exact P | apply metric_text_snapshot].
  - intros f. rewrite metrics_written_target.
    by rewrite text_content_nonempty by apply snapshot_text_nonempty.
  - apply metrics_written_other.
Qed.

(** C10, as amended.  On a page that has the four targets, and for a
    metrics object every field of which converts to text (every JSON
    scalar does; only an object or array hiding [toString] does not):
    whenever the value read for a metric is falsy (the empty string, [0],
    [NaN], [false], [null], or a missing property), [updateMetrics]
    returns and the target shows the default string. *)
Theorem updateMetrics_falsy_gets_default (data v : value) (f : metric) (w : World) :
  truthy data = true →
  (∀ g, present (metric_target g) w) →
  (∀ g, ∃ s, metric_text data g = Normal s) →
  get data (metric_prop f) = Normal v →
  truthy v = false →
  ∃ w', updateMetrics data w = Returns tt w' ∧
        document w' !! metric_target f = Some [Text (metric_default f)].
Proof.
  intros T P S G F.
  destruct (S TotalRevenue) as [s1 S1]. destruct (S ConversionRate) as [s2 S2].
  destruct (S AverageBasket) as [s3 S3]. destruct (S TotalOrders) as [s4 S4].
  set (s := fun g => match g with
                     | TotalRevenue => s1 | ConversionRate => s2
                     | AverageBasket => s3 | TotalOrders => s4
                     end).
  assert (St : ∀ g, metric_text data g = Normal (s g)) by (intros []; assumption).
  exists (metrics_written s w). split.
  - by apply updateMetrics_run.
  - rewrite metrics_written_target.
    pose proof (St f) as E. unfold metric_text in E. rewrite G in E.
    simpl in E. unfold or_else in E. rewrite F in E. simpl in E.
    injection E as <-.
    by rewrite text_content_nonempty by apply metric_default_nonempty.
Qed.

(** *** The chart registry *)

Lemma same_registry_refl w : same_registry w w.
Proof. by repeat split. Qed.

Lemma same_registry_trans w1 w2 w3 :
  same_registry w1 w2 → same_registry w2 w3 → same_registry w1 w3.
Proof. intros (?&?&?&?) (?&?&?&?). repeat split; congruence. Qed.

Lemma owned_same_registry w w' : same_registry w w' → owned w → owned w'.
Proof.
  intros (Ec&Es&Et&Ech) [N F Hd].
  assert (Eh : ∀ c, handle_of c w' = handle_of c w) by (intros []; assumption).
  split; rewrite ?Ec, ?Es; [assumption | assumption |].
  intros ch I. rewrite Eh. by apply Hd.
Qed.

Lemma page_only_ret {A} (a : A) : page_only (mret a).
Proof. intros w. apply same_registry_refl. Qed.

Lemma page_only_bind {A B} (m : M A) (k : A → M B) :
  page_only m → (∀ a, page_only (k a)) → page_only (m ≫= k).
Proof.
  intros Pm Pk w. unfold mbind, M_bind. specialize (Pm w).
  destruct (m w) as [a w1|e w1]; simpl in *; [|assumption].
  eapply same_registry_trans; [exact Pm|apply Pk].
Qed.

Lemma page_only_lift {A} (c : completion A) : page_only (lift c).
Proof. intros w. unfold lift. destruct c; apply same_registry_refl. Qed.

Lemma page_only_set_children id f : page_only (set_children id f).
Proof.
  intros w. unfold set_children.
  destruct (document w !! id); simpl; by repeat split.
Qed.

Lemma page_only_for_each {A} (f : A → nat → M unit) l :
  (∀ a i, page_only (f a i)) → ∀ i, page_only (for_each f l i).
Proof.
  intros Pf. induction l as [|a l IH]; intros i; simpl.
  - apply page_only_ret.
  - apply page_only_bind; [apply Pf | intros _; apply IH].
Qed.

Lemma page_only_call_forEach v f :
  (∀ a i, page_only (f a i)) → page_only (call_forEach v f).
Proof.
  intros Pf. destruct v; simpl;
    first [apply page_only_lift | by apply page_only_for_each].
Qed.

Lemma page_only_createChannelLegends l colors :
  page_only (createChannelLegends l colors).
Proof.
  unfold createChannelLegends.
  apply page_only_bind; [apply page_only_set_children|intros _].
  apply page_only_call_forEach. intros a i.
  apply page_only_bind; [apply page_only_lift|intros s].
  apply page_only_set_children.
Qed.

(** At most one live instance on each canvas. *)
Lemma owned_at_most_one w c : owned w → length (live_on c w) ≤ 1.
Proof.
  intros [N _ Hd]. unfold live_on.
  assert (Hall : ∀ ch, ch ∈ filter (λ ch, chart_canvas ch = c) (charts w) →
                       handle_of c w = Some (chart_id ch)).
  { intros ch I. apply list_elem_of_filter in I as [<- I]. by apply Hd. }
  assert (Nf : NoDup (chart_id <$> filter (λ ch, chart_canvas ch = c) (charts w))).
  { revert N. generalize (charts w). intros cs. induction cs as [|x cs IH]; [done|].
    rewrite fmap_cons, NoDup_cons. intros [Nx Ncs]. rewrite filter_cons.
    destruct (decide (chart_canvas x = c)); [|by apply IH].
    rewrite fmap_cons, NoDup_cons. split; [|by apply IH].
    intros I. apply Nx. apply list_elem_of_fmap in I as (y & E & I).
    apply list_elem_of_filter in I as [_ I]. rewrite E. by apply list_elem_of_fmap_2. }
  destruct (filter (λ ch, chart_canvas ch = c) (charts w)) as [|a [|b l]] eqn:E;
    simpl; [lia|lia|exfalso].
  pose proof (Hall a ltac:(rewrite elem_of_cons; auto)) as Ha.
  pose proof (Hall b ltac:(rewrite !elem_of_cons; auto)) as Hb.
  rewrite Ha in Hb. injection Hb as Eab.
  rewrite !fmap_cons, NoDup_cons in Nf. destruct Nf as [Nf _].
  apply Nf. rewrite Eab. rewrite elem_of_cons. by left.
Qed.

Lemma elem_of_retire h cs ch :
  ch ∈ retire h cs → ch ∈ cs ∧ h ≠ Some (chart_id ch).
Proof.
  destruct h as [old|]; simpl; [|done].
  rewrite list_elem_of_filter. intros [N I]. split; [done|congruence].
Qed.

Lemma handle_of_with_handle c c' h w :
  handle_of c' (with_handle c h w) = if decide (c' = c) then h else handle_of c' w.
Proof. by destruct c, c'. Qed.

Lemma owned_retired c w :
  owned w → owned (with_charts (retire (handle_of c w)) w).
Proof.
  intros [N F Hd]. split; simpl.
  - destruct (handle_of c w); simpl; [|done].
    revert N. generalize (charts w). intros cs.
    induction cs as [|x cs IH]; [done|].
    rewrite fmap_cons, NoDup_cons. intros [Nx Ncs]. rewrite filter_cons.
    destruct (decide (chart_id x ≠ n)); [|by apply IH].
    rewrite fmap_cons, NoDup_cons. split; [|by apply IH].
    intros I. apply Nx. apply list_elem_of_fmap in I as (y & E & I).
    apply list_elem_of_filter in I as [_ I]. rewrite E. by apply list_elem_of_fmap_2.
  - intros ch I. apply elem_of_retire in I as [I _]. by apply F.
  - intros ch I. apply elem_of_retire in I as [I _].
    replace (handle_of (chart_canvas ch) (with_charts (retire (handle_of c w)) w))
      with (handle_of (chart_canvas ch) w) by (by destruct (chart_canvas ch)).
    by apply Hd.
Qed.

Lemma live_on_retired c w :
  owned w → live_on c (with_charts (retire (handle_of c w)) w) = [].
Proof.
  intros [N F Hd]. unfold live_on. simpl.
  destruct (filter (λ ch, chart_canvas ch = c) (retire (handle_of c w) (charts w)))
    as [|a l] eqn:E; [done|exfalso].
  assert (I : a ∈ filter (λ ch, chart_canvas ch = c) (retire (handle_of c w) (charts w)))
    by (rewrite E, elem_of_cons; auto).
  apply list_elem_of_filter in I as [Ec I]. apply elem_of_retire in I as [I Nh].
  apply Nh. rewrite <- Ec. by apply Hd.
Qed.

Lemma owned_redrawn c config w : owned w → owned (redrawn c config w).
Proof.
  intros O. pose proof (owned_retired c w O) as [N F Hd].
  pose proof (live_on_retired c w O) as L. simpl in *.
  assert (Ec : charts (redrawn c config w)
               = retire (handle_of c w) (charts w) ++ [fresh_chart c config w])
    by (by destruct c).
  assert (Es : chart_seq (redrawn c config w) = S (chart_seq w)) by (by destruct c).
  split; rewrite ?Ec, ?Es.
  - rewrite fmap_app, NoDup_app. split; [done|]. split; [|apply NoDup_singleton].
    intros i I. simpl. rewrite list_elem_of_singleton. intros ->.
    apply list_elem_of_fmap in I as (ch & E & I). apply F in I. lia.
  - intros ch. rewrite elem_of_app, list_elem_of_singleton.
    intros [I| ->]; [apply F in I; lia | simpl; lia].
  - intros ch. rewrite elem_of_app, list_elem_of_singleton.
    unfold redrawn. rewrite handle_of_with_handle.
    intros [I| ->].
    + destruct (decide (chart_canvas ch = c)) as [E|E].
      * exfalso.
        assert (I' : ch ∈ live_on c (with_charts (retire (handle_of c w)) w))
          by (unfold live_on; simpl; rewrite list_elem_of_filter; done).
        rewrite L in I'. by apply elem_of_nil in I'.
      * apply Hd in I. by destruct (chart_canvas ch).
    + simpl. by rewrite decide_True.
Qed.

(** After a redraw the canvas carries the new instance and no other. *)
Lemma live_on_redrawn c config w :
  owned w → live_on c (redrawn c config w) = [fresh_chart c config w].
Proof.
  intros O. pose proof (live_on_retired c w O) as L. unfold live_on in *. simpl in L.
  replace (charts (redrawn c config w))
    with (retire (handle_of c w) (charts w) ++ [fresh_chart c config w])
    by (by destruct c).
  rewrite filter_app, L. simpl. by rewrite filter_cons_True.
Qed.

Lemma live_on_same_registry c w w' :
  same_registry w w' → live_on c w' = live_on c w.
Proof. intros (Ec&_). unfold live_on. by rewrite Ec. Qed.

(** *** The chart updaters *)

Lemma has_series_cases d :
  has_series d = Normal false ∨
  ∃ l v, has_series d = Normal true ∧ get d labels = Normal l ∧
         get d values = Normal v ∧ truthy l = true.
Proof.
  unfold has_series. destruct (truthy d) eqn:T; [|by left].
  destruct (get_truthy d labels T) as [l El].
  destruct (get_truthy d values T) as [v Ev].
  rewrite El. simpl. destruct (truthy l) eqn:Tl; [|by left].
  rewrite Ev. simpl. destruct (truthy v) eqn:Tv; [|by left].
  right. by exists l, v.
Qed.

Lemma updateRevenueTrendChart_incomplete d w :
  has_series d = Normal false → updateRevenueTrendChart d w = Returns tt w.
Proof. intros E. unfold updateRevenueTrendChart, mbind, M_bind, lift. by rewrite E. Qed.

Lemma updateRevenueTrendChart_complete d l v w :
  has_series d = Normal true → get d labels = Normal l → get d values = Normal v →
  updateRevenueTrendChart d w
  = Returns tt (redrawn RevenueTrendCanvas (Line (revenueTrendConfig l v)) w).
Proof.
  intros E El Ev. unfold updateRevenueTrendChart, mbind, M_bind, lift, read.
  rewrite E, El, Ev. simpl.
  destruct (revenueTrendChart w) eqn:Eh; unfold redrawn; simpl; rewrite ?Eh; reflexivity.
Qed.

Lemma updateSalesByChannelChart_incomplete d w :
  has_series d = Normal false → updateSalesByChannelChart d w = Returns tt w.
Proof. intros E. unfold updateSalesByChannelChart, mbind, M_bind, lift. by rewrite E. Qed.

Lemma get_length_truthy l : truthy l = true → ∃ n, get_length l = Normal n.
Proof. destruct l; try discriminate; intros _; simpl; eauto. Qed.

(** With a complete payload the channel updater destroys the held
    instance; it throws there if the length of the labels does not convert
    to a number, and otherwise draws the new chart and goes on to the
    legend. *)
Lemma updateSalesByChannelChart_complete d l v n w :
  has_series d = Normal true → get d labels = Normal l → get d values = Normal v →
  get_length l = Normal n →
  updateSalesByChannelChart d w
  = match slice_to channelColors n with
    | Normal background =>
        createChannelLegends l background
          (redrawn SalesByChannelCanvas (Doughnut (salesByChannelConfig l v background)) w)
    | Abrupt e => Throws e (with_charts (retire (salesByChannelChart w)) w)
    end.
Proof.
  intros E El Ev En. unfold updateSalesByChannelChart, mbind, M_bind, lift, read.
  rewrite E, El, Ev, En. simpl.
  destruct (slice_to channelColors n) as [background|e] eqn:Es;
    destruct (salesByChannelChart w) eqn:Eh; simpl; rewrite ?Es; simpl;
    unfold redrawn; simpl; rewrite ?Eh; first [reflexivity | by destruct w].
Qed.

Lemma owned_after_updateRevenueTrendChart d w :
  owned w → owned (after (updateRevenueTrendChart d) w).
Proof.
  intros O. unfold after.
  destruct (has_series_cases d) as [E|(l & v & E & El & Ev & _)].
  - by rewrite updateRevenueTrendChart_incomplete.
  - rewrite (updateRevenueTrendChart_complete d l v) by done. by apply owned_redrawn.
Qed.

Lemma owned_after_updateSalesByChannelChart d w :
  owned w → owned (after (updateSalesByChannelChart d) w).
Proof.
  intros O. unfold after.
  destruct (has_series_cases d) as [E|(l & v & E & El & Ev & Tl)].
  - by rewrite updateSalesByChannelChart_incomplete.
  - destruct (get_length_truthy l Tl) as [n En].
    rewrite (updateSalesByChannelChart_complete d l v n) by done.
    destruct (slice_to channelColors n) as [background|e].
    + eapply owned_same_registry; [apply page_only_createChannelLegends|].
      by apply owned_redrawn.
    + simpl. apply (owned_retired SalesByChannelCanvas w O).
Qed.

(** C5.  From a world in which the script owns its charts, after any two
    successive calls of the trend-chart updater, and likewise of the
    channel-chart updater, at most one live instance is bound to the
    canvas.  When the second call has complete data, the one live instance
    is the chart it constructed, numbered after every earlier instance:
    the first call's chart has been destroyed.  When the second call has
    absent or incomplete data it returns the world unchanged. *)
Theorem successive_updates_keep_one_chart (w : World) (d1 d2 : value) :
  owned w →
  (length (live_on RevenueTrendCanvas
             (after (updateRevenueTrendChart d2) (after (updateRevenueTrendChart d1) w))) ≤ 1 ∧
   length (live_on SalesByChannelCanvas
             (after (updateSalesByChannelChart d2)
                (after (updateSalesByChannelChart d1) w))) ≤ 1) ∧
  (∀ l v,
     has_series d2 = Normal true → get d2 labels = Normal l → get d2 values = Normal v →
     live_on RevenueTrendCanvas
       (after (updateRevenueTrendChart d2) (after (updateRevenueTrendChart d1) w))
     = [fresh_chart RevenueTrendCanvas (Line (revenueTrendConfig l v))
          (after (updateRevenueTrendChart d1) w)]) ∧
  (∀ items v,
     has_series d2 = Normal true → get d2 labels = Normal (VArr items) →
     get d2 values = Normal v →
     live_on SalesByChannelCanvas
       (after (updateSalesByChannelChart d2) (after (updateSalesByChannelChart d1) w))
     = [fresh_chart SalesByChannelCanvas
          (Doughnut (salesByChannelConfig (VArr items) v (take (length items) channelColors)))
          (after (updateSalesByChannelChart d1) w)]) ∧
  (has_series d2 = Normal false →
   updateRevenueTrendChart d2 (after (updateRevenueTrendChart d1) w)
   = Returns tt (after (updateRevenueTrendChart d1) w) ∧
   updateSalesByChannelChart d2 (after (updateSalesByChannelChart d1) w)
   = Returns tt (after (updateSalesByChannelChart d1) w)).
Proof.
  intros O.
  pose proof (owned_after_updateRevenueTrendChart d1 w O) as O1.
  pose proof (owned_after_updateSalesByChannelChart d1 w O) as O1'.
  split; [split|split; [|split]].
  - apply owned_at_most_one. by apply owned_after_updateRevenueTrendChart.
  - apply owned_at_most_one. by apply owned_after_updateSalesByChannelChart.
  - intros l v E El Ev. unfold after at 1.
    rewrite (updateRevenueTrendChart_complete d2 l v) by done. cbn [world_after].
    by apply live_on_redrawn.
  - intros items v E El Ev. unfold after at 1.
    rewrite (updateSalesByChannelChart_complete d2 (VArr items) v (Exactly (length items)))
      by done.
    simpl slice_to. cbv iota.
    erewrite live_on_same_registry; [|apply page_only_createChannelLegends].
    by apply live_on_redrawn.
  - intros E. split.
    + by apply updateRevenueTrendChart_incomplete.
    + by apply updateSalesByChannelChart_incomplete.
Qed.

(** *** Filling a container *)

Lemma with_document_insert_id id c w :
  document w !! id = Some c → with_document (insert id c) w = w.
Proof. intros E. destruct w; unfold with_document; simpl in *. by rewrite insert_id. Qed.

Lemma with_document_insert_twice id c c' w :
  with_document (insert id c') (with_document (insert id c) w)
  = with_document (insert id c') w.
Proof. unfold with_document; simpl. by rewrite insert_insert_eq. Qed.

Lemma document_with_document_insert id c w :
  document (with_document (insert id c) w) !! id = Some c.
Proof. simpl. apply lookup_insert_eq. Qed.

(** A loop whose body appends one node per element appends them all, in
    order. *)
Lemma for_each_appends {A B} (f : A → nat → M unit) (h : B → A) (g : nat → B → node) id :
  (∀ b i w c, document w !! id = Some c →
              f (h b) i w = Returns tt (with_document (insert id (c ++ [g i b])) w)) →
  ∀ l i w c, document w !! id = Some c →
    for_each f (h <$> l) i w
    = Returns tt (with_document (insert id (c ++ imap (fun j => g (i + j)) l)) w).
Proof.
  intros Hf. induction l as [|a l IH]; intros i w c E; simpl.
  - rewrite app_nil_r. by rewrite with_document_insert_id.
  - erewrite bind_returns; [|by apply Hf].
    erewrite IH; [|apply document_with_document_insert].
    rewrite with_document_insert_twice. rewrite <- app_assoc. simpl.
    rewrite Nat.add_0_r. do 5 f_equal.
    apply imap_ext. intros j x _. simpl. f_equal. lia.
Qed.

Lemma set_innerHTML_returns id html w :
  present id w →
  set_innerHTML id html w = Returns tt (with_document (insert id (inner_html html)) w).
Proof. intros [c E]. unfold set_innerHTML. by erewrite set_children_returns. Qed.

Lemma appendChild_returns id child c w :
  document w !! id = Some c →
  appendChild id child w = Returns tt (with_document (insert id (c ++ [child])) w).
Proof. intros E. unfold appendChild. by erewrite set_children_returns. Qed.

(** *** The channel legend and its colours *)

Lemma createChannelLegends_strings ls colors w :
  present (js "channelLegends") w →
  createChannelLegends (VArr (VStr <$> ls)) colors w
  = Returns tt (with_document (insert (js "channelLegends") (legendRows colors ls)) w).
Proof.
  intros P. unfold createChannelLegends.
  erewrite bind_returns; [|by apply set_innerHTML_returns].
  simpl call_forEach.
  erewrite (for_each_appends _ VStr (fun i l => legendItem (color_at colors i) l));
    [|intros b i w' c E; simpl; by apply appendChild_returns
     |apply document_with_document_insert].
  by rewrite with_document_insert_twice.
Qed.

Lemma document_redrawn c config w : document (redrawn c config w) = document w.
Proof. by destruct c. Qed.

(** The channel updater on a well-formed channel mix. *)
Lemma updateSalesByChannelChart_mix (mix : ChannelMix) w :
  present (js "channelLegends") w →
  updateSalesByChannelChart (channel_value mix) w
  = Returns tt
      (with_document
         (insert (js "channelLegends")
            (legendRows (take (length (channel_labels mix)) channelColors)
                        (channel_labels mix)))
         (redrawn SalesByChannelCanvas
            (Doughnut
               (salesByChannelConfig (VArr (VStr <$> channel_labels mix))
                  (VArr (VNum <$> channel_values mix))
                  (take (length (channel_labels mix)) channelColors))) w)).
Proof.
  intros P.
  rewrite (updateSalesByChannelChart_complete _ (VArr (VStr <$> channel_labels mix))
             (VArr (VNum <$> channel_values mix))
             (Exactly (length (channel_labels mix))));
    [|reflexivity|reflexivity|reflexivity|simpl; by rewrite length_fmap].
  simpl slice_to. cbv iota.
  apply createChannelLegends_strings.
  unfold present. by rewrite document_redrawn.
Qed.

Lemma legendRows_lookup colors ls i label :
  ls !! i = Some label →
  legendRows colors ls !! i = Some (legendItem (color_at colors i) label).
Proof. intros E. unfold legendRows. by rewrite list_lookup_imap, E. Qed.

(** C1, as amended.  For a channel mix of N labels the slices and the
    legend swatches are coloured from the first N entries of the
    five-colour palette, in order: every label whose position has a
    palette entry receives that entry, as slice colour and as swatch
    colour, so that with N ≤ 5 the colours are exactly the first N entries
    and the fifth label receives the fifth, grey, colour.  With N ≥ 5 the
    colour list is the whole palette. *)
Theorem channel_colours_follow_palette (mix : ChannelMix) (w : World) :
  owned w → present (js "channelLegends") w →
  ∃ w' c,
    updateSalesByChannelChart (channel_value mix) w = Returns tt w' ∧
    chart_config <$> live_on SalesByChannelCanvas w' = [Doughnut c] ∧
    arc_backgroundColor c = take (length (channel_labels mix)) channelColors ∧
    document w' !! js "channelLegends"
    = Some (legendRows (arc_backgroundColor c) (channel_labels mix)) ∧
    (∀ i label colour,
       channel_labels mix !! i = Some label → channelColors !! i = Some colour →
       arc_backgroundColor c !! i = Some colour ∧
       legendRows (arc_backgroundColor c) (channel_labels mix) !! i
       = Some (legendItem colour label)) ∧
    (5 ≤ length (channel_labels mix) → arc_backgroundColor c = channelColors).
Proof.
  intros O P.
  eexists _, (salesByChannelConfig (VArr (VStr <$> channel_labels mix))
                (VArr (VNum <$> channel_values mix))
                (take (length (channel_labels mix)) channelColors)).
  split; [by apply updateSalesByChannelChart_mix|].
  split; [|split; [reflexivity|split; [|split]]].
  - erewrite (live_on_same_registry _ (redrawn _ _ w)); [|by repeat split].
    by rewrite live_on_redrawn.
  - apply document_with_document_insert.
  - intros i label colour El Ec. simpl arc_backgroundColor.
    assert (Et : take (length (channel_labels mix)) channelColors !! i = Some colour).
    { rewrite lookup_take_lt; [done|]. by apply lookup_lt_Some in El. }
    split; [done|].
    rewrite (legendRows_lookup _ _ _ _ El). unfold color_at. by rewrite Et.
  - intros N. simpl. by rewrite take_ge.
Qed.

(** *** The product grid *)

Lemma get_product p :
  get (product_value p) name = Normal (VStr (product_name p)) ∧
  get (product_value p) price = Normal (VNum (product_price p)) ∧
  get (product_value p) iconUrl = Normal (from_option VStr VUndefined (product_iconUrl p)) ∧
  get (product_value p) iconBgColor
  = Normal (from_option VStr VUndefined (product_iconBgColor p)).
Proof. destruct p as [n x [u|] [b|]]; repeat split; vm_compute; reflexivity. Qed.

Lemma renderProduct_summary p :
  renderProduct (product_value p) = Normal (summaryCard p).
Proof.
  destruct (get_product p) as (En & Ep & Eu & Eb).
  unfold renderProduct. rewrite En, Ep, Eu, Eb.
  unfold summaryCard, icon_src, icon_background.
  destruct (product_iconUrl p) as [[|? ?]|];
    destruct (product_iconBgColor p) as [[|? ?]|];
    cbn -[productCard placeholderUrl fallbackBg app];
    repeat case_decide; try congruence; reflexivity.
Qed.

Lemma inner_html_notFoundRow : inner_html notFoundRow = [Markup notFoundRow].
Proof. unfold inner_html. destruct (decide (notFoundRow = [])) as [E|]; [|done]. by vm_compute in E. Qed.

Lemma updateTopSellingProducts_absent products w :
  truthy products = false ∨ products = VArr [] →
  present (js "topSellingProducts") w →
  updateTopSellingProducts products w
  = Returns tt (with_document (insert (js "topSellingProducts") [Markup notFoundRow]) w).
Proof.
  intros A P. unfold updateTopSellingProducts.
  erewrite bind_returns; [|by apply set_innerHTML_returns].
  erewrite bind_returns with (a := false);
    [|destruct A as [->| ->]; reflexivity].
  rewrite set_innerHTML_returns by (apply present_insert, P).
  by rewrite inner_html_notFoundRow, with_document_insert_twice.
Qed.

Lemma updateTopSellingProducts_summaries ps w :
  present (js "topSellingProducts") w →
  updateTopSellingProducts (VArr (product_value <$> ps)) w
  = Returns tt (with_document (insert (js "topSellingProducts") (productGrid ps)) w).
Proof.
  intros P. destruct (decide (ps = [])) as [->|N].
  { apply updateTopSellingProducts_absent; auto. }
  unfold updateTopSellingProducts.
  erewrite bind_returns; [|by apply set_innerHTML_returns].
  erewrite bind_returns with (a := true);
    [|unfold lift; cbn [truthy get_length positive_length mbind completion_bind cbind];
      rewrite length_fmap, bool_decide_true; [reflexivity|destruct ps; [done|simpl; lia]]].
  cbn [call_forEach].
  erewrite (for_each_appends _ product_value (fun _ q => summaryCard q));
    [|intros b i w' c E; unfold lift; rewrite renderProduct_summary;
      erewrite bind_returns; [|reflexivity]; by apply appendChild_returns
     |apply document_with_document_insert].
  rewrite with_document_insert_twice.
  change (imap (fun (_ : nat) q => summaryCard q) ps) with (imap (const summaryCard) ps).
  rewrite imap_const. change (inner_html []) with (@nil node). rewrite app_nil_l.
  unfold productGrid. by destruct ps.
Qed.

(** C6.  On a page that has the product grid: given the absent sentinel
    or an empty sequence, [updateTopSellingProducts] returns and the grid
    holds the "not found" row and nothing else, so no product card; given
    a non-empty sequence of N products it returns and the grid holds,
    whatever it held before, exactly the N cards of the products, in
    their order. *)
Theorem product_grid_rendered (ps : list ProductSummary) (w : World) :
  present (js "topSellingProducts") w →
  (∀ absent, absent = VNull ∨ absent = VUndefined ∨ absent = VArr [] →
     ∃ w', updateTopSellingProducts absent w = Returns tt w' ∧
           document w' !! js "topSellingProducts" = Some [Markup notFoundRow]) ∧
  (ps ≠ [] →
     ∃ w', updateTopSellingProducts (VArr (product_value <$> ps)) w = Returns tt w' ∧
           document w' !! js "topSellingProducts" = Some (summaryCard <$> ps) ∧
           length (summaryCard <$> ps) = length ps).
Proof.
  intros P. split.
  - intros absent A. eexists. split.
    + apply updateTopSellingProducts_absent; [|exact P].
      destruct A as [->|[->| ->]]; auto.
    + apply document_with_document_insert.
  - intros N. eexists. split; [by apply updateTopSellingProducts_summaries|].
    split; [|apply length_fmap].
    rewrite document_with_document_insert. unfold productGrid. by destruct ps.
Qed.

(** C7, as amended.  For every product of the sequence that lacks
    [iconUrl], the card appended at its position is built from the markup
    of the template, in which the [src] attribute of the image is written
    as the placeholder URL followed by the first code unit of the
    product's name (nothing for an empty name), and the background colour
    as the product's [iconBgColor] when that is present and not empty, and
    as the fixed fallback colour otherwise.  The values are put into the
    markup as they are, without escaping: the statement is about the
    markup assigned to [innerHTML], not about what a browser makes of
    it. *)
Theorem placeholder_icon_rendered (ps : list ProductSummary) (w : World)
    (i : nat) (p : ProductSummary) :
  present (js "topSellingProducts") w →
  ps !! i = Some p → product_iconUrl p = None →
  ∃ w' cards,
    updateTopSellingProducts (VArr (product_value <$> ps)) w = Returns tt w' ∧
    document w' !! js "topSellingProducts" = Some cards ∧
    cards !! i
    = Some (productCard (placeholderUrl ++ charAt (product_name p) 0)
              (product_name p) (icon_background p) (product_name p)
              (NumberToLocaleString (js "tr-TR") (product_price p))).
Proof.
  intros P E U. eexists _, _.
  split; [by apply updateTopSellingProducts_summaries|].
  split; [apply document_with_document_insert|].
  unfold productGrid. destruct ps as [|q qs]; [done|].
  rewrite list_lookup_fmap, E. simpl. unfold summaryCard, icon_src. by rewrite U.
Qed.

(** *** The trend chart *)

(** C9.  In the chart [updateRevenueTrendChart] builds from a complete
    payload, the Y-axis tick label of a value is the currency sign, the
    value divided by 1000 as the runtime prints numbers, and "K"; the
    tooltip of a data point is the dataset label "Toplam Gelir", a colon,
    the currency sign and the value formatted for the Turkish locale; a
    gap in the data has the label alone. *)
Theorem trend_chart_labels (data : value) (w : World) :
  owned w → has_series data = Normal true →
  ∃ c,
    chart_config <$> live_on RevenueTrendCanvas (after (updateRevenueTrendChart data) w)
    = [Line c] ∧
    (∀ v, line_tick c v = js "₺" ++ NumberToString (v / 1000)%float ++ js "K") ∧
    (∀ y, line_tooltip c {| dataset_label := Some (line_dataset_label c);
                            parsed_y := Some y |}
          = js "Toplam Gelir: ₺" ++ NumberToLocaleString (js "tr-TR") y) ∧
    line_tooltip c {| dataset_label := Some (line_dataset_label c); parsed_y := None |}
    = js "Toplam Gelir: ".
Proof.
  intros O E.
  destruct (has_series_cases data) as [E'|(l & v & _ & El & Ev & _)]; [congruence|].
  exists (revenueTrendConfig l v). split; [|split; [|split]].
  - unfold after. rewrite (updateRevenueTrendChart_complete data l v) by done.
    cbn [world_after]. by rewrite live_on_redrawn.
  - reflexivity.
  - intros y. vm_compute. reflexivity.
  - vm_compute. reflexivity.
Qed.

(** *** The fetcher *)

Lemma find_key_string url keys :
  find_key (VStr url) keys = Normal (find (includes url) keys).
Proof.
  induction keys as [|k keys IH]; [done|].
  simpl. destruct (includes url k); [done|apply IH].
Qed.

Lemma fetchData_string url w :
  fetchData (VStr url) w
  = Returns (promised (registered url))
      (with_console (fun l => l ++ [Log (js "Fetching mock data for: " ++ url)])
         (with_journal (fun j => j ++ [Requested (VStr url)]) w)).
Proof.
  unfold fetchData, async, try_catch, mark, console_log, modify.
  unfold mbind, M_bind, lift. cbn [ToString]. rewrite find_key_string.
  unfold registered.
  destruct (includes url (js "/dashboard/metrics")) eqn:E1;
    [|destruct (includes url (js "/dashboard/revenue-trend")) eqn:E2;
      [|destruct (includes url (js "/dashboard/sales-by-channel")) eqn:E3;
        [|destruct (includes url (js "/dashboard/top-selling-products")) eqn:E4]]].
  all: unfold MOCK_API_RESPONSES; cbn [map fst find]; rewrite ?E1, ?E2, ?E3, ?E4.
  all: vm_compute; reflexivity.
Qed.

(** A key [find] returns is one the callback accepted. *)
Lemma find_key_found url keys k :
  find_key url keys = Normal (Some k) → call_includes url k = Normal true.
Proof.
  induction keys as [|k' keys IH]; [discriminate|].
  simpl. destruct (call_includes url k') as [[|]|e] eqn:E; simpl.
  - by intros [= <-].
  - apply IH.
  - discriminate.
Qed.

Lemma fetchData_fulfils url w :
  ∃ p w' v,
    fetchData url w = Returns p w' ∧ settles p = Fulfilled v ∧
    (v = VNull ∨
     ∃ k, call_includes url k = Normal true ∧
          v = default VUndefined (own_property MOCK_API_RESPONSES k)).
Proof.
  unfold fetchData, async, try_catch, mark, console_log, console_error, modify.
  unfold mbind, M_bind, lift.
  destruct (ToString url) as [shown|e]; [|by eexists _, _, _; eauto].
  destruct (find_key url (map fst MOCK_API_RESPONSES)) as [[k|]|e] eqn:E;
    [|by eexists _, _, _; eauto..].
  apply find_key_found in E.
  destruct (truthy (VStr k)); eexists _, _, _; (split; [reflexivity|]); simpl; eauto.
Qed.

Lemma registered_endpoint r : registered (API_ENDPOINTS r) = Some (mock_payload r).
Proof. destruct r; vm_compute; reflexivity. Qed.

(** C3.  For a URL string [fetchData] returns, without throwing, a
    promise that is fulfilled with the payload registered for the URL
    (after the 500 ms of the mock timer) and with [null] when none is;
    each endpoint of the script has its resource's payload registered.
    For any argument at all, including one on which a step inside the
    [try] block throws, the call returns a promise that is fulfilled, with
    [null] or with a payload of the table whose key the argument includes:
    the promise never rejects. *)
Theorem fetchData_resolves_or_absent :
  (∀ (url : jsstring) (w : World),
     ∃ w', fetchData (VStr url) w = Returns (promised (registered url)) w') ∧
  (∀ r, registered (API_ENDPOINTS r) = Some (mock_payload r)) ∧
  (∀ (url : value) (w : World),
     ∃ p w' v,
       fetchData url w = Returns p w' ∧ settles p = Fulfilled v ∧
       (v = VNull ∨
        ∃ k, call_includes url k = Normal true ∧
             v = default VUndefined (own_property MOCK_API_RESPONSES k))).
Proof.
  split; [|split].
  - intros url w. eexists. apply fetchData_string.
  - apply registered_endpoint.
  - apply fetchData_fulfils.
Qed.

(** *** The orchestrator *)

Lemma fetch_awaited r w :
  (fetchData (VStr (API_ENDPOINTS r)) ≫= await) w = Returns (mock_payload r) (fetched r w).
Proof.
  erewrite bind_returns; [|apply fetchData_string].
  rewrite registered_endpoint. reflexivity.
Qed.

Lemma metric_text_mock f : metric_text (mock_payload Metrics) f = Normal (mock_metric f).
Proof. destruct f; vm_compute; reflexivity. Qed.

Lemma mock_trend_complete :
  ∃ l v, has_series (mock_payload RevenueTrend) = Normal true ∧
         get (mock_payload RevenueTrend) labels = Normal l ∧
         get (mock_payload RevenueTrend) values = Normal v.
Proof. eexists _, _. repeat split; vm_compute; reflexivity. Qed.

Lemma mock_channel_mix : mock_payload SalesByChannel = channel_value mock_mix.
Proof. vm_compute. reflexivity. Qed.

Lemma mock_product_summaries :
  mock_payload TopSellingProducts = VArr (product_value <$> mock_products).
Proof. vm_compute. reflexivity. Qed.

Lemma present_fetched id r w : present id w → present id (fetched r w).
Proof. done. Qed.

Lemma present_journal id f w : present id w → present id (with_journal f w).
Proof. done. Qed.

Lemma present_redrawn id c config w : present id w → present id (redrawn c config w).
Proof. unfold present. by rewrite document_redrawn. Qed.

Lemma present_metrics_written id s w : present id w → present id (metrics_written s w).
Proof.
  intros P. unfold present, metrics_written in *. simpl.
  rewrite !lookup_insert. repeat case_decide; eauto.
Qed.

Ltac project field :=
  cbn [field with_journal with_document with_clock with_console redrawn with_handle
       with_charts with_chart_seq with_revenueTrendChart with_salesByChannelChart
       fetched metrics_written].

(** *** Malformed products *)

(** Without a price no card is rendered, whatever else the product has. *)
Lemma renderProduct_needs_price product :
  get product price = Normal VUndefined → ∃ e, renderProduct product = Abrupt e.
Proof.
  intros E. unfold renderProduct. rewrite E.
  repeat first
    [ progress cbn [mbind completion_bind cbind toLocaleString]
    | match goal with
      | |- ∃ e, (?c ≫= _) = Abrupt e => destruct c; [|by eexists]
      end ].
  by eexists.
Qed.

(** C2 (the code does not do this).  On the page shell and for every
    host: a product without a price, and a product with neither icon nor
    name, make [updateTopSellingProducts] throw a TypeError, where a
    product that has its name and price but no icon is rendered; and
    labels that are a string, not an array, make
    [updateSalesByChannelChart] throw one. *)
Theorem updaters_throw_on_malformed_fields :
  thrown (updateTopSellingProducts
            (VArr [VObj [(js "name", VStr (js "Kalem"))]]) page)
  = Some TypeError_nullish ∧
  thrown (updateTopSellingProducts
            (VArr [VObj [(js "price", VNum 25)]]) page)
  = Some TypeError_nullish ∧
  thrown (updateTopSellingProducts
            (VArr [VObj [(js "name", VStr (js "Kalem")); (js "price", VNum 25)]]) page)
  = None ∧
  thrown (updateSalesByChannelChart
            (VObj [(js "labels", VStr (js "abc")); (js "values", VArr [VNum 1])]) page)
  = Some TypeError_not_callable.
Proof. repeat split; vm_compute; reflexivity. Qed.

End Properties.

(** * Concrete runs, on the page shell and the reference host *)

Section Runs.
#[local] Existing Instance reference_host.

Lemma metrics_on_page f : present (metric_target f) page.
Proof. destruct f; exists []; vm_compute; reflexivity. Defined.

Lemma legends_on_page : present (js "channelLegends") page.
Proof. exists []. vm_compute. reflexivity. Defined.

Lemma grid_on_page : present (js "topSellingProducts") page.
Proof. exists []. vm_compute. reflexivity. Defined.

Lemma owned_page : owned page.
Proof.
  split; simpl.
  - constructor.
  - intros ch I. by apply elem_of_nil in I.
  - intros ch I. by apply elem_of_nil in I.
Defined.

(** C4: the statement as the specification has it fails on a snapshot
    whose conversion rate is the empty string: the target shows the
    default, not the supplied string. *)
Lemma empty_string_is_replaced :
  document (after (updateMetrics (metrics_value blank_rate)) page) !! js "conversionRate"
  = Some [Text (js "3.47%")] ∧
  ¬ shows_as_supplied blank_rate page.
Proof.
  split; [vm_compute; reflexivity|].
  intros C. specialize (C ConversionRate). vm_compute in C. discriminate C.
Qed.

(** A snapshot without a revenue and with an empty rate, on the page
    shell. *)
Lemma updateMetrics_writes_snapshot_witness :
  updateMetrics VNull page = Returns tt page ∧
  updateMetrics VUndefined page = Returns tt page ∧
  ∃ w', updateMetrics (metrics_value blank_rate) page = Returns tt w' ∧
        (∀ f, document w' !! metric_target f = Some [Text (snapshot_text blank_rate f)]) ∧
        (∀ id, (∀ f, id ≠ metric_target f) → document w' !! id = document page !! id).
Proof. exact (updateMetrics_writes_snapshot blank_rate page metrics_on_page). Defined.

(** An order count of zero is replaced by the default. *)
Lemma updateMetrics_falsy_gets_default_witness :
  ∃ w', updateMetrics zero_orders page = Returns tt w' ∧
        document w' !! metric_target TotalOrders = Some [Text (js "6,847")].
Proof.
  apply (updateMetrics_falsy_gets_default zero_orders (VNum 0) TotalOrders page).
  - reflexivity.
  - exact metrics_on_page.
  - intros g. destruct g; eexists; vm_compute; reflexivity.
  - vm_compute. reflexivity.
  - vm_compute. reflexivity.
Defined.

(** C1: with six channels the sixth label is not grey: the colour list
    of the chart stops at the fifth entry, and the sixth swatch of the
    legend reads [undefined]. *)
Lemma sixth_channel_is_not_grey :
  slice_colours (after (updateSalesByChannelChart (channel_value six_channels)) page)
  = channelColors ∧
  legend_rows (after (updateSalesByChannelChart (channel_value six_channels)) page) !! 5
  = Some (legendItem (js "undefined") (js "F")) ∧
  ¬ overflow_coloured six_channels page.
Proof.
  split; [vm_compute; reflexivity|]. split; [vm_compute; reflexivity|].
  intros C. destruct (C 5 (js "F")) as [C1 _]; [vm_compute; reflexivity|lia|].
  vm_compute in C1. discriminate C1.
Qed.

(** The four mock channels on the page shell. *)
Lemma channel_colours_follow_palette_witness :
  ∃ w' c,
    updateSalesByChannelChart (channel_value mock_mix) page = Returns tt w' ∧
    chart_config <$> live_on SalesByChannelCanvas w' = [Doughnut c] ∧
    arc_backgroundColor c = take (length (channel_labels mock_mix)) channelColors ∧
    document w' !! js "channelLegends"
    = Some (legendRows (arc_backgroundColor c) (channel_labels mock_mix)) ∧
    (∀ i label colour,
       channel_labels mock_mix !! i = Some label → channelColors !! i = Some colour →
       arc_backgroundColor c !! i = Some colour ∧
       legendRows (arc_backgroundColor c) (channel_labels mock_mix) !! i
       = Some (legendItem colour label)) ∧
    (5 ≤ length (channel_labels mock_mix) → arc_backgroundColor c = channelColors).
Proof. exact (channel_colours_follow_palette mock_mix page owned_page legends_on_page). Defined.

Lemma mock_trend_has_series : has_series (mock_payload RevenueTrend) = Normal true.
Proof. vm_compute. reflexivity. Defined.

Lemma mock_trend_labels :
  get (mock_payload RevenueTrend) labels
  = Normal (VArr (VStr <$> [js "Oca"; js "Şub"; js "Mar"; js "Nis"; js "May"; js "Haz"])).
Proof. vm_compute. reflexivity. Defined.

Lemma mock_trend_values :
  get (mock_payload RevenueTrend) values
  = Normal (VArr (VNum <$> [350000; 380000; 360000; 420000; 450000; 480000]%float)).
Proof. vm_compute. reflexivity. Defined.

(** Two loads of the mock trend, and of the mock channel mix, on the page
    shell: one chart stays on each canvas, and the trend chart that stays
    is the second one. *)
Lemma successive_updates_keep_one_chart_witness :
  owned page ∧
  (length (live_on RevenueTrendCanvas
             (after (updateRevenueTrendChart (mock_payload RevenueTrend))
                (after (updateRevenueTrendChart (mock_payload RevenueTrend)) page))) ≤ 1 ∧
   length (live_on SalesByChannelCanvas
             (after (updateSalesByChannelChart (mock_payload SalesByChannel))
                (after (updateSalesByChannelChart (mock_payload SalesByChannel)) page))) ≤ 1) ∧
  live_on RevenueTrendCanvas
    (after (updateRevenueTrendChart (mock_payload RevenueTrend))
       (after (updateRevenueTrendChart (mock_payload RevenueTrend)) page))
  = [fresh_chart RevenueTrendCanvas
       (Line (revenueTrendConfig
                (VArr (VStr <$> [js "Oca"; js "Şub"; js "Mar"; js "Nis"; js "May"; js "Haz"]))
                (VArr (VNum <$> [350000; 380000; 360000; 420000; 450000; 480000]%float))))
       (after (updateRevenueTrendChart (mock_payload RevenueTrend)) page)].
Proof.
  split; [exact owned_page|].
  pose proof (successive_updates_keep_one_chart page (mock_payload RevenueTrend)
                (mock_payload RevenueTrend) owned_page) as (Hone & Htrend & _).
  split; [exact Hone|].
  exact (Htrend _ _ mock_trend_has_series mock_trend_labels mock_trend_values).
Defined.

(** The six mock products on the page shell: six cards. *)
Lemma product_grid_rendered_witness :
  (∃ w', updateTopSellingProducts VNull page = Returns tt w' ∧
         document w' !! js "topSellingProducts" = Some [Markup notFoundRow]) ∧
  (∃ w', updateTopSellingProducts (VArr (product_value <$> mock_products)) page
         = Returns tt w' ∧
         document w' !! js "topSellingProducts" = Some (summaryCard <$> mock_products) ∧
         length (summaryCard <$> mock_products) = length mock_products).
Proof.
  pose proof (product_grid_rendered mock_products page grid_on_page) as [Habsent Hcards].
  split.
  - apply Habsent. by left.
  - apply Hcards. discriminate.
Defined.

(** C7: the statement as the specification has it fails on a product
    whose background colour is present but empty: the icon is drawn on
    the fallback colour, not on the product's. *)
Lemma empty_background_falls_back :
  product_grid (after (updateTopSellingProducts (VArr (product_value <$> [pencil]))) page)
  = [productCard (placeholderUrl ++ js "Ş") (js "Şeffaf Kalem") fallbackBg
       (js "Şeffaf Kalem") (js "1.250,5")] ∧
  ¬ placeholder_as_described [pencil] page.
Proof.
  split; [vm_compute; reflexivity|].
  intros C. specialize (C 0 pencil eq_refl eq_refl). vm_compute in C. discriminate C.
Qed.

(** A product without an icon, on the page shell. *)
Lemma placeholder_icon_rendered_witness :
  ∃ w' cards,
    updateTopSellingProducts (VArr (product_value <$> [pencil])) page = Returns tt w' ∧
    document w' !! js "topSellingProducts" = Some cards ∧
    cards !! 0
    = Some (productCard (placeholderUrl ++ charAt (product_name pencil) 0)
              (product_name pencil) (icon_background pencil) (product_name pencil)
              (NumberToLocaleString (js "tr-TR") (product_price pencil))).
Proof.
  exact (placeholder_icon_rendered [pencil] page 0 pencil grid_on_page eq_refl eq_refl).
Defined.

(** The trend chart of the mock payload. *)
Lemma trend_chart_labels_witness :
  ∃ c,
    chart_config <$> live_on RevenueTrendCanvas
                       (after (updateRevenueTrendChart (mock_payload RevenueTrend)) page)
    = [Line c] ∧
    (∀ v, line_tick c v = js "₺" ++ NumberToString (v / 1000)%float ++ js "K") ∧
    (∀ y, line_tooltip c {| dataset_label := Some (line_dataset_label c);
                            parsed_y := Some y |}
          = js "Toplam Gelir: ₺" ++ NumberToLocaleString (js "tr-TR") y) ∧
    line_tooltip c {| dataset_label := Some (line_dataset_label c); parsed_y := None |}
    = js "Toplam Gelir: ".
Proof.
  exact (trend_chart_labels (mock_payload RevenueTrend) page owned_page mock_trend_has_series).
Defined.

(** The page after the listener has run on the sample data: every region
    has content, and the numbers read as a Turkish reader expects. *)
Example page_after_load :
  thrown (onDOMContentLoaded page) = None ∧
  thrown (loadDashboardData page) = None ∧
  document (after onDOMContentLoaded page) !! js "totalRevenue" = Some [Text (js "₺2.4M")] ∧
  length (legend_rows (after onDOMContentLoaded page)) = 4 ∧
  length (product_grid (after onDOMContentLoaded page)) = 6 ∧
  length (charts (after onDOMContentLoaded page)) = 2 ∧
  slice_colours (after onDOMContentLoaded page)
  = [js "#886FE4"; js "#E0B8FF"; js "#6A5ACD"; js "#9370DB"] ∧
  clock (after onDOMContentLoaded page) = 2000.
Proof. repeat split; vm_compute; reflexivity. Qed.

Example tick_and_tooltip_text :
  revenueTick 350000 = js "₺350K" ∧
  revenueTick 1500 = js "₺1.5K" ∧
  revenueTooltip {| dataset_label := Some (js "Toplam Gelir"); parsed_y := Some 350000%float |}
  = js "Toplam Gelir: ₺350.000" ∧
  channelTooltip {| slice_label := Some (js "Mağaza"); parsed := Some 15%float |}
  = js "Mağaza: 15%".
Proof. repeat split; vm_compute; reflexivity. Qed.

End Runs.

(** * Frames: what the functions of the script leave alone *)

Section Frames.
Context `{Host}.

(** *** Computations that keep a relation *)

Lemma keeps_ret {A} (R : relation World) `{!PreOrder R} (a : A) : keeps R (mret a).
Proof. intros w. reflexivity. Qed.

Lemma keeps_bind {A B} (R : relation World) `{!PreOrder R} (m : M A) (k : A → M B) :
  keeps R m → (∀ a, keeps R (k a)) → keeps R (m ≫= k).
Proof.
  intros Pm Pk w. specialize (Pm w). unfold after, mbind, M_bind in *.
  destruct (m w) as [a w1|e w1]; simpl in *; [|assumption].
  etrans; [exact Pm|apply Pk].
Qed.

Lemma keeps_lift {A} (R : relation World) `{!PreOrder R} (c : completion A) :
  keeps R (lift c).
Proof. intros w. unfold after, lift. destruct c; reflexivity. Qed.

Lemma keeps_modify (R : relation World) f : (∀ w, R w (f w)) → keeps R (modify f).
Proof. intros Hf w. apply Hf. Qed.

Lemma keeps_read {A} (R : relation World) `{!PreOrder R} (f : World → A) : keeps R (read f).
Proof. intros w. reflexivity. Qed.

Lemma keeps_try_catch {A} (R : relation World) `{!PreOrder R} (body : M A) handler :
  keeps R body → (∀ e, keeps R (handler e)) → keeps R (try_catch body handler).
Proof.
  intros Pb Ph w. specialize (Pb w). unfold after, try_catch in *.
  destruct (body w) as [a w1|e w1]; simpl in *; [assumption|].
  etrans; [exact Pb|apply Ph].
Qed.

Lemma keeps_async (R : relation World) body : keeps R body → keeps R (async body).
Proof.
  intros Pb w. specialize (Pb w). unfold after, async in *.
  by destruct (body w) as [[v|p] w1|e w1].
Qed.

Lemma keeps_detached (R : relation World) body : keeps R body → keeps R (detached body).
Proof. intros Pb w. apply Pb. Qed.

Lemma keeps_for_each {A} (R : relation World) `{!PreOrder R} (f : A → nat → M unit) l :
  (∀ a i, keeps R (f a i)) → ∀ i, keeps R (for_each f l i).
Proof.
  intros Pf. induction l as [|a l IH]; intros i; simpl.
  - by apply keeps_ret.
  - apply keeps_bind; [done|apply Pf|intros _; apply IH].
Qed.

Lemma keeps_call_forEach (R : relation World) `{!PreOrder R} v f :
  (∀ a i, keeps R (f a i)) → keeps R (call_forEach v f).
Proof.
  intros Pf. destruct v; simpl; first [by apply keeps_lift | by apply keeps_for_each].
Qed.

Lemma keeps_mark (R : relation World) e : ignores_log R → keeps R (mark e).
Proof. intros L. apply keeps_modify. intros w. apply (ignores_journal R L). Qed.

Lemma keeps_await (R : relation World) `{!PreOrder R} p : ignores_log R → keeps R (await p).
Proof.
  intros L w. unfold after, await. destruct (settles p); simpl.
  - etrans; [apply (ignores_clock R L)|apply (ignores_journal R L)].
  - apply (ignores_clock R L).
Qed.

Lemma keeps_set_children (R : relation World) `{!PreOrder R} id f :
  ignores_element id R → keeps R (set_children id f).
Proof.
  intros E w. unfold after, set_children.
  destruct (document w !! id); simpl; [apply E|reflexivity].
Qed.

Lemma keeps_set_textContent (R : relation World) `{!PreOrder R} id v :
  ignores_element id R → keeps R (set_textContent id v).
Proof.
  intros E w. unfold after, set_textContent.
  destruct (document w !! id); simpl; [|reflexivity].
  destruct (text_of v); simpl; [apply E|reflexivity].
Qed.

(** *** The functions of the script *)

Lemma keeps_fetchData (R : relation World) `{!PreOrder R} url :
  ignores_log R → keeps R (fetchData url).
Proof.
  intros L. unfold fetchData. apply keeps_async.
  apply keeps_bind; [done|by apply keeps_mark|intros _].
  apply keeps_try_catch; [done| |].
  - apply keeps_bind; [done|by apply keeps_lift|intros shown].
    apply keeps_bind;
      [done|apply keeps_modify; intros w; apply (ignores_console R L)|intros _].
    apply keeps_bind; [done|by apply keeps_lift|intros key].
    destruct key as [k|]; [destruct (truthy (VStr k))|]; by apply keeps_ret.
  - intros e.
    apply keeps_bind;
      [done|apply keeps_modify; intros w; apply (ignores_console R L)|intros _].
    by apply keeps_ret.
Qed.

Lemma keeps_updateMetrics (R : relation World) `{!PreOrder R} data :
  (∀ f, ignores_element (metric_target f) R) → keeps R (updateMetrics data).
Proof.
  intros E. unfold updateMetrics. destruct (truthy data); [|by apply keeps_ret].
  repeat first
    [ apply keeps_bind; [done| |intros ?]
    | by apply keeps_lift
    | apply keeps_set_textContent; [done|] ].
  - apply (E TotalRevenue).
  - apply (E ConversionRate).
  - apply (E AverageBasket).
  - apply (E TotalOrders).
Qed.

Lemma keeps_createChannelLegends (R : relation World) `{!PreOrder R} l colors :
  ignores_element (js "channelLegends") R → keeps R (createChannelLegends l colors).
Proof.
  intros E. unfold createChannelLegends.
  apply keeps_bind; [done|by apply keeps_set_children|intros _].
  apply keeps_call_forEach; [done|]. intros a i.
  apply keeps_bind; [done|by apply keeps_lift|intros s].
  by apply keeps_set_children.
Qed.

Lemma keeps_updateTopSellingProducts (R : relation World) `{!PreOrder R} products :
  ignores_element (js "topSellingProducts") R → keeps R (updateTopSellingProducts products).
Proof.
  intros E. unfold updateTopSellingProducts.
  apply keeps_bind; [done|by apply keeps_set_children|intros _].
  apply keeps_bind;
    [done|destruct (truthy products); [by apply keeps_lift|by apply keeps_ret]|intros some].
  destruct some; [|by apply keeps_set_children].
  apply keeps_call_forEach; [done|]. intros product i.
  apply keeps_bind; [done|by apply keeps_lift|intros colDiv].
  by apply keeps_set_children.
Qed.

Lemma keeps_updateRevenueTrendChart (R : relation World) `{!PreOrder R} data :
  ignores_chart RevenueTrendCanvas R → keeps R (updateRevenueTrendChart data).
Proof.
  intros C w. unfold after.
  destruct (has_series_cases data) as [E|(l & v & E & El & Ev & _)].
  - rewrite updateRevenueTrendChart_incomplete by done. reflexivity.
  - rewrite (updateRevenueTrendChart_complete data l v) by done.
    apply (ignores_redraw _ R C).
Qed.

Lemma keeps_updateSalesByChannelChart (R : relation World) `{!PreOrder R} data :
  ignores_chart SalesByChannelCanvas R → ignores_element (js "channelLegends") R →
  keeps R (updateSalesByChannelChart data).
Proof.
  intros C E w. unfold after.
  destruct (has_series_cases data) as [Ed|(l & v & Ed & El & Ev & Tl)].
  - rewrite updateSalesByChannelChart_incomplete by done. reflexivity.
  - destruct (get_length_truthy l Tl) as [n En].
    rewrite (updateSalesByChannelChart_complete data l v n) by done.
    destruct (slice_to channelColors n) as [background|e].
    + etrans; [apply (ignores_redraw _ R C)|].
      by apply (keeps_createChannelLegends R l background).
    + apply (ignores_retire _ R C).
Qed.

Lemma keeps_loadDashboardData (R : relation World) `{!PreOrder R} :
  ignores_log R → (∀ f, ignores_element (metric_target f) R) →
  ignores_element (js "channelLegends") R → ignores_element (js "topSellingProducts") R →
  ignores_chart RevenueTrendCanvas R → ignores_chart SalesByChannelCanvas R →
  keeps R loadDashboardData.
Proof.
  intros L Em El Ep Ct Cc. unfold loadDashboardData.
  assert (F : ∀ url, keeps R (fetchData url ≫= await)).
  { intros url. apply keeps_bind; [done|by apply keeps_fetchData|intros p].
    by apply keeps_await. }
  apply keeps_bind; [done|apply F|intros metricsData].
  apply keeps_bind; [done|by apply keeps_updateMetrics|intros _].
  apply keeps_bind; [done|by apply keeps_mark|intros _].
  apply keeps_bind; [done|apply F|intros revenueTrendData].
  apply keeps_bind; [done|by apply keeps_updateRevenueTrendChart|intros _].
  apply keeps_bind; [done|by apply keeps_mark|intros _].
  apply keeps_bind; [done|apply F|intros salesByChannelData].
  apply keeps_bind; [done| |intros _].
  { destruct (truthy salesByChannelData); [|by apply keeps_ret].
    apply keeps_bind; [done|by apply keeps_updateSalesByChannelChart|intros _].
    by apply keeps_mark. }
  apply keeps_bind; [done|apply F|intros topSellingProductsData].
  apply keeps_bind; [done|by apply keeps_updateTopSellingProducts|intros _].
  by apply keeps_mark.
Qed.

(** *** Relations the script keeps *)

#[local] Instance same_outside_preorder ids : PreOrder (same_outside ids).
Proof.
  split; [by intros w id _|].
  intros w1 w2 w3 H1 H2 id N. rewrite (H2 id N). by apply H1.
Qed.

Lemma same_outside_log ids : ignores_log (same_outside ids).
Proof. by split. Qed.

Lemma same_outside_element ids id : id ∈ ids → ignores_element id (same_outside ids).
Proof.
  intros I c w id' N. simpl. rewrite lookup_insert_ne; [done|]. by intros ->.
Qed.

Lemma same_outside_chart ids c : ignores_chart c (same_outside ids).
Proof. split; [intros config w id _; by rewrite document_redrawn|by intros w id _]. Qed.

Lemma same_outside_nil w w' : same_outside [] w w' → document w' = document w.
Proof. intros S. apply map_eq. intros id. apply S, not_elem_of_nil. Qed.

#[local] Instance same_registry_preorder : PreOrder same_registry.
Proof. split; [exact same_registry_refl|exact same_registry_trans]. Qed.

Lemma same_registry_log : ignores_log same_registry.
Proof. by split. Qed.

Lemma same_registry_element id : ignores_element id same_registry.
Proof. by intros c w. Qed.

#[local] Instance carries_preorder P : PreOrder (carries P).
Proof.
  split; [intros w Pw; exact Pw|]. intros w1 w2 w3 H1 H2 P1. by apply H2, H1.
Qed.

#[local] Instance beside_preorder c : PreOrder (beside c).
Proof.
  split; [intros w T; split; [exact T|by split]|].
  intros w1 w2 w3 H1 H2 T1. destruct (H1 T1) as [T2 [L2 E2]].
  destruct (H2 T2) as [T3 [L3 E3]]. split; [done|]. split; congruence.
Qed.

(** *** The chart variables stay in order *)

Lemma tidy_same_registry w w' : same_registry w w' → tidy w → tidy w'.
Proof.
  intros S [O I A]. pose proof S as (Ec & Es & Et & Ech).
  assert (Eh : ∀ c, handle_of c w' = handle_of c w) by (intros []; assumption).
  split.
  - by apply (owned_same_registry w).
  - intros c n. rewrite Eh, Es. apply I.
  - rewrite Et, Ech. apply A.
Qed.

Lemma tidy_retired c w : tidy w → tidy (with_charts (retire (handle_of c w)) w).
Proof.
  intros [O I A]. split; [by apply owned_retired| |exact A].
  intros c' n. replace (handle_of c' (with_charts (retire (handle_of c w)) w))
    with (handle_of c' w) by (by destruct c'). apply I.
Qed.

Lemma handle_of_redrawn c c' config w :
  handle_of c' (redrawn c config w)
  = if decide (c' = c) then Some (chart_seq w) else handle_of c' w.
Proof. by destruct c, c'. Qed.

Lemma chart_seq_redrawn c config w : chart_seq (redrawn c config w) = S (chart_seq w).
Proof. by destruct c. Qed.

Lemma charts_redrawn c config w :
  charts (redrawn c config w) = retire (handle_of c w) (charts w) ++ [fresh_chart c config w].
Proof. by destruct c. Qed.

Lemma tidy_redrawn c config w : tidy w → tidy (redrawn c config w).
Proof.
  intros [O I A]. split; [by apply owned_redrawn| |].
  - intros c' n. rewrite handle_of_redrawn, chart_seq_redrawn.
    case_decide; [intros [= <-]; lia|]. intros E. apply I in E. lia.
  - pose proof (I RevenueTrendCanvas) as It. pose proof (I SalesByChannelCanvas) as Ic.
    simpl in It, Ic. destruct c; simpl; intros n.
    + intros [= <-] E. apply Ic in E. lia.
    + intros E [= <-]. apply It in E. lia.
Qed.

Lemma filter_filter_keep {A} (P Q : A → Prop) `{!∀ x, Decision (P x)} `{!∀ x, Decision (Q x)}
    (l : list A) :
  (∀ x, x ∈ l → P x → Q x) → filter P (filter Q l) = filter P l.
Proof.
  induction l as [|a l IH]; intros K; [done|].
  assert (K' : ∀ x, x ∈ l → P x → Q x) by (intros x I; apply K; by right).
  rewrite (filter_cons Q). destruct (decide (Q a)) as [q|q].
  - rewrite !filter_cons. destruct (decide (P a)); by rewrite IH.
  - rewrite IH by done. rewrite filter_cons. destruct (decide (P a)) as [pa|]; [|done].
    exfalso. apply q, K; [by left|done].
Qed.

(** Destroying the instance one variable holds leaves the chart of the
    other canvas alive. *)
Lemma live_on_retired_other c c' w :
  tidy w → c' ≠ c → live_on c' (with_charts (retire (handle_of c w)) w) = live_on c' w.
Proof.
  intros [[N F Hd] I A] D. unfold live_on. simpl.
  destruct (handle_of c w) as [old|] eqn:Eh; simpl; [|done].
  apply filter_filter_keep. intros ch In Ec Eid.
  apply Hd in In. rewrite Ec, Eid in In.
  destruct c, c'; simpl in *; try done; by eapply A.
Qed.

Lemma live_on_redrawn_other c c' config w :
  tidy w → c' ≠ c → live_on c' (redrawn c config w) = live_on c' w.
Proof.
  intros T D. rewrite <- (live_on_retired_other c c' w T D).
  unfold live_on. rewrite charts_redrawn, filter_app. simpl charts.
  rewrite (filter_cons_False _ (fresh_chart c config w)) by (simpl; congruence).
  by rewrite app_nil_r.
Qed.

Lemma carries_tidy_log : ignores_log (carries tidy).
Proof. split; intros f w T; by apply (tidy_same_registry w). Qed.

Lemma carries_tidy_element id : ignores_element id (carries tidy).
Proof. intros c w T. by apply (tidy_same_registry w). Qed.

Lemma carries_tidy_chart c : ignores_chart c (carries tidy).
Proof.
  split; [intros config w T; by apply tidy_redrawn|intros w T; by apply tidy_retired].
Qed.

Lemma beside_same_registry c w w' : same_registry w w' → beside c w w'.
Proof.
  intros S T. split; [by apply (tidy_same_registry w)|]. split.
  - by apply live_on_same_registry.
  - destruct S as (_ & _ & Et & Ec). by destruct c.
Qed.

Lemma beside_log c : ignores_log (beside c).
Proof. split; intros f w; by apply beside_same_registry. Qed.

Lemma beside_element c id : ignores_element id (beside c).
Proof. intros x w. by apply beside_same_registry. Qed.

Lemma beside_chart c c' : c ≠ c' → ignores_chart c' (beside c).
Proof.
  intros D. split.
  - intros config w T. split; [by apply tidy_redrawn|]. split.
    + by apply live_on_redrawn_other.
    + rewrite handle_of_redrawn. by rewrite decide_False.
  - intros w T. split; [by apply tidy_retired|]. split.
    + by apply live_on_retired_other.
    + by destruct c.
Qed.

(** *** What the functions write to *)

(** X1.  Whatever its argument and whether it returns or throws, an
    updater changes the content of its own elements only: [updateMetrics]
    that of the four metric targets, [updateSalesByChannelChart] that of
    the legend, [updateTopSellingProducts] that of the product grid;
    [updateRevenueTrendChart] and [fetchData] change no element at all,
    and a whole run of [loadDashboardData] none but those six. *)
Theorem updaters_write_only_their_elements (data : value) (w : World) :
  same_outside (metric_target <$> metric_order) w (after (updateMetrics data) w) ∧
  document (after (updateRevenueTrendChart data) w) = document w ∧
  same_outside [js "channelLegends"] w (after (updateSalesByChannelChart data) w) ∧
  same_outside [js "topSellingProducts"] w (after (updateTopSellingProducts data) w) ∧
  document (after (fetchData data) w) = document w ∧
  same_outside ((metric_target <$> metric_order)
                  ++ [js "channelLegends"; js "topSellingProducts"])
    w (after loadDashboardData w).
Proof.
  assert (Im : ∀ f ids, ignores_element (metric_target f)
                          (same_outside ((metric_target <$> metric_order) ++ ids))).
  { intros f ids. apply same_outside_element. rewrite elem_of_app. left.
    apply list_elem_of_fmap_2. destruct f; unfold metric_order; repeat constructor. }
  split; [|split; [|split; [|split; [|split]]]].
  - apply (keeps_updateMetrics (same_outside _)). intros f.
    rewrite <- (app_nil_r (metric_target <$> metric_order)). apply Im.
  - apply same_outside_nil.
    apply (keeps_updateRevenueTrendChart (same_outside [])), same_outside_chart.
  - apply (keeps_updateSalesByChannelChart (same_outside _)); [apply same_outside_chart|].
    apply same_outside_element. by left.
  - apply (keeps_updateTopSellingProducts (same_outside _)).
    apply same_outside_element. by left.
  - apply same_outside_nil.
    apply (keeps_fetchData (same_outside [])), same_outside_log.
  - apply (keeps_loadDashboardData (same_outside _));
      [apply same_outside_log|intros f; apply Im| | |apply same_outside_chart..];
      apply same_outside_element; rewrite elem_of_app; right; [by left|right; by left].
Qed.

(** X2.  Only the two chart updaters touch the charts: whatever their
    arguments and whether they return or throw, [updateMetrics],
    [updateTopSellingProducts], [createChannelLegends] and [fetchData]
    leave the live chart instances, the instance counter and both chart
    variables as they were. *)
Theorem only_chart_updaters_touch_charts (data : value) (colors : list jsstring) (w : World) :
  same_registry w (after (updateMetrics data) w) ∧
  same_registry w (after (updateTopSellingProducts data) w) ∧
  same_registry w (after (createChannelLegends data colors) w) ∧
  same_registry w (after (fetchData data) w).
Proof.
  split; [|split; [|split]].
  - apply (keeps_updateMetrics same_registry). intros f. apply same_registry_element.
  - apply (keeps_updateTopSellingProducts same_registry), same_registry_element.
  - apply (keeps_createChannelLegends same_registry), same_registry_element.
  - apply (keeps_fetchData same_registry), same_registry_log.
Qed.

(** X3.  The two charts are independent.  In a world whose chart
    variables are in order, [updateRevenueTrendChart] leaves the live
    instance of the channel canvas and the channel variable as they were,
    and [updateSalesByChannelChart] those of the trend canvas, whatever
    the data and also when the call throws; both leave the chart
    variables in order. *)
Theorem chart_updaters_are_independent (data : value) (w : World) :
  tidy w →
  (same_chart SalesByChannelCanvas w (after (updateRevenueTrendChart data) w) ∧
   tidy (after (updateRevenueTrendChart data) w)) ∧
  (same_chart RevenueTrendCanvas w (after (updateSalesByChannelChart data) w) ∧
   tidy (after (updateSalesByChannelChart data) w)).
Proof.
  intros T. split.
  - assert (D : SalesByChannelCanvas ≠ RevenueTrendCanvas) by done.
    destruct (keeps_updateRevenueTrendChart (beside SalesByChannelCanvas) data
                (beside_chart _ _ D) w T) as [T' S]. done.
  - assert (D : RevenueTrendCanvas ≠ SalesByChannelCanvas) by done.
    destruct (keeps_updateSalesByChannelChart (beside RevenueTrendCanvas) data
                (beside_chart _ _ D) (beside_element _ _) w T) as [T' S]. done.
Qed.

Lemma loadDashboardData_carries_tidy : keeps (carries tidy) loadDashboardData.
Proof.
  apply (keeps_loadDashboardData (carries tidy));
    [apply carries_tidy_log|intros f; apply carries_tidy_element
    |apply carries_tidy_element..|apply carries_tidy_chart|apply carries_tidy_chart].
Qed.

(** X4.  A run of [loadDashboardData] keeps the chart variables in order
    from any world, complete page or not and whether it returns or throws;
    so after it each canvas carries at most one live instance. *)
Theorem loadDashboardData_keeps_charts_in_order (w : World) :
  tidy w →
  tidy (after loadDashboardData w) ∧
  ∀ c, length (live_on c (after loadDashboardData w)) ≤ 1.
Proof.
  intros T. pose proof (loadDashboardData_carries_tidy w T) as T'.
  split; [done|]. intros c. apply owned_at_most_one, T'.
Qed.


End Frames.

(** * Failures: how far a call gets before it throws *)

Section Failures.
Context `{Host}.

Lemma bind_throws {A B} (m : M A) (k : A → M B) w e w' :
  m w = Throws e w' → (m ≫= k) w = Throws e w'.
Proof. intros E. unfold mbind, M_bind. by rewrite E. Qed.

Lemma set_textContent_missing id v w :
  document w !! id = None → set_textContent id v w = Throws TypeError_nullish w.
Proof. intros E. unfold set_textContent. by rewrite E. Qed.

Lemma set_innerHTML_missing id html w :
  document w !! id = None → set_innerHTML id html w = Throws TypeError_nullish w.
Proof. intros E. unfold set_innerHTML, set_children. by rewrite E. Qed.

Lemma metric_target_ne f g c w :
  f ≠ g → document w !! metric_target f = None →
  document (with_document (insert (metric_target g) c) w) !! metric_target f = None.
Proof.
  intros N E. simpl. rewrite lookup_insert_ne; [done|].
  intros E'. by apply metric_target_inj in E'.
Qed.

(** *** The metrics updater on a page that lacks a target *)

Lemma updateMetrics_partial data s f w :
  truthy data = true →
  (∀ g, g ∈ written_before f →
        present (metric_target g) w ∧ metric_text data g = Normal (s g)) →
  document w !! metric_target f = None →
  updateMetrics data w = Throws TypeError_nullish (write_metrics s (written_before f) w).
Proof.
  intros T Hb Hm. unfold updateMetrics. rewrite T.
  assert (step : ∀ g, g ∈ written_before f → ∀ v w',
             get data (metric_prop g) = Normal v → present (metric_target g) w' →
             set_textContent (metric_target g) (or_else v (VStr (metric_default g))) w'
             = Returns tt (with_document (insert (metric_target g) (text_content (s g))) w')).
  { intros g I v w' Ev P. destruct (Hb g I) as [_ S]. unfold metric_text in S.
    rewrite Ev in S. by apply set_textContent_returns. }
  assert (P : ∀ g, g ∈ written_before f → present (metric_target g) w)
    by (intros g I; apply (Hb g I)).
  destruct (get_truthy data totalRevenue T) as [v1 E1].
  destruct (get_truthy data conversionRate T) as [v2 E2].
  destruct (get_truthy data averageBasket T) as [v3 E3].
  destruct (get_truthy data totalOrders T) as [v4 E4].
  erewrite bind_returns; [|unfold lift; rewrite E1; reflexivity].
  destruct f; unfold written_before, write_metrics in *; cbn [foldl].
  - by apply bind_throws, set_textContent_missing.
  - erewrite bind_returns;
      [|apply (step TotalRevenue); [repeat constructor|exact E1|apply P; repeat constructor]].
    erewrite bind_returns; [|unfold lift; rewrite E2; reflexivity].
    apply bind_throws, set_textContent_missing.
    by apply (metric_target_ne ConversionRate TotalRevenue).
  - erewrite bind_returns;
      [|apply (step TotalRevenue); [repeat constructor|exact E1|apply P; repeat constructor]].
    erewrite bind_returns; [|unfold lift; rewrite E2; reflexivity].
    erewrite bind_returns;
      [|apply (step ConversionRate);
        [repeat constructor|exact E2|apply present_insert, P; repeat constructor]].
    erewrite bind_returns; [|unfold lift; rewrite E3; reflexivity].
    apply bind_throws, set_textContent_missing.
    apply (metric_target_ne AverageBasket ConversionRate); [done|].
    by apply (metric_target_ne AverageBasket TotalRevenue).
  - erewrite bind_returns;
      [|apply (step TotalRevenue); [repeat constructor|exact E1|apply P; repeat constructor]].
    erewrite bind_returns; [|unfold lift; rewrite E2; reflexivity].
    erewrite bind_returns;
      [|apply (step ConversionRate);
        [repeat constructor|exact E2|apply present_insert, P; repeat constructor]].
    erewrite bind_returns; [|unfold lift; rewrite E3; reflexivity].
    erewrite bind_returns;
      [|apply (step AverageBasket);
        [repeat constructor|exact E3|do 2 apply present_insert; apply P; repeat constructor]].
    erewrite bind_returns; [|unfold lift; rewrite E4; reflexivity].
    apply set_textContent_missing.
    apply (metric_target_ne TotalOrders AverageBasket); [done|].
    apply (metric_target_ne TotalOrders ConversionRate); [done|].
    by apply (metric_target_ne TotalOrders TotalRevenue).
Qed.

Lemma write_metrics_lookup s fs f w :
  document (write_metrics s fs w) !! metric_target f
  = if decide (f ∈ fs) then Some (text_content (s f)) else document w !! metric_target f.
Proof.
  unfold write_metrics. revert w. induction fs as [|g fs IH]; intros w; cbn [foldl].
  - rewrite decide_False; [done|apply not_elem_of_nil].
  - rewrite IH. destruct (decide (f ∈ fs)) as [I|I].
    + rewrite decide_True; [done|by right].
    + cbn [document with_document]. destruct (decide (g = f)) as [->|N].
      * rewrite lookup_insert_eq, decide_True; [done|by left].
      * rewrite lookup_insert_ne by (intros E; by apply metric_target_inj in E).
        rewrite decide_False; [done|]. rewrite elem_of_cons. by intros [->|].
Qed.

Lemma write_metrics_other s fs id w :
  (∀ g, g ∈ fs → id ≠ metric_target g) →
  document (write_metrics s fs w) !! id = document w !! id.
Proof.
  unfold write_metrics. revert w. induction fs as [|g fs IH]; intros w N; [done|].
  simpl. rewrite IH by (intros k I; apply N; by right).
  simpl. apply lookup_insert_ne. intros E. symmetry in E. revert E. apply N. by left.
Qed.

(** X5.  [updateMetrics] writes its targets in order and stops at the
    first one the page lacks: with a truthy argument it throws a
    TypeError there, the targets before it already show their new texts,
    and nothing else on the page has changed, so the targets after it
    keep what they showed. *)
Theorem updateMetrics_stops_at_missing_target
    (data : value) (s : metric → jsstring) (f : metric) (w : World) :
  truthy data = true →
  (∀ g, g ∈ written_before f →
        present (metric_target g) w ∧ metric_text data g = Normal (s g)) →
  document w !! metric_target f = None →
  ∃ w', updateMetrics data w = Throws TypeError_nullish w' ∧
        (∀ g, g ∈ written_before f →
              document w' !! metric_target g = Some (text_content (s g))) ∧
        (∀ id, (∀ g, g ∈ written_before f → id ≠ metric_target g) →
               document w' !! id = document w !! id).
Proof.
  intros T Hb Hm. eexists. split; [by apply updateMetrics_partial|]. split.
  - intros g I. by rewrite write_metrics_lookup, decide_True.
  - intros id N. by apply write_metrics_other.
Qed.

(** *** The channel updater on a page that lacks the legend *)

Lemma createChannelLegends_missing l colors w :
  document w !! js "channelLegends" = None →
  createChannelLegends l colors w = Throws TypeError_nullish w.
Proof.
  intros E. unfold createChannelLegends.
  erewrite bind_throws; [reflexivity|by apply set_innerHTML_missing].
Qed.

(** X6.  On a page without the legend container the channel updater
    throws a TypeError for every channel mix, but only after it has
    replaced the chart: the canvas then carries the new instance, drawn
    from the mix, and no other, and no element has changed. *)
Theorem channel_chart_drawn_before_legend_fails (mix : ChannelMix) (w : World) :
  owned w →
  document w !! js "channelLegends" = None →
  ∃ w' c,
    updateSalesByChannelChart (channel_value mix) w = Throws TypeError_nullish w' ∧
    chart_config <$> live_on SalesByChannelCanvas w' = [Doughnut c] ∧
    arc_labels c = VArr (VStr <$> channel_labels mix) ∧
    arc_data c = VArr (VNum <$> channel_values mix) ∧
    document w' = document w.
Proof.
  intros O E.
  eexists _, (salesByChannelConfig (VArr (VStr <$> channel_labels mix))
                (VArr (VNum <$> channel_values mix))
                (take (length (channel_labels mix)) channelColors)).
  split.
  - rewrite (updateSalesByChannelChart_complete _ (VArr (VStr <$> channel_labels mix))
               (VArr (VNum <$> channel_values mix))
               (Exactly (length (channel_labels mix))));
      [|reflexivity|reflexivity|reflexivity|simpl; by rewrite length_fmap].
    simpl slice_to. cbv iota.
    apply createChannelLegends_missing. by rewrite document_redrawn.
  - split; [by rewrite live_on_redrawn|].
    split; [reflexivity|]. split; [reflexivity|apply document_redrawn].
Qed.

(** *** A malformed product in the middle of the list *)

Lemma for_each_app {A} (f : A → nat → M unit) l1 l2 i w :
  for_each f (l1 ++ l2) i w
  = match for_each f l1 i w with
    | Returns _ w' => for_each f l2 (i + length l1) w'
    | Throws e w' => Throws e w'
    end.
Proof.
  revert i w. induction l1 as [|a l1 IH]; intros i w; simpl.
  - by rewrite Nat.add_0_r.
  - unfold mbind, M_bind. destruct (f a i w) as [[] w1|e w1]; [|done].
    rewrite IH. by replace (S i + length l1) with (i + S (length l1)) by lia.
Qed.

Lemma updateTopSellingProducts_partial ps bad rest e w :
  present (js "topSellingProducts") w →
  renderProduct bad = Abrupt e →
  updateTopSellingProducts (VArr ((product_value <$> ps) ++ bad :: rest)) w
  = Throws e (with_document (insert (js "topSellingProducts") (summaryCard <$> ps)) w).
Proof.
  intros P E. unfold updateTopSellingProducts.
  erewrite bind_returns; [|by apply set_innerHTML_returns].
  erewrite bind_returns with (a := true);
    [|unfold lift; cbn [truthy get_length positive_length mbind completion_bind cbind];
      rewrite length_app, bool_decide_true; [reflexivity|simpl; lia]].
  cbn [call_forEach]. rewrite for_each_app.
  erewrite (for_each_appends _ product_value (fun _ q => summaryCard q));
    [|intros b i w' c Ec; unfold lift; rewrite renderProduct_summary;
      erewrite bind_returns; [|reflexivity]; by apply appendChild_returns
     |apply document_with_document_insert].
  rewrite with_document_insert_twice.
  change (imap (fun (_ : nat) q => summaryCard q) ps) with (imap (const summaryCard) ps).
  rewrite imap_const. change (inner_html []) with (@nil node). rewrite app_nil_l.
  cbn [for_each]. erewrite bind_throws; [reflexivity|].
  erewrite bind_throws; [reflexivity|]. unfold lift. by rewrite E.
Qed.

(** X7.  A product that cannot be rendered stops the loop where it
    stands: [updateTopSellingProducts] throws the product's exception,
    and the grid is left holding the cards of the products before it, in
    order, and nothing else: neither the "not found" row, nor a card for
    any product after it. *)
Theorem products_rendered_until_malformed
    (ps : list ProductSummary) (bad : value) (rest : list value) (e : error) (w : World) :
  present (js "topSellingProducts") w →
  renderProduct bad = Abrupt e →
  ∃ w', updateTopSellingProducts (VArr ((product_value <$> ps) ++ bad :: rest)) w
        = Throws e w' ∧
        document w' !! js "topSellingProducts" = Some (summaryCard <$> ps).
Proof.
  intros P E. eexists. split; [by apply updateTopSellingProducts_partial|].
  apply document_with_document_insert.
Qed.

End Failures.

(** * The orchestrator and the listener *)

Section Loading.
Context `{Host}.

Lemma mock_trend_fields :
  has_series (mock_payload RevenueTrend) = Normal true ∧
  get (mock_payload RevenueTrend) labels = Normal mock_trend_axis ∧
  get (mock_payload RevenueTrend) values = Normal mock_trend_series.
Proof. repeat split; vm_compute; reflexivity. Qed.

(** The first three rounds, on a page with the metric targets and the
    legend: what is left to run is the fourth update. *)
Lemma loadDashboardData_three_rounds w :
  (∀ f, present (metric_target f) w) →
  present (js "channelLegends") w →
  loadDashboardData w
  = (updateTopSellingProducts (mock_payload TopSellingProducts)
       ≫= fun _ => mark (Updated TopSellingProducts))
      (fetched TopSellingProducts (three_rounds w)).
Proof.
  intros Pm Pl. unfold loadDashboardData.
  erewrite bind_returns; [|apply fetch_awaited].
  erewrite bind_returns;
    [|apply (updateMetrics_run _ mock_metric);
      [reflexivity|intros f; apply present_fetched, Pm|apply metric_text_mock]].
  erewrite bind_returns; [|reflexivity].
  erewrite bind_returns; [|apply fetch_awaited].
  destruct mock_trend_fields as (E & El & Ev).
  erewrite bind_returns;
    [|by apply (updateRevenueTrendChart_complete _ mock_trend_axis mock_trend_series)].
  erewrite bind_returns; [|reflexivity].
  erewrite bind_returns; [|apply fetch_awaited].
  rewrite mock_channel_mix. change (truthy (channel_value mock_mix)) with true. cbv iota.
  erewrite bind_returns;
    [|erewrite bind_returns;
      [reflexivity
      |apply updateSalesByChannelChart_mix;
       apply present_fetched, present_journal, present_redrawn, present_fetched,
         present_journal, present_metrics_written, present_fetched, Pl]].
  erewrite bind_returns; [|apply fetch_awaited].
  reflexivity.
Qed.

Lemma present_three_rounds id w : present id w → present id (three_rounds w).
Proof.
  intros P. unfold three_rounds.
  by apply present_journal, present_insert, present_redrawn, present_fetched,
    present_journal, present_redrawn, present_fetched, present_journal,
    present_metrics_written, present_fetched.
Qed.

Lemma loadDashboardData_run w :
  complete_page w → loadDashboardData w = Returns tt (loaded w).
Proof.
  intros (Pm & Pl & Pp). rewrite loadDashboardData_three_rounds by done.
  rewrite mock_product_summaries.
  erewrite bind_returns;
    [|apply updateTopSellingProducts_summaries; by apply present_fetched, present_three_rounds].
  reflexivity.
Qed.

Ltac through field :=
  cbn [field with_journal with_document with_clock with_console redrawn with_handle
       with_charts with_chart_seq with_revenueTrendChart with_salesByChannelChart
       fetched metrics_written].

Lemma same_registry_fetched r w : same_registry w (fetched r w).
Proof. by repeat split. Qed.

Lemma document_fetched r w : document (fetched r w) = document w.
Proof. reflexivity. Qed.

Lemma journal_fetched r w :
  journal (fetched r w)
  = journal w ++ [Requested (VStr (API_ENDPOINTS r)); Settled (mock_payload r)].
Proof. unfold fetched. through journal. by rewrite <- app_assoc. Qed.

(** The charts after three rounds: one on each canvas, the trend chart
    drawn first. *)
Lemma registry_three_rounds w :
  tidy w →
  tidy (three_rounds w) ∧
  live_on RevenueTrendCanvas (three_rounds w)
  = [{| chart_id := chart_seq w; chart_canvas := RevenueTrendCanvas;
        chart_config := mock_line |}] ∧
  live_on SalesByChannelCanvas (three_rounds w)
  = [{| chart_id := S (chart_seq w); chart_canvas := SalesByChannelCanvas;
        chart_config := mock_doughnut |}].
Proof.
  intros T. unfold three_rounds.
  set (W1 := fetched RevenueTrend _).
  set (W2 := redrawn RevenueTrendCanvas mock_line W1).
  set (W3 := fetched SalesByChannel _).
  set (W4 := redrawn SalesByChannelCanvas mock_doughnut W3).
  assert (S1 : same_registry w W1) by (by repeat split).
  assert (T1 : tidy W1) by (by apply (tidy_same_registry w)).
  assert (T2 : tidy W2) by (by apply tidy_redrawn).
  assert (S3 : same_registry W2 W3) by (by repeat split).
  assert (T3 : tidy W3) by (by apply (tidy_same_registry W2)).
  assert (T4 : tidy W4) by (by apply tidy_redrawn).
  assert (S5 : same_registry W4
                 (with_journal (fun j => j ++ [Updated SalesByChannel])
                    (with_document
                       (insert (js "channelLegends")
                          (legendRows (take (length (channel_labels mock_mix)) channelColors)
                             (channel_labels mock_mix))) W4)))
    by (by repeat split).
  split; [by apply (tidy_same_registry W4)|].
  rewrite !(live_on_same_registry _ _ _ S5). split.
  - unfold W4. rewrite live_on_redrawn_other by done.
    rewrite (live_on_same_registry _ _ _ S3). unfold W2.
    rewrite live_on_redrawn by apply T1. unfold fresh_chart.
    destruct S1 as (_ & -> & _). reflexivity.
  - unfold W4. rewrite live_on_redrawn by apply T3. unfold fresh_chart.
    destruct S3 as (_ & -> & _). unfold W2. rewrite chart_seq_redrawn.
    destruct S1 as (_ & -> & _). reflexivity.
Qed.

Lemma chart_seq_three_rounds w : chart_seq (three_rounds w) = S (S (chart_seq w)).
Proof. reflexivity. Qed.

Lemma journal_three_rounds w :
  journal (three_rounds w)
  = journal w ++ round Metrics ++ round RevenueTrend ++ round SalesByChannel.
Proof.
  unfold three_rounds. through journal. unfold round. rewrite <- !app_assoc. reflexivity.
Qed.

Lemma document_three_rounds w :
  document (three_rounds w)
  = <[js "channelLegends" :=
        legendRows (take (length (channel_labels mock_mix)) channelColors)
          (channel_labels mock_mix)]>
      (document (metrics_written mock_metric w)).
Proof. reflexivity. Qed.

Lemma document_three_rounds_metric w f :
  document (three_rounds w) !! metric_target f = Some (text_content (mock_metric f)).
Proof.
  rewrite document_three_rounds.
  rewrite lookup_insert_ne by (destruct f; differ).
  apply metrics_written_target.
Qed.

(** *** A load that fails *)

(** X8.  [loadDashboardData] stops at the first update that throws.  On
    a page that lacks a metric target the load throws the TypeError of
    [updateMetrics]: the metrics were requested and awaited, the targets
    before the missing one show the mock texts, and nothing else has
    happened: no second request, no update recorded, no chart drawn. *)
Theorem loadDashboardData_stops_without_metric_target (f : metric) (w : World) :
  (∀ g, g ∈ written_before f → present (metric_target g) w) →
  document w !! metric_target f = None →
  ∃ w', loadDashboardData w = Throws TypeError_nullish w' ∧
        journal w' = journal w ++ [Requested (VStr (API_ENDPOINTS Metrics));
                                   Settled (mock_payload Metrics)] ∧
        same_registry w w' ∧
        (∀ g, g ∈ written_before f →
              document w' !! metric_target g = Some (text_content (mock_metric g))) ∧
        clock w' = clock w + 500.
Proof.
  intros P E. eexists. split; [|split; [|split; [|split]]].
  - unfold loadDashboardData.
    erewrite bind_returns; [|apply fetch_awaited].
    apply bind_throws.
    apply (updateMetrics_partial _ mock_metric f); [reflexivity| |exact E].
    intros g I. split; [by apply present_fetched, P|apply metric_text_mock].
  - unfold write_metrics. destruct f; cbn [written_before foldl]; through journal;
      rewrite <- !app_assoc; reflexivity.
  - unfold write_metrics. destruct f; cbn [written_before foldl]; by repeat split.
  - intros g I. by rewrite write_metrics_lookup, decide_True.
  - unfold write_metrics. destruct f; cbn [written_before foldl]; reflexivity.
Qed.

(** X9.  On a page that has everything but the product grid the load
    runs three full rounds and fails in the fourth update: the products
    were requested and awaited, but no update of them is recorded; the
    metrics show the mock texts and, from a world whose chart variables
    are in order, each canvas carries exactly one chart. *)
Theorem loadDashboardData_fails_last_without_grid (w : World) :
  tidy w →
  (∀ f, present (metric_target f) w) →
  present (js "channelLegends") w →
  document w !! js "topSellingProducts" = None →
  ∃ w', loadDashboardData w = Throws TypeError_nullish w' ∧
        journal w' = journal w ++ round Metrics ++ round RevenueTrend
                               ++ round SalesByChannel
                               ++ [Requested (VStr (API_ENDPOINTS TopSellingProducts));
                                   Settled (mock_payload TopSellingProducts)] ∧
        (∀ f, document w' !! metric_target f = Some (text_content (mock_metric f))) ∧
        (∀ c, length (live_on c w') = 1).
Proof.
  intros T Pm Pl E. exists (fetched TopSellingProducts (three_rounds w)).
  split; [|split; [|split]].
  - rewrite loadDashboardData_three_rounds by done.
    apply bind_throws. unfold updateTopSellingProducts.
    apply bind_throws, set_innerHTML_missing.
    rewrite document_fetched, document_three_rounds, lookup_insert_ne by differ.
    rewrite metrics_written_other; [exact E|]. intros f. destruct f; differ.
  - rewrite journal_fetched, journal_three_rounds, <- !app_assoc. reflexivity.
  - intros f. rewrite document_fetched. apply document_three_rounds_metric.
  - intros c.
    rewrite (live_on_same_registry c (three_rounds w)) by apply same_registry_fetched.
    destruct (registry_three_rounds w T) as (_ & Lt & Lc).
    destruct c; [by rewrite Lt|by rewrite Lc].
Qed.

(** *** A second load *)

Lemma present_loaded id w : present id w → present id (loaded w).
Proof.
  intros P. by apply present_journal, present_insert, present_fetched, present_three_rounds.
Qed.

Lemma same_registry_written f g r w :
  same_registry w (with_journal f (with_document g (fetched r w))).
Proof. by repeat split. Qed.

Lemma same_registry_loaded w : same_registry (three_rounds w) (loaded w).
Proof. unfold loaded. apply same_registry_written. Qed.

Lemma chart_seq_loaded w : chart_seq (loaded w) = S (S (chart_seq w)).
Proof.
  destruct (same_registry_loaded w) as (_ & -> & _). apply chart_seq_three_rounds.
Qed.

Lemma document_loaded w :
  document (loaded w)
  = <[js "topSellingProducts" := productGrid mock_products]>
      (<[js "channelLegends" :=
           legendRows (take (length (channel_labels mock_mix)) channelColors)
             (channel_labels mock_mix)]>
         (document (metrics_written mock_metric w))).
Proof.
  unfold loaded. cbn [document with_journal with_document].
  by rewrite document_fetched, document_three_rounds.
Qed.

Lemma document_loaded_twice w : document (loaded (loaded w)) = document (loaded w).
Proof.
  rewrite (document_loaded (loaded w)). unfold metrics_written at 1.
  cbn [document with_document]. rewrite !(document_loaded w).
  unfold metrics_written. cbn [document with_document].
  apply map_eq. intros id. rewrite !lookup_insert.
  repeat case_decide; reflexivity.
Qed.

(** X10.  Loading twice, as the periodic refresh of the script would:
    from a world whose chart variables are in order and on a complete
    page, both loads return; the second leaves every element with the
    content the first gave it, and replaces the chart of each canvas by
    a new instance with the same configuration, so that each canvas
    still carries exactly one chart. *)
Theorem loadDashboardData_refresh_redraws_the_same (w : World) :
  tidy w → complete_page w →
  ∃ w1 w2,
    loadDashboardData w = Returns tt w1 ∧ loadDashboardData w1 = Returns tt w2 ∧
    document w2 = document w1 ∧
    (∀ c, ∃ ch1 ch2, live_on c w1 = [ch1] ∧ live_on c w2 = [ch2] ∧
                     chart_config ch2 = chart_config ch1 ∧ chart_id ch1 < chart_id ch2) ∧
    clock w2 = clock w + 4000.
Proof.
  intros T C. exists (loaded w), (loaded (loaded w)).
  assert (C1 : complete_page (loaded w)).
  { destruct C as (Pm & Pl & Pp).
    split; [intros f|split]; by apply present_loaded. }
  destruct (registry_three_rounds w T) as (T3 & Lt & Lc).
  assert (T1 : tidy (loaded w))
    by (apply (tidy_same_registry (three_rounds w)); [apply same_registry_loaded|done]).
  destruct (registry_three_rounds (loaded w) T1) as (_ & Lt' & Lc').
  split; [by apply loadDashboardData_run|].
  split; [by apply loadDashboardData_run|].
  split; [apply document_loaded_twice|]. split.
  - intros c.
    rewrite !(live_on_same_registry c _ _ (same_registry_loaded _)).
    destruct c; [rewrite Lt, Lt'|rewrite Lc, Lc']; eexists _, _;
      (split; [reflexivity|split; [reflexivity|split; [reflexivity|]]]);
      cbn [chart_id]; rewrite chart_seq_loaded; lia.
  - unfold loaded, three_rounds. through clock. lia.
Qed.

(** *** What a load shows *)

(** X17.  What a load shows in the end.  On a complete page, from a
    world whose chart variables are in order, [loadDashboardData]
    returns with the four metric targets showing the texts of the mock
    metrics, the legend holding one row per mock channel in the colours
    of the palette, the grid holding the cards of the six mock products,
    and each canvas carrying exactly one chart: the line chart of the
    mock trend, and the doughnut chart of the mock channel mix. *)
Theorem loadDashboardData_shows_mock_data (w : World) :
  tidy w → complete_page w →
  ∃ w', loadDashboardData w = Returns tt w' ∧
        (∀ f, document w' !! metric_target f = Some (text_content (mock_metric f))) ∧
        document w' !! js "channelLegends"
        = Some (legendRows (take (length (channel_labels mock_mix)) channelColors)
                  (channel_labels mock_mix)) ∧
        document w' !! js "topSellingProducts" = Some (summaryCard <$> mock_products) ∧
        chart_config <$> live_on RevenueTrendCanvas w' = [mock_line] ∧
        chart_config <$> live_on SalesByChannelCanvas w' = [mock_doughnut].
Proof.
  intros T C. exists (loaded w). split; [by apply loadDashboardData_run|].
  destruct (registry_three_rounds w T) as (_ & Lt & Lc).
  split; [|split; [|split; [|split]]].
  - intros f. rewrite document_loaded.
    rewrite !lookup_insert_ne by (destruct f; differ).
    apply metrics_written_target.
  - rewrite document_loaded, lookup_insert_ne by differ. apply lookup_insert_eq.
  - rewrite document_loaded. apply lookup_insert_eq.
  - by rewrite (live_on_same_registry _ _ _ (same_registry_loaded w)), Lt.
  - by rewrite (live_on_same_registry _ _ _ (same_registry_loaded w)), Lc.
Qed.

(** *** The sequence of a load *)

Lemma console_fetched r w : console (fetched r w) = console w ++ [request_log r].
Proof. reflexivity. Qed.

Lemma console_redrawn c config w : console (redrawn c config w) = console w.
Proof. by destruct c. Qed.

Lemma console_write_metrics s fs w : console (write_metrics s fs w) = console w.
Proof.
  unfold write_metrics. revert w. induction fs as [|g fs IH]; intros w; [done|].
  cbn [foldl]. rewrite IH. reflexivity.
Qed.

Lemma console_with_journal f w : console (with_journal f w) = console w.
Proof. reflexivity. Qed.

Lemma console_with_document g w : console (with_document g w) = console w.
Proof. reflexivity. Qed.

Lemma console_metrics_written s w : console (metrics_written s w) = console w.
Proof. reflexivity. Qed.

Lemma console_two_rounds w :
  console (two_rounds w)
  = console w ++ [request_log Metrics; request_log RevenueTrend; request_log SalesByChannel].
Proof.
  unfold two_rounds.
  rewrite console_fetched, console_with_journal, console_redrawn, console_fetched,
    console_with_journal, console_metrics_written, console_fetched, <- !app_assoc.
  reflexivity.
Qed.

Lemma document_with_journal f w : document (with_journal f w) = document w.
Proof. reflexivity. Qed.

Lemma document_metrics_written_fetched s r w :
  document (metrics_written s (fetched r w)) = document (metrics_written s w).
Proof. reflexivity. Qed.

Lemma document_two_rounds w :
  document (two_rounds w) = document (metrics_written mock_metric w).
Proof.
  unfold two_rounds.
  by rewrite document_fetched, document_with_journal, document_redrawn, document_fetched,
    document_with_journal, document_metrics_written_fetched.
Qed.

Lemma three_rounds_two_rounds w :
  three_rounds w
  = with_journal (fun j => j ++ [Updated SalesByChannel])
      (with_document
         (insert (js "channelLegends")
            (legendRows (take (length (channel_labels mock_mix)) channelColors)
               (channel_labels mock_mix)))
         (redrawn SalesByChannelCanvas mock_doughnut (two_rounds w))).
Proof. reflexivity. Qed.

Lemma console_three_rounds w :
  console (three_rounds w)
  = console w ++ [request_log Metrics; request_log RevenueTrend; request_log SalesByChannel].
Proof.
  rewrite three_rounds_two_rounds.
  by rewrite console_with_journal, console_with_document, console_redrawn,
    console_two_rounds.
Qed.

Lemma console_loaded w : console (loaded w) = console w ++ (request_log <$> load_order).
Proof.
  unfold loaded.
  rewrite console_with_journal, console_with_document, console_fetched,
    console_three_rounds, <- app_assoc.
  reflexivity.
Qed.

Lemma journal_with_journal f w : journal (with_journal f w) = f (journal w).
Proof. reflexivity. Qed.

Lemma journal_with_document g w : journal (with_document g w) = journal w.
Proof. reflexivity. Qed.

Lemma journal_loaded w :
  journal (loaded w)
  = journal w ++ round Metrics ++ round RevenueTrend
              ++ round SalesByChannel ++ round TopSellingProducts.
Proof.
  unfold loaded.
  rewrite journal_with_journal, journal_with_document, journal_fetched,
    journal_three_rounds.
  unfold round. rewrite <- !app_assoc. reflexivity.
Qed.

Lemma clock_loaded w : clock (loaded w) = clock w + 2000.
Proof. unfold loaded, three_rounds. through clock. lia. Qed.

(** The charts when the third update starts: the trend chart alone on
    its canvas. *)
Lemma registry_two_rounds w :
  tidy w →
  tidy (two_rounds w) ∧
  chart_config <$> live_on RevenueTrendCanvas (two_rounds w) = [mock_line].
Proof.
  intros T. unfold two_rounds.
  set (W1 := fetched RevenueTrend _).
  set (W2 := redrawn RevenueTrendCanvas mock_line W1).
  assert (S1 : same_registry w W1) by (by repeat split).
  assert (T1 : tidy W1) by (by apply (tidy_same_registry w)).
  assert (T2 : tidy W2) by (by apply tidy_redrawn).
  assert (S3 : same_registry W2
                 (fetched SalesByChannel
                    (with_journal (fun j => j ++ [Updated RevenueTrend]) W2)))
    by (by repeat split).
  split; [by apply (tidy_same_registry W2)|].
  rewrite (live_on_same_registry _ _ _ S3). unfold W2.
  by rewrite live_on_redrawn by apply T1.
Qed.

Lemma updateSalesByChannelChart_without_legend (mix : ChannelMix) w :
  document w !! js "channelLegends" = None →
  updateSalesByChannelChart (channel_value mix) w
  = Throws TypeError_nullish
      (redrawn SalesByChannelCanvas
         (Doughnut
            (salesByChannelConfig (VArr (VStr <$> channel_labels mix))
               (VArr (VNum <$> channel_values mix))
               (take (length (channel_labels mix)) channelColors))) w).
Proof.
  intros E.
  rewrite (updateSalesByChannelChart_complete _ (VArr (VStr <$> channel_labels mix))
             (VArr (VNum <$> channel_values mix))
             (Exactly (length (channel_labels mix))));
    [|reflexivity|reflexivity|reflexivity|simpl; by rewrite length_fmap].
  simpl slice_to. cbv iota.
  apply createChannelLegends_missing. by rewrite document_redrawn.
Qed.

(** The load on a page that lacks a metric target, and on one that has
    them and lacks the legend. *)
Lemma loadDashboardData_without_target f w :
  (∀ g, g ∈ written_before f → present (metric_target g) w) →
  document w !! metric_target f = None →
  loadDashboardData w
  = Throws TypeError_nullish (write_metrics mock_metric (written_before f) (fetched Metrics w)).
Proof.
  intros P E. unfold loadDashboardData.
  erewrite bind_returns; [|apply fetch_awaited].
  apply bind_throws.
  apply (updateMetrics_partial _ mock_metric f); [reflexivity| |exact E].
  intros g I. split; [by apply present_fetched, P|apply metric_text_mock].
Qed.

Lemma loadDashboardData_without_legend w :
  (∀ f, present (metric_target f) w) →
  document w !! js "channelLegends" = None →
  loadDashboardData w
  = Throws TypeError_nullish (redrawn SalesByChannelCanvas mock_doughnut (two_rounds w)).
Proof.
  intros Pm E. unfold loadDashboardData.
  erewrite bind_returns; [|apply fetch_awaited].
  erewrite bind_returns;
    [|apply (updateMetrics_run _ mock_metric);
      [reflexivity|intros f; apply present_fetched, Pm|apply metric_text_mock]].
  erewrite bind_returns; [|reflexivity].
  erewrite bind_returns; [|apply fetch_awaited].
  destruct mock_trend_fields as (Es & El & Ev).
  erewrite bind_returns;
    [|by apply (updateRevenueTrendChart_complete _ mock_trend_axis mock_trend_series)].
  erewrite bind_returns; [|reflexivity].
  erewrite bind_returns; [|apply fetch_awaited].
  rewrite mock_channel_mix. change (truthy (channel_value mock_mix)) with true. cbv iota.
  apply bind_throws, bind_throws.
  apply updateSalesByChannelChart_without_legend.
  fold (two_rounds w). rewrite document_two_rounds.
  rewrite metrics_written_other; [exact E|]. intros f. destruct f; differ.
Qed.

(** Either the page has the four metric targets, or there is a first one
    it lacks. *)
Lemma first_missing_target w :
  (∀ f, present (metric_target f) w) ∨
  ∃ f, document w !! metric_target f = None ∧
       ∀ g, g ∈ written_before f → present (metric_target g) w.
Proof.
  assert (M : ∀ f, (∀ g, g ∈ written_before f → present (metric_target g) w) →
                   document w !! metric_target f = None →
                   ∃ f', document w !! metric_target f' = None ∧
                         ∀ g, g ∈ written_before f' → present (metric_target g) w)
    by (intros f; by exists f).
  destruct (document w !! metric_target TotalRevenue) as [c1|] eqn:E1;
    [|right; apply (M TotalRevenue); [|done]; intros g I; by apply elem_of_nil in I].
  assert (P1 : present (metric_target TotalRevenue) w) by (by exists c1).
  destruct (document w !! metric_target ConversionRate) as [c2|] eqn:E2.
  2:{ right. apply (M ConversionRate); [|done]. intros g I. cbn [written_before] in I.
      apply list_elem_of_singleton in I as ->. done. }
  assert (P2 : present (metric_target ConversionRate) w) by (by exists c2).
  destruct (document w !! metric_target AverageBasket) as [c3|] eqn:E3.
  2:{ right. apply (M AverageBasket); [|done]. intros g I. cbn [written_before] in I.
      apply elem_of_cons in I as [->|I]; [done|].
      apply list_elem_of_singleton in I as ->. done. }
  assert (P3 : present (metric_target AverageBasket) w) by (by exists c3).
  destruct (document w !! metric_target TotalOrders) as [c4|] eqn:E4.
  2:{ right. apply (M TotalOrders); [|done]. intros g I. cbn [written_before] in I.
      apply elem_of_cons in I as [->|I]; [done|].
      apply elem_of_cons in I as [->|I]; [done|].
      apply list_elem_of_singleton in I as ->. done. }
  left. intros []; [done|done|done|by exists c4].
Qed.

(** What is to see after three rounds, and after four. *)
Lemma shown_three_rounds w r :
  tidy w → r ≠ TopSellingProducts → shown r (fetched TopSellingProducts (three_rounds w)).
Proof.
  intros T N. destruct (registry_three_rounds w T) as (_ & Lt & Lc).
  destruct r; [| | |done]; cbn [shown].
  - intros f. rewrite document_fetched. apply document_three_rounds_metric.
  - by rewrite (live_on_same_registry _ _ _ (same_registry_fetched _ (three_rounds w))), Lt.
  - split.
    + by rewrite (live_on_same_registry _ _ _ (same_registry_fetched _ (three_rounds w))), Lc.
    + rewrite document_fetched, document_three_rounds. apply lookup_insert_eq.
Qed.

Lemma shown_loaded w r : tidy w → shown r (loaded w).
Proof.
  intros T. destruct (registry_three_rounds w T) as (_ & Lt & Lc).
  destruct r; cbn [shown].
  - intros f. rewrite document_loaded.
    rewrite !lookup_insert_ne by (destruct f; differ).
    apply metrics_written_target.
  - by rewrite (live_on_same_registry _ _ _ (same_registry_loaded w)), Lt.
  - split.
    + by rewrite (live_on_same_registry _ _ _ (same_registry_loaded w)), Lc.
    + rewrite document_loaded, lookup_insert_ne by differ. apply lookup_insert_eq.
  - rewrite document_loaded. apply lookup_insert_eq.
Qed.

Lemma shown_without_legend w r :
  tidy w → r ∈ [Metrics; RevenueTrend] →
  shown r (redrawn SalesByChannelCanvas mock_doughnut (two_rounds w)).
Proof.
  intros T I. destruct (registry_two_rounds w T) as (T2 & Lt).
  apply elem_of_cons in I as [->|I]; [|apply list_elem_of_singleton in I as ->]; cbn [shown].
  - intros f. rewrite document_redrawn, document_two_rounds. apply metrics_written_target.
  - by rewrite live_on_redrawn_other.
Qed.

(** C8.  On a complete page, from a world whose chart variables are in
    order, [loadDashboardData] returns, having performed the four
    fetch-then-update pairs in the order metrics, trend, channel mix,
    products, and nothing after them.  The requests are on the console,
    once each and in that order; the four awaits have taken their mock
    delays one after the other (2000 ms); the updates are there to see:
    the mock texts in the metric targets, the trend chart and the channel
    chart each alone on its canvas (two instances constructed, no more),
    the legend rows, the product cards, and no other element changed.  The
    journal of requests, settlements and updates has the four rounds, each
    request after the settlement and the update of the round before.

    That an update is completed before the next request is issued shows
    on every page: whatever the page has or lacks, the console gains the
    first n requests of the sequence, for some n from 1 to 4, and the
    updates of the n - 1 rounds before the last request are there to see;
    a load that does not throw has issued all four and shows the fourth
    update too.  So a request is only ever issued once the update before
    it has gone through. *)
Theorem loadDashboardData_sequence (w : World) :
  tidy w →
  (∀ f, present (metric_target f) w) →
  present (js "channelLegends") w →
  present (js "topSellingProducts") w →
  (∃ w', loadDashboardData w = Returns tt w' ∧
         journal w' = journal w ++ round Metrics ++ round RevenueTrend
                                ++ round SalesByChannel ++ round TopSellingProducts ∧
         clock w' = clock w + 2000 ∧
         console w' = console w ++ (request_log <$> load_order) ∧
         (∀ r, shown r w') ∧
         chart_seq w' = S (S (chart_seq w)) ∧
         (∀ id, (∀ f, id ≠ metric_target f) →
                id ≠ js "channelLegends" → id ≠ js "topSellingProducts" →
                document w' !! id = document w !! id)) ∧
  (∀ u, tidy u →
     ∃ n, 1 ≤ n ∧
          console (after loadDashboardData u)
          = console u ++ (request_log <$> take n load_order) ∧
          (∀ r, r ∈ take (n - 1) load_order → shown r (after loadDashboardData u)) ∧
          (thrown (loadDashboardData u) = None →
           n = 4 ∧ shown TopSellingProducts (after loadDashboardData u))).
Proof.
  intros T Pm Pl Pp. split.
  - exists (loaded w). split; [by apply loadDashboardData_run|].
    split; [apply journal_loaded|]. split; [apply clock_loaded|].
    split; [apply console_loaded|]. split; [intros r; by apply shown_loaded|].
    split; [apply chart_seq_loaded|].
    intros id Nm Nl Np. rewrite document_loaded.
    rewrite !lookup_insert_ne by congruence. by apply metrics_written_other.
  - clear w T Pm Pl Pp. intros u T. unfold after.
    destruct (first_missing_target u) as [Pm|(f & E & P)].
    2:{ exists 1. rewrite (loadDashboardData_without_target f u P E).
        cbn [world_after thrown]. split; [lia|].
        split; [by rewrite console_write_metrics, console_fetched|].
        split; [|discriminate]. intros r I. by apply elem_of_nil in I. }
    destruct (document u !! js "channelLegends") as [cl|] eqn:El.
    2:{ exists 3. rewrite (loadDashboardData_without_legend u Pm El).
        cbn [world_after thrown]. split; [lia|].
        split; [by rewrite console_redrawn, console_two_rounds|].
        split; [|discriminate]. intros r I. by apply shown_without_legend. }
    assert (Pl : present (js "channelLegends") u) by (by exists cl).
    exists 4. destruct (document u !! js "topSellingProducts") as [cp|] eqn:Ep.
    + assert (C : complete_page u) by (split; [done|split; [done|by exists cp]]).
      rewrite (loadDashboardData_run u C). cbn [world_after thrown].
      split; [lia|]. split; [apply console_loaded|].
      split; [intros r _; by apply shown_loaded|].
      intros _. split; [done|by apply shown_loaded].
    + rewrite loadDashboardData_three_rounds by done.
      assert (E : (updateTopSellingProducts (mock_payload TopSellingProducts)
                     ≫= fun _ => mark (Updated TopSellingProducts))
                    (fetched TopSellingProducts (three_rounds u))
                  = Throws TypeError_nullish (fetched TopSellingProducts (three_rounds u))).
      { apply bind_throws. unfold updateTopSellingProducts.
        apply bind_throws, set_innerHTML_missing.
        rewrite document_fetched, document_three_rounds, lookup_insert_ne by differ.
        rewrite metrics_written_other; [exact Ep|]. intros f. destruct f; differ. }
      rewrite E. cbn [world_after thrown].
      split; [lia|]. split.
      { rewrite console_fetched, console_three_rounds, <- app_assoc. reflexivity. }
      split; [|discriminate]. intros r I. apply shown_three_rounds; [done|].
      intros ->. cbn [take load_order] in I.
      repeat (apply elem_of_cons in I as [I|I]; [discriminate I|]).
      by apply elem_of_nil in I.
Qed.

(** *** The listener *)

Lemma tidy_unbound w :
  charts w = [] → tidy (with_salesByChannelChart None (with_revenueTrendChart None w)).
Proof.
  intros E. split; [split|..]; simpl; rewrite ?E.
  - apply NoDup_nil_2.
  - intros ch I. by apply elem_of_nil in I.
  - intros ch I. by apply elem_of_nil in I.
  - by intros [].
  - done.
Qed.

(** X11.  The listener binds both canvases before anything else: on a
    page that lacks either it throws a TypeError and nothing has been
    requested, logged or written.  With both canvases it returns, even
    when the load it starts fails, because the promise of the load is
    not awaited; the world it leaves is the one the load leaves from
    unbound chart variables, and, registered on a page that has no chart
    yet, it leaves the chart variables in order. *)
Theorem listener_binds_canvases_first (w : World) :
  charts w = [] →
  match document w !! js "revenueTrendChart", document w !! js "salesByChannelChart" with
  | Some _, Some _ =>
      onDOMContentLoaded w
      = Returns tt (after loadDashboardData
                      (with_salesByChannelChart None (with_revenueTrendChart None w))) ∧
      tidy (after onDOMContentLoaded w)
  | _, _ => onDOMContentLoaded w = Throws TypeError_nullish w
  end.
Proof.
  intros E. unfold after, onDOMContentLoaded, getContext, mbind, M_bind, modify, detached.
  destruct (document w !! js "revenueTrendChart") as [c1|]; [|done].
  destruct (document w !! js "salesByChannelChart") as [c2|]; [|done].
  split; [reflexivity|]. cbn [world_after].
  by apply loadDashboardData_carries_tidy, tidy_unbound.
Qed.

End Loading.

(** * Edge cases of the inputs *)

Section Edges.
Context `{Host}.

(** *** Products that are not a list *)

Lemma countless_not_positive products :
  countless products = true →
  (if truthy products then lift (cbind (get_length products) positive_length)
   else mret false) = (mret false : M bool).
Proof.
  destruct products as [| |b|x|s|items|props|n a]; simpl; try done.
  - by destruct b.
  - by destruct (negb _).
  - intros E. apply bool_decide_eq_true in E as ->. reflexivity.
  - intros E. apply bool_decide_eq_true in E as ->. reflexivity.
  - intros E. apply bool_decide_eq_true in E. by rewrite E.
  - intros E. apply bool_decide_eq_true in E as ->. reflexivity.
Qed.

(** X12.  Anything that has nothing to list is shown as "not found",
    without an exception: not only [null], [undefined] and the empty
    array, but also a number, a boolean, an object without a [length], the
    empty string.  A non-empty string, in contrast, has a positive length
    and no [forEach]: the updater throws, leaving the grid empty. *)
Theorem products_without_items_show_not_found (products : value) (w : World) :
  present (js "topSellingProducts") w →
  (countless products = true →
   ∃ w', updateTopSellingProducts products w = Returns tt w' ∧
         document w' !! js "topSellingProducts" = Some [Markup notFoundRow]) ∧
  (∀ c s, ∃ w', updateTopSellingProducts (VStr (c :: s)) w
                = Throws TypeError_not_callable w' ∧
                document w' !! js "topSellingProducts" = Some []).
Proof.
  intros P. split.
  - intros C. eexists. split; [|apply document_with_document_insert].
    unfold updateTopSellingProducts.
    erewrite bind_returns; [|by apply set_innerHTML_returns].
    rewrite (countless_not_positive products C).
    erewrite bind_returns with (a := false); [|reflexivity].
    rewrite set_innerHTML_returns by (apply present_insert, P).
    by rewrite inner_html_notFoundRow, with_document_insert_twice.
  - intros c s. eexists. split; [|apply document_with_document_insert].
    unfold updateTopSellingProducts.
    erewrite bind_returns; [|by apply set_innerHTML_returns].
    reflexivity.
Qed.

(** *** Products with missing fields *)

Lemma scalar_ToString v : scalar v = true → ∃ s, ToString v = Normal s.
Proof. destruct v as [| |[]| | | | |]; try discriminate; intros _; simpl; eauto. Qed.

Lemma scalar_toLocaleString locale v :
  scalar v = true →
  if nullish v then toLocaleString locale v = Abrupt TypeError_nullish
  else ∃ s, toLocaleString locale v = Normal s.
Proof. destruct v as [| |[]| | | | |]; try discriminate; intros _; simpl; eauto. Qed.

Lemma scalar_call_charAt v i :
  scalar v = true →
  if is_string v then ∃ s, call_charAt v i = Normal s
  else ∃ e, call_charAt v i = Abrupt e.
Proof. destruct v; try discriminate; intros _; simpl; eauto. Qed.

(** Fields that are JSON scalars, or missing, convert to text. *)
Lemma metric_text_scalar data g v :
  get data (metric_prop g) = Normal v → scalar v = true →
  ∃ s, metric_text data g = Normal s.
Proof.
  intros E S. unfold metric_text. rewrite E. cbn [mbind completion_bind cbind].
  unfold or_else. destruct (truthy v) eqn:T; [|by eexists].
  destruct v as [| |[]| | | | |]; try discriminate; simpl; eauto.
Qed.

(** X13.  When a card is rendered.  For a product whose four fields are
    JSON scalars or missing, [renderProduct] returns a card exactly when
    the price is there (not [undefined], not [null]) and the product has
    an icon URL that is truthy or a name that is a string; in every
    other case it throws.  A missing name alone does not prevent the
    card, and neither does a missing background colour. *)
Theorem renderProduct_renders_iff (product vi vn vb vp : value) :
  get product iconUrl = Normal vi → get product name = Normal vn →
  get product iconBgColor = Normal vb → get product price = Normal vp →
  scalar vi = true → scalar vn = true → scalar vb = true → scalar vp = true →
  (∃ card, renderProduct product = Normal card)
  ↔ nullish vp = false ∧ (truthy vi = true ∨ is_string vn = true).
Proof.
  intros Ei En Eb Ep Si Sn Sb Sp. unfold renderProduct. rewrite Ei, En, Eb, Ep.
  cbn [mbind completion_bind cbind].
  destruct (scalar_ToString vi Si) as [si Ti].
  destruct (scalar_ToString vn Sn) as [sn Tn].
  assert (Sd : scalar (or_else vb (VStr fallbackBg)) = true)
    by (unfold or_else; by destruct (truthy vb)).
  destruct (scalar_ToString _ Sd) as [sb Tb].
  pose proof (scalar_toLocaleString (js "tr-TR") vp Sp) as Tp.
  pose proof (scalar_call_charAt vn 0 Sn) as Tc.
  rewrite Tn, Tb. cbn [mbind completion_bind cbind].
  destruct (truthy vi) eqn:Tr.
  - rewrite Ti. cbn [mbind completion_bind cbind mret completion_ret].
    destruct (nullish vp).
    + rewrite Tp. cbn [cbind]. split; [by intros [card E]|by intros [E _]].
    + destruct Tp as [sp' ->]. cbn [cbind]. split; [auto|eauto].
  - destruct (is_string vn).
    + destruct Tc as [sc ->]. cbn [mbind completion_bind cbind mret completion_ret].
      destruct (nullish vp).
      * rewrite Tp. cbn [cbind]. split; [by intros [card E]|by intros [E _]].
      * destruct Tp as [sp' ->]. cbn [cbind]. split; [auto|eauto].
    + destruct Tc as [e ->]. cbn [mbind completion_bind cbind].
      split; [by intros [card E]|]. intros [_ [E|E]]; discriminate E.
Qed.

(** *** Series of any type *)


(** *** The tooltip of the channel chart *)

(** X14.  The channel chart a call with a channel mix leaves on its
    canvas is drawn from the labels and the values of the mix, with a
    70% cutout, and labels a slice with its label, a colon and the value
    followed by a percent sign; the value and the sign alone for a slice
    whose label is missing or empty, and the label and the colon alone
    where the value is [null]. *)
Theorem channel_chart_tooltips (mix : ChannelMix) (w : World) :
  owned w → present (js "channelLegends") w →
  ∃ w' c,
    updateSalesByChannelChart (channel_value mix) w = Returns tt w' ∧
    chart_config <$> live_on SalesByChannelCanvas w' = [Doughnut c] ∧
    arc_labels c = VArr (VStr <$> channel_labels mix) ∧
    arc_data c = VArr (VNum <$> channel_values mix) ∧
    arc_cutout c = js "70%" ∧
    (∀ l y, l ≠ [] →
       arc_tooltip c {| slice_label := Some l; parsed := Some y |}
       = l ++ js ": " ++ NumberToString y ++ js "%") ∧
    (∀ l y, l = None ∨ l = Some [] →
       arc_tooltip c {| slice_label := l; parsed := Some y |}
       = NumberToString y ++ js "%") ∧
    (∀ l, l ≠ [] →
       arc_tooltip c {| slice_label := Some l; parsed := None |} = l ++ js ": ").
Proof.
  intros O P.
  eexists _, (salesByChannelConfig (VArr (VStr <$> channel_labels mix))
                (VArr (VNum <$> channel_values mix))
                (take (length (channel_labels mix)) channelColors)).
  split; [by apply updateSalesByChannelChart_mix|].
  split; [|split; [reflexivity|split; [reflexivity|split; [reflexivity|split; [|split]]]]].
  - erewrite (live_on_same_registry _ (redrawn _ _ w)); [|by repeat split].
    by rewrite live_on_redrawn.
  - intros l y N. cbn [arc_tooltip salesByChannelConfig]. unfold channelTooltip.
    cbn [slice_label parsed default truthy]. rewrite bool_decide_false by done.
    cbn [negb]. by rewrite <- app_assoc.
  - intros l y [-> | ->]; reflexivity.
  - intros l N. cbn [arc_tooltip salesByChannelConfig]. unfold channelTooltip.
    cbn [slice_label parsed default truthy]. by rewrite bool_decide_false.
Qed.

(** *** URLs *)

Lemma call_includes_unsearchable url :
  searchable url = false → ∃ e, ∀ k, call_includes url k = Abrupt e.
Proof. destruct url; try discriminate; intros _; simpl; eauto. Qed.

(** X15.  An argument that has no [includes] method, that is, anything
    but a string or an array, makes the lookup throw inside the [try]
    block: [fetchData] records the request, reports the exception on the
    console as its last entry, and returns a promise that is fulfilled
    with [null] at once, not after the mock delay. *)
Theorem fetchData_reports_failed_lookup (url : value) (w : World) :
  searchable url = false →
  ∃ e w', fetchData url w = Returns {| delay := 0; settles := Fulfilled VNull |} w' ∧
          last (console w') = Some (Error (js "Veri çekme hatası:") e) ∧
          journal w' = journal w ++ [Requested url] ∧
          clock w' = clock w.
Proof.
  intros S. destruct (call_includes_unsearchable url S) as [e E].
  unfold fetchData, async, try_catch, mark, console_log, console_error, modify.
  unfold mbind, M_bind, lift.
  destruct (ToString url) as [shown|e'].
  - unfold MOCK_API_RESPONSES. cbn [map fst find_key]. rewrite E. cbn [cbind].
    eexists _, _. split; [reflexivity|]. cbn [console journal clock with_console with_journal].
    split; [apply last_snoc|done].
  - eexists _, _. split; [reflexivity|]. cbn [console journal clock with_console with_journal].
    split; [apply last_snoc|done].
Qed.

Lemma includes_unfold s sub :
  includes s sub
  = starts_with s sub || match s with [] => false | _ :: s' => includes s' sub end.
Proof. by destruct s. Qed.

Lemma starts_with_spec s sub : starts_with s sub = true ↔ ∃ post, s = sub ++ post.
Proof.
  revert s. induction sub as [|p sub IH]; intros s.
  - split; [intros _; by exists s|intros _; by destruct s].
  - destruct s as [|c s]; simpl.
    + split; [done|]. by intros [post E].
    + rewrite andb_true_iff, N.eqb_eq, IH. split.
      * intros [-> [post ->]]. by exists post.
      * intros [post [= -> ->]]. split; [done|by exists post].
Qed.

(** [includes] is substring search. *)
Lemma includes_spec s sub : includes s sub = true ↔ occurs_in sub s.
Proof.
  unfold occurs_in. induction s as [|c s IH].
  - rewrite includes_unfold, orb_false_r, starts_with_spec. split.
    + intros [post E]. by exists [], post.
    + intros ([|? pre] & post & E); [by exists post|done].
  - rewrite includes_unfold, orb_true_iff, starts_with_spec, IH. split.
    + intros [[post E]|(pre & post & E)].
      * by exists [], post.
      * exists (c :: pre), post. by rewrite E.
    + intros ([|x pre] & post & E).
      * left. by exists post.
      * right. injection E as -> E. by exists pre, post.
Qed.

Lemma registered_metrics url :
  includes url (mock_key Metrics) = true → registered url = Some (mock_payload Metrics).
Proof.
  cbn [mock_key]. intros E. unfold registered, MOCK_API_RESPONSES. cbn [find fst].
  rewrite E. vm_compute. reflexivity.
Qed.

Lemma registered_trend url :
  includes url (mock_key Metrics) = false →
  includes url (mock_key RevenueTrend) = true →
  registered url = Some (mock_payload RevenueTrend).
Proof.
  cbn [mock_key]. intros E1 E. unfold registered, MOCK_API_RESPONSES. cbn [find fst].
  rewrite E1, E. vm_compute. reflexivity.
Qed.

Lemma registered_channels url :
  includes url (mock_key Metrics) = false →
  includes url (mock_key RevenueTrend) = false →
  includes url (mock_key SalesByChannel) = true →
  registered url = Some (mock_payload SalesByChannel).
Proof.
  cbn [mock_key]. intros E1 E2 E. unfold registered, MOCK_API_RESPONSES. cbn [find fst].
  rewrite E1, E2, E. vm_compute. reflexivity.
Qed.

Lemma registered_products url :
  includes url (mock_key Metrics) = false →
  includes url (mock_key RevenueTrend) = false →
  includes url (mock_key SalesByChannel) = false →
  includes url (mock_key TopSellingProducts) = true →
  registered url = Some (mock_payload TopSellingProducts).
Proof.
  cbn [mock_key]. intros E1 E2 E3 E. unfold registered, MOCK_API_RESPONSES. cbn [find fst].
  rewrite E1, E2, E3, E. vm_compute. reflexivity.
Qed.

Lemma registered_first url r :
  includes url (mock_key r) = true →
  (∀ r', table_index r' < table_index r → includes url (mock_key r') = false) →
  registered url = Some (mock_payload r).
Proof.
  intros E N. destruct r.
  - by apply registered_metrics.
  - apply registered_trend; [apply N; simpl; lia|done].
  - apply registered_channels; [apply N; simpl; lia..|done].
  - apply registered_products; [apply N; simpl; lia..|done].
Qed.

(** X16.  [fetchData] looks for the key anywhere in the URL: whatever
    the host, the path before the key and the query after it, a URL in
    which the key of a resource occurs, and in which the key of no
    earlier resource of the table occurs, gets that resource's payload,
    after the mock delay. *)
Theorem fetchData_finds_key_anywhere (url : jsstring) (r : Resource) (w : World) :
  occurs_in (mock_key r) url →
  (∀ r', table_index r' < table_index r → ¬ occurs_in (mock_key r') url) →
  ∃ w', fetchData (VStr url) w = Returns (resolve_after 500 (mock_payload r)) w'.
Proof.
  intros O N. eexists. rewrite fetchData_string, (registered_first url r); [reflexivity| |].
  - by apply includes_spec.
  - intros r' L. apply not_true_is_false. rewrite includes_spec. by apply N.
Qed.

End Edges.

(** * Further runs, on the page shell and the reference host *)

Section FurtherRuns.
#[local] Existing Instance reference_host.

Lemma tidy_page : tidy page.
Proof. split; [exact owned_page|by intros []|done]. Qed.

Lemma complete_page_page : complete_page page.
Proof. split; [exact metrics_on_page|split; [exact legends_on_page|exact grid_on_page]]. Qed.

Lemma tidy_page_without id : tidy (page_without id).
Proof. apply (tidy_same_registry page); [by repeat split|exact tidy_page]. Qed.

(** X3, with the channel chart on its canvas. *)
Lemma chart_updaters_are_independent_witness :
  tidy page_with_doughnut ∧
  length (live_on SalesByChannelCanvas page_with_doughnut) = 1 ∧
  same_chart SalesByChannelCanvas page_with_doughnut
    (after (updateRevenueTrendChart (mock_payload RevenueTrend)) page_with_doughnut) ∧
  tidy (after (updateRevenueTrendChart (mock_payload RevenueTrend)) page_with_doughnut).
Proof.
  assert (T : tidy page_with_doughnut) by apply tidy_redrawn, tidy_page.
  split; [exact T|]. split; [reflexivity|].
  exact (proj1 (chart_updaters_are_independent (mock_payload RevenueTrend)
                  page_with_doughnut T)).
Defined.

(** X4, on the page shell. *)
Lemma loadDashboardData_keeps_charts_in_order_witness :
  tidy (after loadDashboardData page) ∧
  ∀ c, length (live_on c (after loadDashboardData page)) ≤ 1.
Proof. exact (loadDashboardData_keeps_charts_in_order page tidy_page). Defined.

Lemma before_basket_on_page g :
  g ∈ written_before AverageBasket →
  present (metric_target g) (page_without (js "averageBasket")).
Proof.
  intros I. apply elem_of_cons in I as [->|I]; [exists []; vm_compute; reflexivity|].
  apply elem_of_cons in I as [->|I]; [exists []; vm_compute; reflexivity|].
  by apply elem_of_nil in I.
Qed.

(** X5, on the page shell without the basket element. *)
Lemma updateMetrics_stops_at_missing_target_witness :
  ∃ w', updateMetrics (mock_payload Metrics) (page_without (js "averageBasket"))
        = Throws TypeError_nullish w' ∧
        (∀ g, g ∈ written_before AverageBasket →
              document w' !! metric_target g = Some (text_content (mock_metric g))) ∧
        (∀ id, (∀ g, g ∈ written_before AverageBasket → id ≠ metric_target g) →
               document w' !! id = document (page_without (js "averageBasket")) !! id).
Proof.
  apply (updateMetrics_stops_at_missing_target (mock_payload Metrics) mock_metric
           AverageBasket (page_without (js "averageBasket"))).
  - reflexivity.
  - intros g I. split; [by apply before_basket_on_page|apply metric_text_mock].
  - vm_compute. reflexivity.
Defined.

(** X6, on the page shell without the legend. *)
Lemma channel_chart_drawn_before_legend_fails_witness :
  ∃ w' c,
    updateSalesByChannelChart (channel_value mock_mix) (page_without (js "channelLegends"))
    = Throws TypeError_nullish w' ∧
    chart_config <$> live_on SalesByChannelCanvas w' = [Doughnut c] ∧
    arc_labels c = VArr (VStr <$> channel_labels mock_mix) ∧
    arc_data c = VArr (VNum <$> channel_values mock_mix) ∧
    document w' = document (page_without (js "channelLegends")).
Proof.
  apply (channel_chart_drawn_before_legend_fails mock_mix
           (page_without (js "channelLegends"))).
  - apply tidy_page_without.
  - vm_compute. reflexivity.
Defined.

(** X7: a product without a price between two good ones. *)
Lemma products_rendered_until_malformed_witness :
  ∃ w', updateTopSellingProducts
          (VArr ((product_value <$> [pencil]) ++ unpriced :: [product_value pencil])) page
        = Throws TypeError_nullish w' ∧
        document w' !! js "topSellingProducts" = Some (summaryCard <$> [pencil]).
Proof.
  apply (products_rendered_until_malformed [pencil] unpriced [product_value pencil]
           TypeError_nullish page grid_on_page).
  vm_compute. reflexivity.
Defined.

(** X8, on the page shell without the basket element. *)
Lemma loadDashboardData_stops_without_metric_target_witness :
  ∃ w', loadDashboardData (page_without (js "averageBasket")) = Throws TypeError_nullish w' ∧
        journal w' = journal (page_without (js "averageBasket"))
                     ++ [Requested (VStr (API_ENDPOINTS Metrics));
                         Settled (mock_payload Metrics)] ∧
        same_registry (page_without (js "averageBasket")) w' ∧
        (∀ g, g ∈ written_before AverageBasket →
              document w' !! metric_target g = Some (text_content (mock_metric g))) ∧
        clock w' = clock (page_without (js "averageBasket")) + 500.
Proof.
  apply (loadDashboardData_stops_without_metric_target AverageBasket
           (page_without (js "averageBasket"))).
  - apply before_basket_on_page.
  - vm_compute. reflexivity.
Defined.

(** X9, on the page shell without the product grid. *)
Lemma loadDashboardData_fails_last_without_grid_witness :
  ∃ w', loadDashboardData (page_without (js "topSellingProducts"))
        = Throws TypeError_nullish w' ∧
        journal w' = journal (page_without (js "topSellingProducts"))
                     ++ round Metrics ++ round RevenueTrend ++ round SalesByChannel
                     ++ [Requested (VStr (API_ENDPOINTS TopSellingProducts));
                         Settled (mock_payload TopSellingProducts)] ∧
        (∀ f, document w' !! metric_target f = Some (text_content (mock_metric f))) ∧
        (∀ c, length (live_on c w') = 1).
Proof.
  apply (loadDashboardData_fails_last_without_grid (page_without (js "topSellingProducts"))).
  - apply tidy_page_without.
  - intros f. destruct f; exists []; vm_compute; reflexivity.
  - exists []. vm_compute. reflexivity.
  - vm_compute. reflexivity.
Defined.

(** X10, on the page shell. *)
Lemma loadDashboardData_refresh_redraws_the_same_witness :
  ∃ w1 w2,
    loadDashboardData page = Returns tt w1 ∧ loadDashboardData w1 = Returns tt w2 ∧
    document w2 = document w1 ∧
    (∀ c, ∃ ch1 ch2, live_on c w1 = [ch1] ∧ live_on c w2 = [ch2] ∧
                     chart_config ch2 = chart_config ch1 ∧ chart_id ch1 < chart_id ch2) ∧
    clock w2 = clock page + 4000.
Proof.
  exact (loadDashboardData_refresh_redraws_the_same page tidy_page complete_page_page).
Defined.

(** X11, on the page shell, and on the shell without the trend canvas. *)
Lemma listener_binds_canvases_first_witness :
  tidy (after onDOMContentLoaded page) ∧
  onDOMContentLoaded (page_without (js "revenueTrendChart"))
  = Throws TypeError_nullish (page_without (js "revenueTrendChart")).
Proof.
  split.
  - pose proof (listener_binds_canvases_first page eq_refl) as K.
    replace (document page !! js "revenueTrendChart") with (Some (@nil node)) in K
      by (vm_compute; reflexivity).
    replace (document page !! js "salesByChannelChart") with (Some (@nil node)) in K
      by (vm_compute; reflexivity).
    exact (proj2 K).
  - pose proof (listener_binds_canvases_first (page_without (js "revenueTrendChart"))
                  eq_refl) as K.
    replace (document (page_without (js "revenueTrendChart")) !! js "revenueTrendChart")
      with (@None (list node)) in K by (vm_compute; reflexivity).
    exact K.
Defined.

(** X12: a number where the list of products is expected. *)
Lemma products_without_items_show_not_found_witness :
  ∃ w', updateTopSellingProducts (VNum 42) page = Returns tt w' ∧
        document w' !! js "topSellingProducts" = Some [Markup notFoundRow].
Proof.
  exact (proj1 (products_without_items_show_not_found (VNum 42) page grid_on_page) eq_refl).
Defined.

(** X13: a product without a name is rendered when it has an icon. *)
Lemma renderProduct_renders_iff_witness :
  ∃ card, renderProduct nameless = Normal card.
Proof.
  apply (renderProduct_renders_iff nameless
           (VStr (js "https://via.placeholder.com/60")) VUndefined VUndefined (VNum 25));
    try (vm_compute; reflexivity).
  split; [reflexivity|]. left. vm_compute. reflexivity.
Defined.

(** X14, for the mock channel mix on the page shell. *)
Lemma channel_chart_tooltips_witness :
  ∃ w' c,
    updateSalesByChannelChart (channel_value mock_mix) page = Returns tt w' ∧
    chart_config <$> live_on SalesByChannelCanvas w' = [Doughnut c] ∧
    arc_tooltip c {| slice_label := Some (js "Mobil App"); parsed := Some 25%float |}
    = js "Mobil App: 25%".
Proof.
  destruct (channel_chart_tooltips mock_mix page owned_page legends_on_page)
    as (w' & c & E & L & _ & _ & _ & T & _).
  exists w', c. split; [exact E|]. split; [exact L|].
  rewrite T by discriminate. vm_compute. reflexivity.
Defined.

(** X15: a number where the URL is expected. *)
Lemma fetchData_reports_failed_lookup_witness :
  ∃ e w', fetchData (VNum 7) page = Returns {| delay := 0; settles := Fulfilled VNull |} w' ∧
          last (console w') = Some (Error (js "Veri çekme hatası:") e) ∧
          journal w' = journal page ++ [Requested (VNum 7)] ∧
          clock w' = clock page.
Proof. exact (fetchData_reports_failed_lookup (VNum 7) page eq_refl). Defined.

(** X16: the trend key behind another host and a version prefix, before
    a query. *)
Lemma fetchData_finds_key_anywhere_witness :
  ∃ w', fetchData (VStr versioned_trend_url) page
        = Returns (resolve_after 500 (mock_payload RevenueTrend)) w'.
Proof.
  apply (fetchData_finds_key_anywhere versioned_trend_url RevenueTrend page).
  - apply includes_spec. vm_compute. reflexivity.
  - intros r' L O. apply includes_spec in O.
    destruct r'; simpl in L; try lia. vm_compute in O. discriminate O.
Defined.

(** X17, on the page shell. *)
Lemma loadDashboardData_shows_mock_data_witness :
  ∃ w', loadDashboardData page = Returns tt w' ∧
        (∀ f, document w' !! metric_target f = Some (text_content (mock_metric f))) ∧
        document w' !! js "channelLegends"
        = Some (legendRows (take (length (channel_labels mock_mix)) channelColors)
                  (channel_labels mock_mix)) ∧
        document w' !! js "topSellingProducts" = Some (summaryCard <$> mock_products) ∧
        chart_config <$> live_on RevenueTrendCanvas w' = [mock_line] ∧
        chart_config <$> live_on SalesByChannelCanvas w' = [mock_doughnut].
Proof. exact (loadDashboardData_shows_mock_data page tidy_page complete_page_page). Defined.

(** C8, on the page shell. *)
Lemma loadDashboardData_sequence_witness :
  (∃ w', loadDashboardData page = Returns tt w' ∧
         journal w' = journal page ++ round Metrics ++ round RevenueTrend
                                   ++ round SalesByChannel ++ round TopSellingProducts ∧
         clock w' = clock page + 2000 ∧
         console w' = console page ++ (request_log <$> load_order) ∧
         (∀ r, shown r w') ∧
         chart_seq w' = S (S (chart_seq page)) ∧
         (∀ id, (∀ f, id ≠ metric_target f) →
                id ≠ js "channelLegends" → id ≠ js "topSellingProducts" →
                document w' !! id = document page !! id)) ∧
  (∀ u, tidy u →
     ∃ n, 1 ≤ n ∧
          console (after loadDashboardData u)
          = console u ++ (request_log <$> take n load_order) ∧
          (∀ r, r ∈ take (n - 1) load_order → shown r (after loadDashboardData u)) ∧
          (thrown (loadDashboardData u) = None →
           n = 4 ∧ shown TopSellingProducts (after loadDashboardData u))).
Proof.
  exact (loadDashboardData_sequence page tidy_page metrics_on_page legends_on_page
           grid_on_page).
Defined.

(** C10: the statement as the specification has it fails on a metrics
    object whose revenue does not convert to text: [updateMetrics] throws
    at the first assignment, and the target of the order count, which is
    zero, never receives the default. *)
Lemma hidden_field_blocks_default :
  thrown (updateMetrics hidden_revenue page) = Some TypeError_to_primitive ∧
  document (after (updateMetrics hidden_revenue) page) !! js "totalOrders" = Some [] ∧
  ¬ falsy_gets_default_as_described hidden_revenue page.
Proof.
  split; [vm_compute; reflexivity|]. split; [vm_compute; reflexivity|].
  intros C. specialize (C TotalOrders (VNum 0) eq_refl eq_refl).
  vm_compute in C. discriminate C.
Qed.

End FurtherRuns.
